(** * The tabular learner's data-processing pipeline

    A shallow embedding of [DefaultLearner] from
    [tabular/src/autogluon/tabular/learner/default_learner.py]:
    [general_data_processing] and the helpers it sequences
    ([_check_for_non_finite_values], [adjust_threshold_if_necessary],
    [set_predefined_weights], [_apply_cleaner_transform], [bundle_weights]).

    Conventions of the embedding:
    - Python [int]s are [Z]; Python / numpy floats are exact rationals [Qc]
      (so [0.975] is 39/40 and [0.001] is 1/1000);
    - a raised exception is the [Raise] branch of [result];
    - a method that mutates [self] or logs is a function in the monad [M],
      which threads the learner and keeps it when an exception escapes;
    - pandas objects are finite tables: a [Series] is a list of
      (row key, cell) pairs, a [DataFrame] an index with named columns. *)

From Stdlib Require Import ZArith QArith Qcanon Qround Lia.
From stdpp Require Import base decidable option list list_numbers numbers strings sorting gmap.

Open Scope Z_scope.

(** ** Cells, series and frames *)

(** A cell of a frame: Python [None], numpy [nan], [inf] / [-inf], a finite
    number or a string. *)
Inductive value : Type :=
  | VNone
  | VNaN
  | VInf (negative : bool)
  | VNum (q : Qc)
  | VStr (s : string).

Global Instance value_eq_dec : EqDecision value.
Proof. solve_decision. Defined.

Definition VInt (z : Z) : value := VNum (Qc_of_Z z).

(** [pandas.isna] on one cell. *)
Definition isna (v : value) : bool :=
  match v with
  | VNone | VNaN => true
  | _ => false
  end.

Definition notna (v : value) : bool := negb (isna v).

(** [Series.replace([np.inf, -np.inf], np.nan)] on one cell. *)
Definition replace_inf (v : value) : value :=
  match v with
  | VInf _ => VNaN
  | _ => v
  end.

(** Column labels; [None] is the Python [None] an unset option holds. *)
Definition colname : Type := option string.

(** A series: the row keys with their cells, in row order. *)
Abbreviation Series := (list (value * value)).

Definition s_index (y : Series) : list value := y.*1.
Definition s_values (y : Series) : list value := y.*2.

Record DataFrame : Type := mkDataFrame {
  df_index : list value;
  df_columns : list (colname * list value)
}.

(** [len(X)] *)
Definition df_len (X : DataFrame) : nat := length (df_index X).

(** [X.columns] *)
Definition df_colnames (X : DataFrame) : list colname := (df_columns X).*1.

(** [c in X.columns] *)
Definition df_has_column (c : colname) (X : DataFrame) : bool :=
  bool_decide (c ∈ df_colnames X).

Fixpoint assoc_lookup {K V} `{EqDecision K} (k : K) (l : list (K * V)) : option V :=
  match l with
  | [] => None
  | (k', v) :: l => if decide (k = k') then Some v else assoc_lookup k l
  end.

(** Python's [d[k] = v] on an insertion-ordered table: overwrite in place
    when the key exists, append otherwise. *)
Fixpoint assoc_set {K V} `{EqDecision K} (k : K) (v : V) (l : list (K * V)) : list (K * V) :=
  match l with
  | [] => [(k, v)]
  | (k', v') :: l => if decide (k = k') then (k, v) :: l else (k', v') :: assoc_set k v l
  end.

(** [X[c]] when the column exists. *)
Definition df_get (c : colname) (X : DataFrame) : option Series :=
  vals ← assoc_lookup c (df_columns X); Some (zip (df_index X) vals).

(** [X[c] = vals], positionally. *)
Definition df_set (c : colname) (vals : list value) (X : DataFrame) : DataFrame :=
  mkDataFrame (df_index X) (assoc_set c vals (df_columns X)).

(** ** Exceptions and results *)

Inductive exn : Type :=
  | ZeroDivisionError
  | TypeError_None_compare
  | TypeError_None_subscript
  | TypeError_None_item_assignment
  | TypeError_not_orderable
  | AttributeError_None (attribute : string)
  | ValueError_unpack
  | UnboundLocalError (variable : string)
  | KeyError (c : colname)
  | ValueError_non_finite_label (name : string) (first_invalid_label_idx : value)
  | ValueError_weight_column_in_data (sample_weight : colname)
  | ValueError_weights_missing (sample_weight : colname) (name : string)
  | ValueError_no_objects_to_concatenate
  | ValueError_length_mismatch (expected actual : nat)
  | ValueError_duplicate_axis
  | NotImplementedError_auto_weight
  | AssertionError_low_frequency_classes (name : string)
  | CollaboratorError (msg : string).

Inductive result (A : Type) : Type :=
  | Ok (a : A)
  | Raise (e : exn).
Arguments Ok {A} a.
Arguments Raise {A} e.

Definition is_ok {A} (r : result A) : bool :=
  match r with Ok _ => true | Raise _ => false end.

(** ** Problem types and metrics *)

(** Modelled from the spec: the constants [BINARY], [MULTICLASS],
    [REGRESSION], [QUANTILE] of [autogluon.core.constants], which the spec
    gives as the enum {binary, multiclass, regression, quantile};
    [OTHER_PROBLEM] stands for any other value [self.problem_type] holds. *)
Inductive problem_type_t : Type :=
  | BINARY
  | MULTICLASS
  | REGRESSION
  | QUANTILE
  | OTHER_PROBLEM (name : string).

Global Instance problem_type_eq_dec : EqDecision problem_type_t.
Proof. solve_decision. Defined.

(** Modelled from the spec: the weighting strategies ["auto"] and
    ["balance"], the constants [AUTO_WEIGHT] and [BALANCE_WEIGHT] of
    [autogluon.core.constants]. *)
Definition AUTO_WEIGHT : colname := Some "auto"%string.
Definition BALANCE_WEIGHT : colname := Some "balance"%string.

Record Scorer : Type := mkScorer {
  scorer_name : string;
  needs_proba : bool
}.

(** ** [Series.value_counts] *)

Definition sum_list_Z (l : list Z) : Z := foldr Z.add 0 l.

(** Distinct elements in order of first appearance. *)
Definition unique {A} `{EqDecision A} (vs : list A) : list A :=
  reverse (remove_dups (reverse vs)).

Definition count_of (c : value) (vs : list value) : Z :=
  Z.of_nat (length (filter (λ v, v = c) vs)).

(** The order of the count table: most frequent first. *)
Definition count_ge (a b : value * Z) : Prop := b.2 ≤ a.2.

Global Instance count_ge_dec : RelDecision count_ge.
Proof. intros a b. unfold count_ge. apply _. Defined.

(** [y.value_counts()]: missing cells are dropped, every other distinct
    cell is a class, listed with its number of rows, most frequent first. *)
Definition value_counts (y : Series) : list (value * Z) :=
  let vs := filter (λ v, notna v = true) (s_values y) in
  merge_sort count_ge ((λ c, (c, count_of c vs)) <$> unique vs).

(** ** The learner *)

(** What the module-level [logger] receives. *)
Inductive log_message : Type :=
  | MsgThresholdUpdated (threshold new_threshold : Z)
  | MsgHoldoutFracUpdated (holdout_frac new_holdout_frac : Qc)
  | MsgNumBagFoldsUpdated (num_bag_folds new_num_bag_folds : Z)
  | MsgTrainClassCount (num_classes : Z)
  | MsgAllLowFrequency (name : string)
  | MsgTrainClasses (train_classes : list value)
  | MsgSplitClasses (name : string) (val_classes : list value)
  | MsgTrainClassDtype
  | MsgSplitClassDtype (name : string)
  | MsgMissingClasses (missing_classes : list value)
  | MsgBannerEnd
  | MsgUsingFeatureGenerators
  | MsgMergedPreprocessing
  | MsgAlreadyFit
  | MsgAssigningBalanceWeights
  | MsgBalanceWeights (class_weights : list (value * Qc)).

(** Calls made on [self.feature_generator] (directly or through
    [fit_transform_features]); [completed] tells whether the call returned. *)
Inductive fg_call : Type :=
  | CallTransform (X : DataFrame)
  | CallFitTransform (X : DataFrame) (completed : bool)
  | CallPrintFeatureMetadataInfo.

Section Learner.

(** The collaborators' own state is opaque to the learner. *)
Context {Cleaner LabelCleaner FeatureGenerator : Type}.

Record learner : Type := mkLearner {
  label : colname;
  problem_type : problem_type_t;
  eval_metric : option Scorer;
  groups : colname;
  sample_weight : colname;
  weight_evaluation : bool;
  _positive_class : option value;
  threshold : Z;
  class_weights : option (list (value * Qc));
  cleaner : option Cleaner;
  label_cleaner : option LabelCleaner;
  feature_generator : FeatureGenerator;
  _original_features : option (list colname);
  (* observation only: the log written so far and the calls made on the
     feature generator so far, oldest first *)
  logged : list (Z * log_message);
  fg_calls : list fg_call
}.

(** A method of the learner: it may change [self], and returns or raises. *)
Definition M (A : Type) : Type := learner → result A * learner.

Definition ret {A} (a : A) : M A := λ self, (Ok a, self).
Definition raise {A} (e : exn) : M A := λ self, (Raise e, self).
Definition bind {A B} (m : M A) (k : A → M B) : M B :=
  λ self, match m self with
          | (Ok a, self') => k a self'
          | (Raise e, self') => (Raise e, self')
          end.
Definition get : M learner := λ self, (Ok self, self).
Definition modify (f : learner → learner) : M unit := λ self, (Ok tt, f self).
Definition lift {A} (r : result A) : M A := λ self, (r, self).

Definition logger_log (level : Z) (msg : log_message) : M unit :=
  modify (λ self, mkLearner (label self) (problem_type self) (eval_metric self)
    (groups self) (sample_weight self) (weight_evaluation self)
    (_positive_class self) (threshold self) (class_weights self) (cleaner self)
    (label_cleaner self) (feature_generator self) (_original_features self)
    (logged self ++ [(level, msg)]) (fg_calls self)).

Definition logger_warning (msg : log_message) : M unit := logger_log 30 msg.

End Learner.

Arguments learner : clear implicits.
Arguments M : clear implicits.

Global Instance M_ret {C L F} : MRet (M C L F) := λ A, ret.
Global Instance M_bind {C L F} : MBind (M C L F) := λ A B k m, bind m k.

(** ** [_adjust_threshold_if_necessary] (lines 418-459) *)

(** Python's [max(a, b)]: the first argument unless the second is larger. *)
Definition py_max (a b : Qc) : Qc := if decide (a < b)%Qc then b else a.

(** [math.ceil(total_rows * 0.975)] *)
Definition minimum_rows_to_keep_of (total_rows : Z) : Z :=
  Qceiling (inject_Z total_rows * (975 # 1000)).

Definition minimums_met (minimum_rows_to_keep minimum_class_to_keep
    num_rows_valid num_classes_valid : Z) : bool :=
  bool_decide (minimum_rows_to_keep ≤ num_rows_valid)
  && bool_decide (minimum_class_to_keep ≤ num_classes_valid).

(** The loop of lines 452-457 over [class_counts.iloc[i]], started at
    position [i] of the count table with the three running variables. *)
Fixpoint accumulate_classes (minimum_rows_to_keep minimum_class_to_keep : Z)
    (class_counts : list Z) (num_classes_valid num_rows_valid : Z)
    (new_threshold : option Z) : option Z :=
  match class_counts with
  | [] => new_threshold
  | c :: rest =>
      let num_classes_valid := num_classes_valid + 1 in
      let num_rows_valid := num_rows_valid + c in
      let new_threshold := Some c in
      if minimums_met minimum_rows_to_keep minimum_class_to_keep
           num_rows_valid num_classes_valid
      then new_threshold
      else accumulate_classes minimum_rows_to_keep minimum_class_to_keep rest
             num_classes_valid num_rows_valid new_threshold
  end.

Section AdjustThreshold.
Context {Cleaner LabelCleaner FeatureGenerator : Type}.
Local Abbreviation learner := (learner Cleaner LabelCleaner FeatureGenerator).
Local Abbreviation M := (M Cleaner LabelCleaner FeatureGenerator).

(** The threshold is [None] when the loop runs over an empty count table. *)
Definition _adjust_threshold_if_necessary (self : learner) (y : Series)
    (threshold : Z) (holdout_frac : Qc) (num_bag_folds : Z)
    : result (option Z * Qc * Z) :=
  let new_threshold := threshold in
  let num_rows := Z.of_nat (length y) in
  if decide (num_rows = 0) then Raise ZeroDivisionError else
  let holdout_frac :=
    py_max holdout_frac (1 / Qc_of_Z num_rows + Q2Qc (1 # 1000))%Qc in
  let num_bag_folds := Z.min num_bag_folds num_rows in
  let minimum_safe_threshold := if decide (num_bag_folds < 2) then 1 else 2 in
  let new_threshold :=
    if decide (minimum_safe_threshold > new_threshold)
    then minimum_safe_threshold else new_threshold in
  if bool_decide (problem_type self ∈ [REGRESSION; QUANTILE])
  then Ok (Some new_threshold, holdout_frac, num_bag_folds) else
  let class_counts := value_counts y in
  let total_rows := sum_list_Z class_counts.*2 in
  let minimum_rows_to_keep := minimum_rows_to_keep_of total_rows in
  let minimum_class_to_keep := 2 in
  let class_counts_valid := filter (λ cc, new_threshold ≤ cc.2) class_counts in
  let num_rows_valid := sum_list_Z class_counts_valid.*2 in
  let num_classes_valid := Z.of_nat (length class_counts_valid) in
  if minimums_met minimum_rows_to_keep minimum_class_to_keep
       num_rows_valid num_classes_valid
  then Ok (Some new_threshold, holdout_frac, num_bag_folds) else
  let new_threshold :=
    accumulate_classes minimum_rows_to_keep minimum_class_to_keep
      class_counts.*2 0 0 None in
  Ok (new_threshold, holdout_frac, num_bag_folds).

(** ** [adjust_threshold_if_necessary] (lines 406-416) *)

Definition adjust_threshold_if_necessary (y : Series) (threshold : Z)
    (holdout_frac : Qc) (num_bag_folds : Z) : M (Z * Qc * Z) :=
  self ← get;
  '(new_threshold, new_holdout_frac, new_num_bag_folds) ←
    lift (_adjust_threshold_if_necessary self y threshold holdout_frac num_bag_folds);
  match new_threshold with
  | None =>
      (* [None != threshold] holds and [None < threshold] raises *)
      raise TypeError_None_compare
  | Some new_threshold =>
      (if decide (new_threshold ≠ threshold) then
         if decide (new_threshold < threshold)
         then logger_warning (MsgThresholdUpdated threshold new_threshold)
         else ret tt
       else ret tt);;
      (if decide (new_holdout_frac ≠ holdout_frac) then
         if decide (holdout_frac < new_holdout_frac)%Qc
         then logger_warning (MsgHoldoutFracUpdated holdout_frac new_holdout_frac)
         else ret tt
       else ret tt);;
      (if decide (new_num_bag_folds ≠ num_bag_folds)
       then logger_warning (MsgNumBagFoldsUpdated num_bag_folds new_num_bag_folds)
       else ret tt);;
      ret (new_threshold, new_holdout_frac, new_num_bag_folds)
  end.

End AdjustThreshold.

(** ** What a threshold keeps of the training labels

    The cleaner built from the adjusted threshold keeps the classes whose
    count in [y.value_counts()] is at least the threshold. *)

Definition total_rows (y : Series) : Z := sum_list_Z (value_counts y).*2.

Definition rows_retained (y : Series) (t : Z) : Z :=
  sum_list_Z (filter (λ cc, t ≤ cc.2) (value_counts y)).*2.

Definition classes_retained (y : Series) (t : Z) : Z :=
  Z.of_nat (length (filter (λ cc, t ≤ cc.2) (value_counts y))).

(** At least [ceil(0.975 * total_rows)] rows and at least 2 classes stay. *)
Definition retains_enough (y : Series) (t : Z) : Prop :=
  minimum_rows_to_keep_of (total_rows y) ≤ rows_retained y t
  ∧ 2 ≤ classes_retained y t.

(** ** Auxiliary notions for the threshold proofs *)

Definition descending (cs : list Z) : Prop := StronglySorted (λ a b, b ≤ a) cs.

(** What is kept of a count table at threshold [t]. *)
Definition kept (cs : list Z) (t : Z) : list Z := filter (λ c, t ≤ c) cs.

Definition enough_kept (mr mc : Z) (cs : list Z) (t : Z) : Prop :=
  mr ≤ sum_list_Z (kept cs t) ∧ mc ≤ Z.of_nat (length (kept cs t)).

(** The test of line 456 after the class at position [j] has been added,
    for a loop started with [nc] classes and [nr] rows. *)
Definition met_at (mr mc : Z) (cs : list Z) (nc nr : Z) (j : nat) : bool :=
  minimums_met mr mc (nr + sum_list_Z (take (S j) cs)) (nc + Z.of_nat (S j)).

(** [num_bag_folds] after line 422 and [new_threshold] after line 430. *)
Definition clamped_folds (y : Series) (num_bag_folds : Z) : Z :=
  Z.min num_bag_folds (Z.of_nat (length y)).

Definition safe_threshold (y : Series) (threshold num_bag_folds : Z) : Z :=
  let ms := if decide (clamped_folds y num_bag_folds < 2) then 1 else 2 in
  if decide (ms > threshold) then ms else threshold.

(** ** Concrete learners and label series used in the examples *)

(** A learner whose collaborators carry no state. *)
Definition plain_learner (problem : problem_type_t) (sample_weight : colname)
    (weight_evaluation : bool) : learner unit unit unit :=
  mkLearner (Some "class"%string) problem None None sample_weight
    weight_evaluation None 1 None None None tt None [] [].

(** A series over the default [RangeIndex]. *)
Definition series_of (vs : list value) : Series :=
  zip (VInt <$> seqZ 0 (Z.of_nat (length vs))) vs.

(** Labels given as (number of rows, class) blocks. *)
Definition labels_of (blocks : list (nat * value)) : Series :=
  series_of (blocks ≫= (λ b, replicate b.1 b.2)).

Definition y_100_50_1 : Series :=
  labels_of [(100%nat, VStr "a"); (50%nat, VStr "b"); (1%nat, VStr "c")].

(** ** Results as a monad, and Python's [sorted] *)

Global Instance result_ret : MRet result := λ A, Ok.
Global Instance result_bind : MBind result := λ A B k r,
  match r with
  | Ok a => k a
  | Raise e => Raise e
  end.

(** Which Python values compare with [<]: numbers (floats included) among
    themselves, strings among themselves, [None] with nothing. *)
Inductive value_kind : Type := KNumber | KString | KNoneType.

Global Instance value_kind_eq_dec : EqDecision value_kind.
Proof. solve_decision. Defined.

Definition kind_of (v : value) : value_kind :=
  match v with
  | VNone => KNoneType
  | VStr _ => KString
  | VNaN | VInf _ | VNum _ => KNumber
  end.

(** [a <= b] within one kind; where [nan] lands among numbers is not
    specified by Python and no statement below depends on it. *)
Definition value_leb (a b : value) : bool :=
  match a, b with
  | VStr s, VStr t => String.leb s t
  | VInf true, _ => true
  | _, VInf true => false
  | _, VNaN => true
  | VNaN, _ => false
  | _, VInf false => true
  | VInf false, _ => false
  | VNum p, VNum q => bool_decide (p ≤ q)%Qc
  | _, _ => true
  end.

Definition value_le (a b : value) : Prop := value_leb a b = true.

Global Instance value_le_dec : RelDecision value_le.
Proof. intros a b. unfold value_le. apply _. Defined.

(** [sorted(l)]: a list of fewer than two items is returned as it is
    without any comparison; otherwise the items are compared, which raises
    [TypeError] as soon as two of them are not of one orderable kind. *)
Definition py_sorted (l : list value) : result (list value) :=
  match l with
  | [] | [_] => Ok l
  | v :: _ =>
      if bool_decide (kind_of v ≠ KNoneType
                      ∧ Forall (λ v', kind_of v' = kind_of v) l)
      then Ok (merge_sort value_le l)
      else Raise TypeError_not_orderable
  end.

(** ** More of pandas *)

Definition empty_frame : DataFrame := mkDataFrame [] [].

(** [pd.Series(v, index=keys)] *)
Definition series_const (v : value) (keys : list value) : Series :=
  (λ k, (k, v)) <$> keys.

(** [RangeIndex(n)] *)
Definition range_index (n : nat) : list value := VInt <$> seqZ 0 (Z.of_nat n).

(** The cells of column [c] of [X], missing markers when [X] lacks it. *)
Definition column_or_nan (c : colname) (X : DataFrame) : list value :=
  default (replicate (df_len X) VNaN) (assoc_lookup c (df_columns X)).

(** [pd.concat(datasets, ignore_index=True)] on frames: [None] entries are
    dropped, rows are stacked in order over the union of the columns, and
    the index is renumbered. *)
Definition concat_frames (datasets : list (option DataFrame)) : result DataFrame :=
  let present := omap id datasets in
  match present with
  | [] => Raise ValueError_no_objects_to_concatenate
  | _ =>
      let columns := unique (present ≫= df_colnames) in
      Ok (mkDataFrame
            (range_index (sum_list (df_len <$> present)))
            ((λ c, (c, present ≫= column_or_nan c)) <$> columns))
  end.

(** [pd.concat(y_list, ignore_index=True)] on series. *)
Definition concat_series (y_list : list (option Series)) : result Series :=
  let present := omap id y_list in
  match present with
  | [] => Raise ValueError_no_objects_to_concatenate
  | _ =>
      let vals := present ≫= s_values in
      Ok (zip (range_index (length vals)) vals)
  end.

(** [X.iloc[idx : idx + length]] *)
Definition iloc (idx length : nat) (X : DataFrame) : DataFrame :=
  mkDataFrame (take length (drop idx (df_index X)))
    ((λ cv, (cv.1, take length (drop idx cv.2))) <$> df_columns X).

(** [X.set_index(keys)] for an index object [keys]. *)
Definition set_index (keys : list value) (X : DataFrame) : result DataFrame :=
  if decide (length keys = df_len X)
  then Ok (mkDataFrame keys (df_columns X))
  else Raise (ValueError_length_mismatch (df_len X) (length keys)).

(** [s.idxmax()] on a boolean series: the key of the first [True], of the
    first row when there is none. *)
Definition idxmax (s : list (value * bool)) : option value :=
  match filter (λ kb, kb.2 = true) s with
  | (k, _) :: _ => Some k
  | [] => fst <$> head s
  end.

(** ** [_check_for_non_finite_values] (lines 346-359)

    The function copies its argument before it writes to it, so frames are
    objects on a heap here: the caller's frame and the copy are two
    locations. *)

Abbreviation heap := (gmap positive DataFrame).

(** [copy.deepcopy(X)] *)
Definition deepcopy (h : heap) (X : option positive) : option positive * heap :=
  match X with
  | None => (None, h)
  | Some l =>
      let l' := fresh (dom h) in
      (Some l', <[l' := default empty_frame (h !! l)]> h)
  end.

Section CheckNonFinite.
Context {Cleaner LabelCleaner FeatureGenerator : Type}.
Local Abbreviation learner := (learner Cleaner LabelCleaner FeatureGenerator).

Definition _check_for_non_finite_values (self : learner) (h : heap)
    (X : option positive) (name : string) (is_train : bool)
    : result (option positive) * heap :=
  if is_train
     || match X with
        | Some l => df_has_column (label self) (default empty_frame (h !! l))
        | None => false
        end
  then
    let '(X, h) := deepcopy h X in
    match X with
    | None => (Raise TypeError_None_subscript, h)
    | Some l =>
        let frame := default empty_frame (h !! l) in
        match df_get (label self) frame with
        | None => (Raise (KeyError (label self)), h)
        | Some y =>
            (* treat None, NaN, INF, NINF as NA *)
            let frame := df_set (label self) (replace_inf <$> s_values y) frame in
            let h := <[l := frame]> h in
            match df_get (label self) frame with
            | None => (Raise (KeyError (label self)), h)
            | Some y =>
                let invalid_labels := (λ kv, (kv.1, isna kv.2)) <$> y in
                if bool_decide (Exists (λ kb, kb.2 = true) invalid_labels) then
                  match idxmax invalid_labels with
                  | Some first_invalid_label_idx =>
                      (Raise (ValueError_non_finite_label name first_invalid_label_idx), h)
                  | None => (Ok (Some l), h)
                  end
                else (Ok (Some l), h)
            end
        end
    end
  else (Ok X, h).

(** The same check for a caller that holds no other reference to [X]: the
    frame goes in and the checked copy comes out. *)
Definition _check_for_non_finite_values_of (self : learner)
    (X : option DataFrame) (name : string) (is_train : bool)
    : result (option DataFrame) :=
  let h : heap := match X with Some frame => {[ 1%positive := frame ]} | None => ∅ end in
  let '(r, h) := _check_for_non_finite_values self h ((λ _, 1%positive) <$> X) name is_train in
  X ← r; Ok (X ≫= (λ l, h !! l)).

(** ** Assigning a series to a column

    [X[c] = w] for a series [w].  pandas aligns the series on the index of
    the frame: a frame without rows first takes the index of a series that
    has some, its columns being filled with [nan]; when the two indexes are
    equal the cells are written in row order; otherwise each row takes the
    cell [w] has at its key, [nan] when [w] has no such key, and a series
    with a repeated key raises [ValueError]. *)
Definition df_setitem (c : colname) (w : Series) (X : DataFrame) : result DataFrame :=
  let X :=
    if decide (df_index X = [] ∧ w ≠ []) then
      mkDataFrame (s_index w)
        ((λ col, (col.1, replicate (length w) VNaN)) <$> df_columns X)
    else X in
  if decide (s_index w = df_index X) then Ok (df_set c (s_values w) X)
  else if decide (NoDup (s_index w)) then
    Ok (df_set c ((λ k, default VNaN (assoc_lookup k w)) <$> df_index X) X)
  else Raise ValueError_duplicate_axis.

(** ** [bundle_weights] (lines 306-323) *)
Definition bundle_weights (self : learner) (X : option DataFrame)
    (w : option Series) (name : string) (is_train : bool)
    : result (option DataFrame) :=
  if is_train then
    match w with
    | Some w =>
        match X with
        | Some X => X ← df_setitem (sample_weight self) w X; Ok (Some X)
        | None => Raise TypeError_None_item_assignment
        end
    | None => Ok X
    end
  else
    match X with
    | Some X =>
        match w with
        | Some w => X ← df_setitem (sample_weight self) w X; Ok (Some X)
        | None =>
            if negb (weight_evaluation self) then
              let nan_vals := replicate (df_len X) VNaN in
              Ok (Some (df_set (sample_weight self) nan_vals X))
            else Raise (ValueError_weights_missing (sample_weight self) name)
        end
    | None => Ok None
    end.

End CheckNonFinite.

(** ** Writing the learner's attributes *)

Section Attributes.
Context {Cleaner LabelCleaner FeatureGenerator : Type}.
Local Abbreviation learner := (learner Cleaner LabelCleaner FeatureGenerator).
Local Abbreviation M := (M Cleaner LabelCleaner FeatureGenerator).

Definition with_threshold (t : Z) (self : learner) : learner :=
  mkLearner (label self) (problem_type self) (eval_metric self) (groups self)
    (sample_weight self) (weight_evaluation self) (_positive_class self) t
    (class_weights self) (cleaner self) (label_cleaner self)
    (feature_generator self) (_original_features self) (logged self)
    (fg_calls self).

Definition with_class_weights (cw : option (list (value * Qc))) (self : learner)
    : learner :=
  mkLearner (label self) (problem_type self) (eval_metric self) (groups self)
    (sample_weight self) (weight_evaluation self) (_positive_class self)
    (threshold self) cw (cleaner self) (label_cleaner self)
    (feature_generator self) (_original_features self) (logged self)
    (fg_calls self).

Definition with_cleaner (c : option Cleaner) (self : learner) : learner :=
  mkLearner (label self) (problem_type self) (eval_metric self) (groups self)
    (sample_weight self) (weight_evaluation self) (_positive_class self)
    (threshold self) (class_weights self) c (label_cleaner self)
    (feature_generator self) (_original_features self) (logged self)
    (fg_calls self).

Definition with_label_cleaner (c : option LabelCleaner) (self : learner) : learner :=
  mkLearner (label self) (problem_type self) (eval_metric self) (groups self)
    (sample_weight self) (weight_evaluation self) (_positive_class self)
    (threshold self) (class_weights self) (cleaner self) c
    (feature_generator self) (_original_features self) (logged self)
    (fg_calls self).

Definition with_feature_generator (g : FeatureGenerator) (self : learner) : learner :=
  mkLearner (label self) (problem_type self) (eval_metric self) (groups self)
    (sample_weight self) (weight_evaluation self) (_positive_class self)
    (threshold self) (class_weights self) (cleaner self) (label_cleaner self)
    g (_original_features self) (logged self) (fg_calls self).

Definition with_original_features (cols : option (list colname)) (self : learner)
    : learner :=
  mkLearner (label self) (problem_type self) (eval_metric self) (groups self)
    (sample_weight self) (weight_evaluation self) (_positive_class self)
    (threshold self) (class_weights self) (cleaner self) (label_cleaner self)
    (feature_generator self) cols (logged self) (fg_calls self).

Definition with_fg_call (c : fg_call) (self : learner) : learner :=
  mkLearner (label self) (problem_type self) (eval_metric self) (groups self)
    (sample_weight self) (weight_evaluation self) (_positive_class self)
    (threshold self) (class_weights self) (cleaner self) (label_cleaner self)
    (feature_generator self) (_original_features self) (logged self)
    (fg_calls self ++ [c]).

(** ** [set_predefined_weights] (lines 325-344) *)

(** [{c: n / (class_counts[c] * k) for c in class_counts.index}] *)
Definition balance_weights (y : Series) : list (value * Qc) :=
  let class_counts := value_counts y in
  let n := Z.of_nat (length y) in
  let k := Z.of_nat (length class_counts) in
  (λ c, (c, (Qc_of_Z n
             / (Qc_of_Z (default 0%Z (assoc_lookup c class_counts)) * Qc_of_Z k))%Qc))
    <$> class_counts.*1.

(** [y.map(class_weights)]: a label that is not a key maps to [nan]. *)
Definition series_map (class_weights : list (value * Qc)) (y : Series) : Series :=
  (λ kv, (kv.1, from_option VNum VNaN (assoc_lookup kv.2 class_weights))) <$> y.

Definition set_predefined_weights (X : DataFrame) (y : Series) : M DataFrame :=
  self ← get;
  if bool_decide (sample_weight self ∉ [AUTO_WEIGHT; BALANCE_WEIGHT])
     || bool_decide (problem_type self ∉ [BINARY; MULTICLASS])
  then ret X
  else if df_has_column (sample_weight self) X
  then raise (ValueError_weight_column_in_data (sample_weight self))
  else
    w ← (if decide (sample_weight self = BALANCE_WEIGHT) then
           (match class_weights self with
            | None =>
                let cw := balance_weights y in
                modify (with_class_weights (Some cw));;
                logger_log 20 MsgAssigningBalanceWeights;;
                logger_log 15 (MsgBalanceWeights cw)
            | Some _ => ret tt
            end);;
           self ← get;
           ret (series_map (default [] (class_weights self)) y)
         else if decide (sample_weight self = AUTO_WEIGHT) then
           (* TODO in the source: support a more sophisticated strategy *)
           raise NotImplementedError_auto_weight
         else raise (UnboundLocalError "w"));
    lift (df_setitem (sample_weight self) w X).

End Attributes.

(** ** The pipeline and its collaborators *)

(** What [general_data_processing] returns. *)
Record processed : Type := mkProcessed {
  out_X : DataFrame;
  out_y : Series;
  out_X_val : option DataFrame;
  out_y_val : option Series;
  out_X_test : option DataFrame;
  out_y_test : option Series;
  out_X_unlabeled : option DataFrame;
  out_holdout_frac : Qc;
  out_num_bag_folds : Z;
  out_groups : option Series
}.

Section Pipeline.
Context {Cleaner LabelCleaner FeatureGenerator : Type}.
Local Abbreviation learner := (learner Cleaner LabelCleaner FeatureGenerator).
Local Abbreviation M := (M Cleaner LabelCleaner FeatureGenerator).

(** Code of other packages, taken as given: the cleaners and utilities of
    [autogluon.core], the feature generator, and the methods [extract_label]
    and [fit_transform_features] the learner inherits from
    [AbstractTabularLearner].  Each may raise. *)
Variable augment_rare_classes : DataFrame → colname → Z → result DataFrame.
Variable Cleaner_construct : problem_type_t → colname → Z → result Cleaner.
Variable Cleaner_fit_transform : Cleaner → DataFrame → result (Cleaner * DataFrame).
Variable Cleaner_transform : Cleaner → DataFrame → result DataFrame.
Variable extract_label : colname → DataFrame → result (DataFrame * Series).
Variable LabelCleaner_construct :
  problem_type_t → Series → Series → option value → result LabelCleaner.
Variable LabelCleaner_transform : LabelCleaner → Series → result Series.
Variable LabelCleaner_num_classes : LabelCleaner → option Z.
Variable LabelCleaner_problem_type_transform : LabelCleaner → problem_type_t.
Variable extract_column : DataFrame → colname → result (DataFrame * option Series).
Variable FeatureGenerator_is_fit : FeatureGenerator → bool.
Variable FeatureGenerator_transform : FeatureGenerator → DataFrame → result DataFrame.
(** [fit_transform_features] fits the generator: it gives the generator it
    leaves behind together with its outcome. *)
Variable fit_transform_features :
  FeatureGenerator → DataFrame → Series → problem_type_t → option Scorer →
  FeatureGenerator * result DataFrame.

(** [self.feature_generator.transform(X)] *)
Definition feature_generator_transform (X : DataFrame) : M DataFrame :=
  self ← get;
  modify (with_fg_call (CallTransform X));;
  lift (FeatureGenerator_transform (feature_generator self) X).

(** [self.fit_transform_features(X, y, problem_type=..., eval_metric=...)] *)
Definition self_fit_transform_features (X : DataFrame) (y : Series)
    (problem : problem_type_t) (metric : option Scorer) : M DataFrame :=
  self ← get;
  let '(g, r) := fit_transform_features (feature_generator self) X y problem metric in
  modify (with_feature_generator g);;
  modify (with_fg_call (CallFitTransform X (is_ok r)));;
  lift r.

(** [self.cleaner.transform(X)] and [self.label_cleaner.transform(y)] *)
Definition self_cleaner_transform (X : DataFrame) : M DataFrame :=
  self ← get;
  match cleaner self with
  | Some c => lift (Cleaner_transform c X)
  | None => raise (AttributeError_None "transform")
  end.

Definition self_label_cleaner_transform (y : Series) : M Series :=
  self ← get;
  match label_cleaner self with
  | Some c => lift (LabelCleaner_transform c y)
  | None => raise (AttributeError_None "transform")
  end.

(** ** [_apply_cleaner_transform] (lines 361-404) *)

Definition _apply_cleaner_transform (X : option DataFrame) (y_uncleaned : Series)
    (holdout_frac holdout_frac_og : Qc) (name : string) (is_test : bool)
    : M (option DataFrame * option Series * option Series * Qc) :=
  self ← get;
  match X with
  | Some X0 =>
      match df_get (label self) X0 with
      | Some y_og =>
          let len_og := if is_test then Some (df_len X0) else None in
          X ← self_cleaner_transform X0;
          if is_test && bool_decide (Some (df_len X) ≠ len_og)
          then raise (AssertionError_low_frequency_classes name)
          else if decide (df_len X = 0%nat) then
            logger_warning (MsgAllLowFrequency name);;
            (if bool_decide (problem_type self ∈ [BINARY; MULTICLASS]) then
               train_classes ← lift (py_sorted (unique (s_values y_uncleaned)));
               val_classes ← lift (py_sorted (unique (s_values y_og)));
               logger_warning (MsgTrainClasses train_classes);;
               logger_warning (MsgSplitClasses name val_classes);;
               logger_warning MsgTrainClassDtype;;
               logger_warning (MsgSplitClassDtype name);;
               let missing_classes :=
                 filter (λ c, c ∉ train_classes) val_classes in
               logger_warning (MsgMissingClasses missing_classes)
             else ret tt);;
            logger_warning MsgBannerEnd;;
            ret (None, None, None, holdout_frac_og)
          else
            '(X, y) ← lift (extract_label (label self) X);
            y ← self_label_cleaner_transform y;
            X ← set_predefined_weights X y;
            '(X, w) ← lift (extract_column X (sample_weight self));
            ret (Some X, Some y, w, holdout_frac)
      | None => ret (X, None, None, holdout_frac)
      end
  | None => ret (None, None, None, holdout_frac)
  end.

(** ** The loop of lines 287-292

    [datasets[i] = X_super.iloc[idx : idx + length].set_index(datasets[i].index)]
    for every entry that is not [None], with [idx] advanced by its length. *)
Fixpoint resplit (X_super : DataFrame) (datasets : list (option DataFrame))
    (idx : nat) : result (list (option DataFrame)) :=
  match datasets with
  | [] => Ok []
  | None :: rest =>
      rest ← resplit X_super rest idx;
      Ok (None :: rest)
  | Some d :: rest =>
      let length := df_len d in
      d' ← set_index (df_index d) (iloc idx length X_super);
      rest ← resplit X_super rest (idx + length);
      Ok (Some d' :: rest)
  end.

(** ** Lines 267-298: one pass of the feature generator over all splits *)

Definition unify_features (X : DataFrame) (y : Series)
    (X_val : option DataFrame) (y_val : option Series)
    (X_test : option DataFrame) (y_test : option Series)
    (X_unlabeled : option DataFrame)
    : M (DataFrame * option DataFrame * option DataFrame * option DataFrame) :=
  (* TODO in the source: extend this boolean flag into learner init parameter *)
  let transform_with_test := false in
  let X_test_super := if transform_with_test then X_test else None in
  let y_test_super := if transform_with_test then y_test else None in
  let datasets := [Some X; X_val; X_test_super; X_unlabeled] in
  X_super ← lift (concat_frames datasets);
  self ← get;
  '(X_super, X_test) ←
    (if FeatureGenerator_is_fit (feature_generator self) then
       logger_log 20 MsgAlreadyFit;;
       X_super ← feature_generator_transform X_super;
       X_test ← (if negb transform_with_test then
                   match X_test with
                   | Some X_test =>
                       X_test ← feature_generator_transform X_test;
                       ret (Some X_test)
                   | None => ret None
                   end
                 else ret X_test);
       modify (with_fg_call CallPrintFeatureMetadataInfo);;
       ret (X_super, X_test)
     else
       let y_unlabeled :=
         (λ U, series_const VNaN (df_index U)) <$> X_unlabeled in
       let y_list := [Some y; y_val; y_test_super; y_unlabeled] in
       y_super ← lift (concat_series y_list);
       problem ← (match label_cleaner self with
                  | Some c => ret (LabelCleaner_problem_type_transform c)
                  | None => raise (AttributeError_None "problem_type_transform")
                  end);
       X_super ← self_fit_transform_features X_super y_super problem
                   (eval_metric self);
       X_test ← (if negb transform_with_test then
                   match X_test with
                   | Some X_test =>
                       X_test ← feature_generator_transform X_test;
                       ret (Some X_test)
                   | None => ret None
                   end
                 else ret X_test);
       ret (X_super, X_test));
  datasets ← lift (resplit X_super datasets 0);
  match datasets with
  | [Some X; X_val; X_test_super; X_unlabeled] =>
      let X_test := if transform_with_test then X_test_super else X_test in
      ret (X, X_val, X_test, X_unlabeled)
  | _ => raise ValueError_unpack
  end.

(** ** [general_data_processing] (lines 200-304) *)

(** The check on a frame held by value; a frame comes back whenever one
    went in. *)
Definition checked (X : DataFrame) (name : string) (is_train : bool) : M DataFrame :=
  self ← get;
  X ← lift (_check_for_non_finite_values_of self (Some X) name is_train);
  match X with
  | Some X => ret X
  | None => raise TypeError_None_subscript
  end.

Definition general_data_processing (X : DataFrame)
    (X_val X_test X_unlabeled : option DataFrame) (holdout_frac : Qc)
    (num_bag_folds : Z) : M processed :=
  X ← checked X "train" true;
  X_val ← (match X_val with
           | Some X_val => X_val ← checked X_val "val" false; ret (Some X_val)
           | None => ret None
           end);
  X_test ← (match X_test with
            | Some X_test => X_test ← checked X_test "test" false; ret (Some X_test)
            | None => ret None
            end);
  self ← get;
  let holdout_frac_og := holdout_frac in
  let holdout_frac :=
    match X_val with
    | Some X_val => if df_has_column (label self) X_val then 1%Qc else holdout_frac
    | None => holdout_frac
    end in
  X ← (match eval_metric self with
       | Some metric =>
           if needs_proba metric && bool_decide (problem_type self = MULTICLASS) then
             (* Metric requires all classes present in training to be able
                to compute a score *)
             if decide (num_bag_folds > 0) then
               modify (with_threshold 2);;
               match groups self with
               | None => lift (augment_rare_classes X (label self) 2)
               | Some _ => ret X
               end
             else
               modify (with_threshold 1);; ret X
           else ret X
       | None => ret X
       end);
  self ← get;
  y_train ← (match df_get (label self) X with
             | Some y => ret y
             | None => raise (KeyError (label self))
             end);
  '(new_threshold, holdout_frac, num_bag_folds) ←
    adjust_threshold_if_necessary y_train (threshold self) holdout_frac num_bag_folds;
  modify (with_threshold new_threshold);;
  (* Gets labels prior to removal of infrequent classes *)
  let y_uncleaned := y_train in
  self ← get;
  c ← lift (Cleaner_construct (problem_type self) (label self) (threshold self));
  modify (with_cleaner (Some c));;
  '(c, X) ← lift (Cleaner_fit_transform c X);
  modify (with_cleaner (Some c));;
  '(X, y) ← lift (extract_label (label self) X);
  lc ← lift (LabelCleaner_construct (problem_type self) y y_uncleaned
               (_positive_class self));
  modify (with_label_cleaner (Some lc));;
  y ← self_label_cleaner_transform y;
  X ← set_predefined_weights X y;
  '(X, w) ← lift (extract_column X (sample_weight self));
  '(X, groups_) ← lift (extract_column X (groups self));
  (match LabelCleaner_num_classes lc with
   | Some num_classes =>
       if decide (problem_type self ≠ BINARY)
       then logger_log 20 (MsgTrainClassCount num_classes)
       else ret tt
   | None => ret tt
   end);;
  '(X_val, y_val, w_val, holdout_frac) ←
    _apply_cleaner_transform X_val y_uncleaned holdout_frac holdout_frac_og
      "val" false;
  '(X_test, y_test, w_test, _) ←
    _apply_cleaner_transform X_test y_uncleaned holdout_frac holdout_frac_og
      "test" true;
  modify (with_original_features (Some (df_colnames X)));;
  logger_log 20 MsgUsingFeatureGenerators;;
  (match X_test with
   | Some _ => logger_log 15 MsgMergedPreprocessing
   | None => ret tt
   end);;
  '(X, X_val, X_test, X_unlabeled) ←
    unify_features X y X_val y_val X_test y_test X_unlabeled;
  (* TODO in the source: consider not bundling sample-weights inside X, X_val *)
  self ← get;
  X ← lift (bundle_weights self (Some X) w "X" true);
  X_val ← lift (bundle_weights self X_val w_val "X_val" false);
  X_test ← lift (bundle_weights self X_test w_test "X_test" false);
  match X with
  | Some X =>
      ret (mkProcessed X y X_val y_val X_test y_test X_unlabeled holdout_frac
             num_bag_folds groups_)
  | None => raise TypeError_None_subscript
  end.

End Pipeline.

(** ** Notions used to state the properties *)

(** A label that is [NaN], missing, [+inf] or [-inf]. *)
Definition non_finite (v : value) : bool :=
  match v with
  | VNone | VNaN | VInf _ => true
  | _ => false
  end.

(** [(k, v)] is the first row of [y] whose label is not finite. *)
Definition first_non_finite (y : Series) (k v : value) : Prop :=
  ∃ pre post, y = pre ++ (k, v) :: post
              ∧ Forall (λ kv, non_finite kv.2 = false) pre
              ∧ non_finite v = true.

(** ** Stand-ins for the collaborators, used in the examples only *)

(** Rows of a frame selected by a mask. *)
Definition pick_rows {A} (mask : list bool) (l : list A) : list A :=
  zip mask l ≫= λ bx : bool * A, if bx.1 then [bx.2] else [].

Definition select_rows (mask : list bool) (X : DataFrame) : DataFrame :=
  mkDataFrame (pick_rows mask (df_index X))
    ((λ cv, (cv.1, pick_rows mask cv.2)) <$> df_columns X).

Definition drop_column (c : colname) (X : DataFrame) : DataFrame :=
  mkDataFrame (df_index X) (filter (λ cv, cv.1 ≠ c) (df_columns X)).

(** A cleaner that remembers its label column, its threshold and, once
    fit, the classes with at least that many training rows. *)
Definition example_cleaner : Type := colname * Z * list value.

Definition example_Cleaner_construct (_ : problem_type_t) (label : colname)
    (threshold : Z) : result example_cleaner :=
  Ok (label, threshold, []).

Definition example_Cleaner_transform (c : example_cleaner) (X : DataFrame)
    : result DataFrame :=
  match df_get c.1.1 X with
  | Some y => Ok (select_rows ((λ v, bool_decide (v ∈ c.2)) <$> s_values y) X)
  | None => Raise (KeyError c.1.1)
  end.

Definition example_Cleaner_fit_transform (c : example_cleaner) (X : DataFrame)
    : result (example_cleaner * DataFrame) :=
  match df_get c.1.1 X with
  | Some y =>
      let valid := (filter (λ cc, c.1.2 ≤ cc.2) (value_counts y)).*1 in
      let c := (c.1.1, c.1.2, valid) in
      X ← example_Cleaner_transform c X; Ok (c, X)
  | None => Raise (KeyError c.1.1)
  end.

Definition example_extract_label (label : colname) (X : DataFrame)
    : result (DataFrame * Series) :=
  match df_get label X with
  | Some y => Ok (drop_column label X, y)
  | None => Raise (KeyError label)
  end.

Definition example_extract_column (X : DataFrame) (c : colname)
    : result (DataFrame * option Series) :=
  match c with
  | None => Ok (X, None)
  | Some _ =>
      match df_get c X with
      | Some w => Ok (drop_column c X, Some w)
      | None => Ok (X, None)
      end
  end.

(** A feature generator that only knows whether it is fit and passes
    frames through. *)
Definition example_fit_transform_features (g : bool) (X : DataFrame) (_ : Series)
    (_ : problem_type_t) (_ : option Scorer) : bool * result DataFrame :=
  (true, Ok X).

Definition example_general_data_processing :=
  general_data_processing (Cleaner := example_cleaner) (LabelCleaner := unit)
    (FeatureGenerator := bool)
    (λ X _ _, Ok X)
    example_Cleaner_construct example_Cleaner_fit_transform example_Cleaner_transform
    example_extract_label
    (λ _ _ _ _, Ok tt) (λ _ y, Ok y) (λ _, None) (λ _, MULTICLASS)
    example_extract_column
    (λ g, g) (λ _ X, Ok X) example_fit_transform_features.

Definition example_learner (problem : problem_type_t) (sample_weight : colname)
    (weight_evaluation : bool) (is_fit : bool) : learner example_cleaner unit bool :=
  mkLearner (Some "class"%string) problem None None sample_weight
    weight_evaluation None 1 None None None is_fit None [] [].

(** A frame with one feature column and the label column ["class"]. *)
Definition frame_of (keys feature labels : list value) : DataFrame :=
  mkDataFrame keys [(Some "x"%string, feature); (Some "class"%string, labels)].

(** A training frame whose second and third labels are not finite. *)
Definition frame_with_bad_labels : DataFrame :=
  frame_of (VInt <$> [10; 11; 12]) (VInt <$> [1; 2; 3])
    [VStr "a"; VInf false; VNaN].

(** The number of classes of a label vector and the rows of one class. *)
Definition num_classes_of (y : Series) : Z :=
  Z.of_nat (length (unique (filter (λ v, notna v = true) (s_values y)))).

Definition class_count (c : value) (y : Series) : Z := count_of c (s_values y).

(** A training vector and a validation vector with other class shares. *)
Definition y_a2_b1 : Series := series_of [VStr "a"; VStr "a"; VStr "b"].
Definition y_a1_b3 : Series := series_of [VStr "a"; VStr "b"; VStr "b"; VStr "b"].
Definition frame_x (n : Z) : DataFrame :=
  mkDataFrame (VInt <$> seqZ 0 n) [(Some "x"%string, VInt <$> seqZ 0 n)].

Definition example_apply_cleaner_transform :=
  _apply_cleaner_transform (Cleaner := example_cleaner) (LabelCleaner := unit)
    (FeatureGenerator := bool)
    example_Cleaner_transform example_extract_label (λ _ y, Ok y)
    example_extract_column.

(** A learner whose cleaner was fit on training labels of the given classes. *)
Definition example_learner_cleaning (classes : list value)
    : learner example_cleaner unit bool :=
  with_cleaner (Some (Some "class"%string, 1, classes))
    (with_label_cleaner (Some tt) (example_learner MULTICLASS None false true)).

(** Training labels that mix a string and a number, and a validation frame
    none of whose classes was seen in training. *)
Definition y_mixed : Series := series_of [VStr "a"; VInt 1; VStr "a"; VInt 1].
Definition y_strings : Series := series_of [VStr "a"; VStr "b"; VStr "a"; VStr "b"].
Definition frame_unseen : DataFrame :=
  frame_of (VInt <$> [20; 21]) (VInt <$> [7; 8]) [VStr "z"; VStr "q"].

(** A split and what came back for it have the same number of rows and
    the same row keys in the same order; an absent split stays absent. *)
Definition same_rows (d d' : DataFrame) : Prop :=
  df_len d' = df_len d ∧ df_index d' = df_index d.

Definition same_rows_opt (d d' : option DataFrame) : Prop :=
  match d, d' with
  | Some d, Some d' => same_rows d d'
  | None, None => True
  | _, _ => False
  end.

(** The rows of [T] from [idx] on, as many as [d] has, under the keys of [d]. *)
Definition rows_at (T : DataFrame) (idx : nat) (d : DataFrame) : DataFrame :=
  mkDataFrame (df_index d) (df_columns (iloc idx (df_len d) T)).

(** [len] of an optional split, 0 when it is absent. *)
Definition len_opt (d : option DataFrame) : nat := from_option df_len 0%nat d.

(** The test split is transformed on its own: it keeps its number of rows,
    and stays absent when it is absent. *)
Definition same_len_opt (d d' : option DataFrame) : Prop :=
  match d, d' with
  | Some d, Some d' => df_len d' = df_len d
  | None, None => True
  | _, _ => False
  end.

Definition example_unify_features :=
  unify_features (Cleaner := example_cleaner) (LabelCleaner := unit)
    (FeatureGenerator := bool)
    (λ _, MULTICLASS) (λ g, g) (λ _ X, Ok X) example_fit_transform_features.

(** Splits for the examples: three training rows, two validation rows, one
    test row and two unlabeled rows, each with its own row keys. *)
Definition split_train : DataFrame := frame_x 3.
Definition split_val : DataFrame :=
  mkDataFrame (VInt <$> [20; 21]) [(Some "x"%string, VInt <$> [7; 8])].
Definition split_test : DataFrame :=
  mkDataFrame [VStr "t"] [(Some "x"%string, [VInt 9])].
Definition split_unlabeled : DataFrame :=
  mkDataFrame [VStr "u"; VStr "v"] [(Some "x"%string, VInt <$> [5; 6])].

(** The learner after [entries] were written to the log, nothing else
    changed. *)
Definition with_logged {Cleaner LabelCleaner FeatureGenerator : Type}
    (entries : list (Z * log_message))
    (self : learner Cleaner LabelCleaner FeatureGenerator)
    : learner Cleaner LabelCleaner FeatureGenerator :=
  mkLearner (label self) (problem_type self) (eval_metric self) (groups self)
    (sample_weight self) (weight_evaluation self) (_positive_class self)
    (threshold self) (class_weights self) (cleaner self) (label_cleaner self)
    (feature_generator self) (_original_features self)
    (logged self ++ entries) (fg_calls self).

(** The warnings of lines 408-415 for a request and the triple returned. *)
Definition adjust_warnings (threshold : Z) (holdout_frac : Qc) (num_bag_folds : Z)
    (new_threshold : Z) (new_holdout_frac : Qc) (new_num_bag_folds : Z)
    : list (Z * log_message) :=
  (if decide (new_threshold < threshold)
   then [(30, MsgThresholdUpdated threshold new_threshold)] else [])
  ++ (if decide (holdout_frac < new_holdout_frac)%Qc
      then [(30, MsgHoldoutFracUpdated holdout_frac new_holdout_frac)] else [])
  ++ (if decide (new_num_bag_folds ≠ num_bag_folds)
      then [(30, MsgNumBagFoldsUpdated num_bag_folds new_num_bag_folds)] else []).

(** ** Properties of the learner that methods keep *)

(** A property of the learner that a method never breaks, whatever the
    method returns or raises. *)
Definition keeps {Cleaner LabelCleaner FeatureGenerator A : Type}
    (Inv : learner Cleaner LabelCleaner FeatureGenerator → Prop)
    (m : M Cleaner LabelCleaner FeatureGenerator A) : Prop :=
  ∀ s, Inv s → Inv (m s).2.

(** The class weights will not change any more: the weighting strategy
    does not apply to the learner, or the weights are stored already. *)
Definition settled {Cleaner LabelCleaner FeatureGenerator : Type}
    (self : learner Cleaner LabelCleaner FeatureGenerator) : Prop :=
  bool_decide (sample_weight self ∉ [AUTO_WEIGHT; BALANCE_WEIGHT])
  || bool_decide (problem_type self ∉ [BINARY; MULTICLASS]) = true
  ∨ is_Some (class_weights self).

(** ** Calls on the feature generator over a learner's lifetime *)

(** A call that fits the generator, and one that did so and returned. *)
Definition is_fit_call (c : fg_call) : bool :=
  match c with
  | CallFitTransform _ _ => true
  | _ => false
  end.

Definition completed_fit (c : fg_call) : bool :=
  match c with
  | CallFitTransform _ completed => completed
  | _ => false
  end.

Definition completed_fits (calls : list fg_call) : nat :=
  length (filter (λ c, completed_fit c = true) calls).

(** The arguments of one call of [general_data_processing]. *)
Record gdp_args : Type := mkGdpArgs {
  arg_X : DataFrame;
  arg_X_val : option DataFrame;
  arg_X_test : option DataFrame;
  arg_X_unlabeled : option DataFrame;
  arg_holdout_frac : Qc;
  arg_num_bag_folds : Z
}.

(** The learner after a sequence of calls of a method, whatever each of
    them returned or raised. *)
Definition run_calls {Cleaner LabelCleaner FeatureGenerator A B : Type}
    (method : A → M Cleaner LabelCleaner FeatureGenerator B) (calls : list A)
    (s : learner Cleaner LabelCleaner FeatureGenerator)
    : learner Cleaner LabelCleaner FeatureGenerator :=
  foldl (λ s a, (method a s).2) s calls.

(** A training frame with two classes of two rows each, and a validation
    frame with one row of each class. *)
Definition frame_train_aabb : DataFrame :=
  frame_of (VInt <$> [0; 1; 2; 3]) (VInt <$> [5; 6; 7; 8])
    [VStr "a"; VStr "a"; VStr "b"; VStr "b"].

Definition frame_val_ab : DataFrame :=
  frame_of (VInt <$> [10; 11]) (VInt <$> [1; 2]) [VStr "a"; VStr "b"].


(** ** Facts about count tables *)

Lemma sum_list_Z_app l1 l2 : sum_list_Z (l1 ++ l2) = sum_list_Z l1 + sum_list_Z l2.
Proof. induction l1 as [|x l1 IH]; simpl; lia. Qed.

Lemma sum_list_Z_nonneg l : Forall (λ c, 0 ≤ c) l → 0 ≤ sum_list_Z l.
Proof. induction 1; simpl; lia. Qed.

Lemma filter_counts_fmap (t : Z) (l : list (value * Z)) :
  (filter (λ cc, t ≤ cc.2) l).*2 = filter (λ c, t ≤ c) l.*2.
Proof.
  induction l as [|[c n] l IH]; [done|].
  rewrite fmap_cons. simpl snd.
  destruct (decide (t ≤ n)) as [Hle|Hgt].
  - rewrite !filter_cons_True by done. rewrite fmap_cons, IH. done.
  - rewrite !filter_cons_False by done. done.
Qed.

Lemma filter_none (t : Z) (cs : list Z) :
  Forall (λ c, c < t) cs → filter (λ c, t ≤ c) cs = [].
Proof.
  induction 1 as [|c cs Hc _ IH]; [done|].
  rewrite filter_cons_False by lia. done.
Qed.

Lemma filter_descending_take (t : Z) (cs : list Z) :
  descending cs →
  filter (λ c, t ≤ c) cs = take (length (filter (λ c, t ≤ c) cs)) cs.
Proof.
  induction 1 as [|c cs Hs IH Hall]; [done|].
  destruct (decide (t ≤ c)) as [Hle|Hgt].
  - rewrite filter_cons_True by done. simpl. by rewrite <-IH.
  - rewrite filter_cons_False by done.
    rewrite filter_none; [done|].
    eapply Forall_impl; [exact Hall|]. simpl. intros; lia.
Qed.

(** Lowering the threshold keeps at least as many rows and classes. *)
Lemma filter_threshold_antitone (t t' : Z) (cs : list Z) :
  Forall (λ c, 0 ≤ c) cs → t ≤ t' →
  sum_list_Z (filter (λ c, t' ≤ c) cs) ≤ sum_list_Z (filter (λ c, t ≤ c) cs)
  ∧ (length (filter (λ c, (t' ≤ c)%Z) cs) ≤ length (filter (λ c, (t ≤ c)%Z) cs))%nat.
Proof.
  intros Hpos Hle. induction Hpos as [|c cs Hc _ [IH1 IH2]]; [done|].
  destruct (decide (t' ≤ c)).
  - rewrite !filter_cons_True by lia. simpl. lia.
  - rewrite (filter_cons_False (λ c, t' ≤ c)) by lia.
    destruct (decide (t ≤ c)).
    + rewrite filter_cons_True by lia. simpl. lia.
    + rewrite filter_cons_False by lia. lia.
Qed.

Section Accumulate.
Variables mr mc : Z.

Lemma met_at_0 c cs nc nr : met_at mr mc (c :: cs) nc nr 0 = minimums_met mr mc (nr + c) (nc + 1).
Proof. unfold met_at. simpl. f_equal; lia. Qed.

Lemma met_at_S c cs nc nr j :
  met_at mr mc (c :: cs) nc nr (S j) = met_at mr mc cs (nc + 1) (nr + c) j.
Proof.
  unfold met_at. change (take (S (S j)) (c :: cs)) with (c :: take (S j) cs).
  change (sum_list_Z (c :: take (S j) cs)) with (c + sum_list_Z (take (S j) cs)).
  f_equal; lia.
Qed.

(** The loop stops at the first position where both minimums are met, and
    returns the count it last read when there is no such position. *)
Lemma accumulate_classes_spec (cs : list Z) (nc nr : Z) (th : option Z) :
  (∃ i c, cs !! i = Some c
          ∧ accumulate_classes mr mc cs nc nr th = Some c
          ∧ met_at mr mc cs nc nr i = true
          ∧ ∀ j, (j < i)%nat → met_at mr mc cs nc nr j = false)
  ∨ (accumulate_classes mr mc cs nc nr th = from_option Some th (last cs)
     ∧ ∀ j, (j < length cs)%nat → met_at mr mc cs nc nr j = false).
Proof.
  revert nc nr th. induction cs as [|c cs IH]; intros nc nr th.
  - right. split; [done|]. simpl. intros; lia.
  - simpl accumulate_classes.
    destruct (minimums_met mr mc (nr + c) (nc + 1)) eqn:Hmet.
    + left. exists 0%nat, c. split_and!; [done|done| |intros; lia].
      by rewrite met_at_0.
    + destruct (IH (nc + 1) (nr + c) (Some c))
        as [(i & c' & Hi & Hr & Hm & Hbefore)|[Hr Hnone]].
      * left. exists (S i), c'. split_and!; [done|done| |].
        -- by rewrite met_at_S.
        -- intros [|j] Hj; [by rewrite met_at_0|].
           rewrite met_at_S. apply Hbefore. lia.
      * right. split.
        -- rewrite Hr. rewrite last_cons. by destruct (last cs).
        -- intros [|j] Hj; [by rewrite met_at_0|].
           rewrite met_at_S. apply Hnone. simpl in Hj. lia.
Qed.
End Accumulate.

Lemma minimums_met_true mr mc nr nc :
  minimums_met mr mc nr nc = true ↔ mr ≤ nr ∧ mc ≤ nc.
Proof.
  unfold minimums_met. rewrite andb_true_iff, !bool_decide_eq_true. done.
Qed.

Lemma enough_kept_antitone mr mc cs t t' :
  Forall (λ c, 0 ≤ c) cs → t ≤ t' →
  enough_kept mr mc cs t' → enough_kept mr mc cs t.
Proof.
  intros Hpos Hle [Hr Hc].
  destruct (filter_threshold_antitone t t' cs Hpos Hle) as [H1 H2].
  unfold enough_kept, kept in *. lia.
Qed.

Lemma descending_take_ge cs i c :
  descending cs → cs !! i = Some c → Forall (λ c', c ≤ c') (take (S i) cs).
Proof.
  intros Hs. revert i. induction Hs as [|c0 cs Hs IH Hall]; intros i Hi; [done|].
  destruct i as [|i]; simpl in *.
  - simplify_eq. rewrite take_0. by repeat constructor.
  - constructor; [|by apply IH].
    rewrite Forall_lookup in Hall. by apply (Hall i).
Qed.

(** Where the loop stops, both minimums hold for the classes kept. *)
Lemma stop_enough_kept mr mc cs i c :
  descending cs → Forall (λ c, 0 ≤ c) cs →
  cs !! i = Some c → met_at mr mc cs 0 0 i = true →
  enough_kept mr mc cs c.
Proof.
  intros Hs Hpos Hi Hmet.
  apply minimums_met_true in Hmet as [Hr Hc].
  pose proof (descending_take_ge cs i c Hs Hi) as Hge.
  pose proof (lookup_lt_Some _ _ _ Hi) as Hlt.
  unfold enough_kept, kept.
  rewrite <-(take_drop (S i) cs) at 1 2.
  rewrite filter_app, sum_list_Z_app, length_app.
  assert (filter (λ c', c ≤ c') (take (S i) cs) = take (S i) cs) as ->.
  { clear -Hge. induction Hge as [|x l Hx _ IH]; [done|].
    rewrite filter_cons_True by done. by rewrite IH. }
  rewrite length_take_le by lia.
  assert (0 ≤ sum_list_Z (filter (λ c', c ≤ c') (drop (S i) cs))).
  { apply sum_list_Z_nonneg. apply Forall_forall. intros x Hx.
    apply list_elem_of_filter in Hx as [_ Hx].
    rewrite Forall_forall in Hpos. apply Hpos.
    rewrite <-(take_drop (S i) cs). apply elem_of_app. by right. }
  lia.
Qed.

(** No threshold above the count where the loop stops keeps enough, and no
    threshold at all when the loop runs to the end. *)
Lemma enough_kept_before mr cs t n :
  descending cs →
  (∀ j, (j < n)%nat → met_at mr 2 cs 0 0 j = false) →
  (length (kept cs t) ≤ n)%nat →
  ¬ enough_kept mr 2 cs t.
Proof.
  intros Hs Hbefore Hlen [Hr Hc].
  unfold kept in *. rewrite (filter_descending_take t cs Hs) in Hr.
  destruct (length (filter (λ c, t ≤ c) cs)) as [|j] eqn:Hn; [lia|].
  specialize (Hbefore j ltac:(lia)).
  assert (met_at mr 2 cs 0 0 j = true); [|congruence].
  apply minimums_met_true. lia.
Qed.

Lemma enough_kept_le_stop mr cs i c t :
  descending cs →
  cs !! i = Some c →
  (∀ j, (j < i)%nat → met_at mr 2 cs 0 0 j = false) →
  enough_kept mr 2 cs t → t ≤ c.
Proof.
  intros Hs Hi Hbefore Hen.
  destruct (decide (t ≤ c)) as [|Hgt]; [done|]. exfalso.
  apply (enough_kept_before mr cs t i Hs Hbefore); [|done].
  destruct (decide (length (kept cs t) ≤ i)%nat) as [|Hlong]; [done|]. exfalso.
  assert (c ∈ kept cs t) as Hin.
  { unfold kept. rewrite (filter_descending_take t cs Hs).
    apply elem_of_take. exists i. split; [done|]. unfold kept in Hlong. lia. }
  apply list_elem_of_filter in Hin as [? _]. lia.
Qed.

Lemma never_enough_kept mr cs t :
  descending cs →
  (∀ j, (j < length cs)%nat → met_at mr 2 cs 0 0 j = false) →
  ¬ enough_kept mr 2 cs t.
Proof.
  intros Hs Hnone. apply (enough_kept_before mr cs t (length cs) Hs Hnone).
  apply length_filter.
Qed.

(** ** Facts about [value_counts] *)

Global Instance count_ge_trans : Transitive count_ge.
Proof. intros a b c. unfold count_ge. lia. Qed.

Global Instance count_ge_total : Total count_ge.
Proof. intros a b. unfold count_ge. lia. Qed.

Lemma value_counts_descending y : descending (value_counts y).*2.
Proof.
  unfold value_counts, descending.
  eapply (StronglySorted_fmap snd count_ge); [|apply StronglySorted_merge_sort; apply _].
  done.
Qed.

Lemma count_of_elem c vs : c ∈ vs → 1 ≤ count_of c vs.
Proof.
  intros Hin. unfold count_of.
  assert (c ∈ filter (λ v, v = c) vs) as Hf by (by apply list_elem_of_filter).
  destruct (filter (λ v, v = c) vs); [by apply elem_of_nil in Hf|]. simpl. lia.
Qed.

Lemma elem_of_unique {A} `{EqDecision A} (c : A) (vs : list A) :
  c ∈ unique vs ↔ c ∈ vs.
Proof. unfold unique. by rewrite elem_of_reverse, elem_of_remove_dups, elem_of_reverse. Qed.

Lemma NoDup_unique {A} `{EqDecision A} (vs : list A) : NoDup (unique vs).
Proof. unfold unique. rewrite reverse_Permutation. apply NoDup_remove_dups. Qed.

Lemma value_counts_elem y c n :
  (c, n) ∈ value_counts y ↔
  c ∈ s_values y ∧ notna c = true
  ∧ n = count_of c (filter (λ v, notna v = true) (s_values y)).
Proof.
  unfold value_counts. rewrite merge_sort_Permutation, list_elem_of_fmap.
  split.
  - intros (c' & [= -> ->] & Hin). apply (proj1 (elem_of_unique _ _)) in Hin.
    apply list_elem_of_filter in Hin as [? ?]. done.
  - intros (Hin & Hna & ->). exists c. split; [done|].
    apply elem_of_unique. by apply list_elem_of_filter.
Qed.

Lemma value_counts_positive y : Forall (λ n, 1 ≤ n) (value_counts y).*2.
Proof.
  apply Forall_forall. intros n Hn.
  apply list_elem_of_fmap in Hn as ([c n'] & -> & Hin).
  apply value_counts_elem in Hin as (Hin & Hna & ->). simpl.
  apply count_of_elem. by apply list_elem_of_filter.
Qed.

Lemma value_counts_nonneg y : Forall (λ n, 0 ≤ n) (value_counts y).*2.
Proof. eapply Forall_impl; [apply value_counts_positive|]. simpl. intros; lia. Qed.

Lemma value_counts_nonempty y :
  Exists (λ v, notna v = true) (s_values y) → value_counts y ≠ [].
Proof.
  intros Hex Hnil. apply Exists_exists in Hex as (v & Hin & Hna).
  assert ((v, count_of v (filter (λ v, notna v = true) (s_values y))) ∈ value_counts y) as Hel
    by (by apply value_counts_elem).
  rewrite Hnil in Hel. by apply elem_of_nil in Hel.
Qed.

(** ** The adjusted threshold *)

Section AdjustThresholdFacts.
Context {Cleaner LabelCleaner FeatureGenerator : Type}.
Local Abbreviation learner := (learner Cleaner LabelCleaner FeatureGenerator).

Lemma safe_threshold_mono y t t' nbf :
  t ≤ t' → safe_threshold y t nbf ≤ safe_threshold y t' nbf.
Proof. unfold safe_threshold. intros. repeat case_decide; lia. Qed.

Lemma retains_enough_kept y t :
  retains_enough y t ↔
  enough_kept (minimum_rows_to_keep_of (total_rows y)) 2 (value_counts y).*2 t.
Proof.
  unfold retains_enough, enough_kept, rows_retained, classes_retained, kept.
  rewrite filter_counts_fmap, <-(filter_counts_fmap t (value_counts y)), length_fmap.
  done.
Qed.

(** On a classification problem the function returns the requested
    threshold, raised to the safe minimum, when that keeps enough, and the
    outcome of the loop otherwise. *)
Lemma adjust_threshold_classification (self : learner) y threshold holdout_frac nbf :
  y ≠ [] → problem_type self ∉ [REGRESSION; QUANTILE] →
  ∃ hf, _adjust_threshold_if_necessary self y threshold holdout_frac nbf =
    Ok (if minimums_met (minimum_rows_to_keep_of (total_rows y)) 2
             (rows_retained y (safe_threshold y threshold nbf))
             (classes_retained y (safe_threshold y threshold nbf))
        then Some (safe_threshold y threshold nbf)
        else accumulate_classes (minimum_rows_to_keep_of (total_rows y)) 2
               (value_counts y).*2 0 0 None,
        hf, clamped_folds y nbf)
    ∧ hf = py_max holdout_frac (1 / Qc_of_Z (Z.of_nat (length y)) + Q2Qc (1 # 1000))%Qc.
Proof.
  intros Hne Hpt. eexists. split; [|reflexivity].
  unfold _adjust_threshold_if_necessary.
  destruct (decide (Z.of_nat (length y) = 0)) as [Hz|_].
  { destruct y; [done|simpl in Hz; lia]. }
  rewrite bool_decide_eq_false_2 by done.
  fold (clamped_folds y nbf). fold (safe_threshold y threshold nbf).
  fold (total_rows y). fold (rows_retained y (safe_threshold y threshold nbf)).
  fold (classes_retained y (safe_threshold y threshold nbf)).
  by destruct (minimums_met _ _ _ _).
Qed.

End AdjustThresholdFacts.


(** The threshold the function settles on: it is the largest threshold
    that keeps enough when there is one. *)
Lemma adjusted_threshold_properties (y : Series) (st : Z) :
  Exists (λ v, notna v = true) (s_values y) →
  ∃ t,
    (if minimums_met (minimum_rows_to_keep_of (total_rows y)) 2
          (rows_retained y st) (classes_retained y st)
     then Some st
     else accumulate_classes (minimum_rows_to_keep_of (total_rows y)) 2
            (value_counts y).*2 0 0 None) = Some t
    ∧ (retains_enough y t
       ∨ ((∀ t', ¬ retains_enough y t') ∧ last (value_counts y).*2 = Some t))
    ∧ (retains_enough y st → t = st)
    ∧ (¬ retains_enough y st → ∀ t', retains_enough y t' → t' ≤ t).
Proof.
  Set Default Timeout 10.
  intros Hex.
  pose proof (value_counts_descending y) as Hs.
  pose proof (value_counts_nonneg y) as Hpos.
  pose proof (value_counts_nonempty y Hex) as Hne.
  destruct (minimums_met _ 2 (rows_retained y st) (classes_retained y st)) eqn:Hst.
  - apply minimums_met_true in Hst.
    exists st. split; [reflexivity|]. split; [left; exact Hst|].
    split; [reflexivity|]. intros Hn. destruct Hn. exact Hst.
  - assert (¬ retains_enough y st) as Hnst.
    { intros H. apply minimums_met_true in H. congruence. }
    destruct (accumulate_classes_spec (minimum_rows_to_keep_of (total_rows y)) 2
                (value_counts y).*2 0 0 None)
      as [(i & c & Hi & Hr & Hm & Hbefore)|[Hr Hnone]].
    + exists c. split; [exact Hr|]. split.
      * left. apply (proj2 (retains_enough_kept y c)).
        exact (stop_enough_kept _ 2 _ i c Hs Hpos Hi Hm).
      * split; [intros H; destruct (Hnst H)|].
        intros _ t' Ht'. apply (proj1 (retains_enough_kept y t')) in Ht'.
        exact (enough_kept_le_stop _ _ i c t' Hs Hi Hbefore Ht').
    + assert (∀ t', ¬ retains_enough y t') as Hnever.
      { intros t' Ht'. apply (proj1 (retains_enough_kept y t')) in Ht'.
        exact (never_enough_kept _ _ t' Hs Hnone Ht'). }
      destruct (last (value_counts y).*2) as [c|] eqn:Hlast.
      * exists c. split; [exact Hr|]. split; [right; split; [exact Hnever|reflexivity]|].
        split; [intros H; destruct (Hnst H)|].
        intros _ t' Ht'. destruct (Hnever t' Ht').
      * apply last_None in Hlast. apply fmap_nil_inv in Hlast. destruct (Hne Hlast).
Qed.


Section AdjustThresholdClaims.
Context {Cleaner LabelCleaner FeatureGenerator : Type}.
Local Abbreviation learner := (learner Cleaner LabelCleaner FeatureGenerator).

Lemma classification_not_regression (self : learner) :
  problem_type self ∈ [BINARY; MULTICLASS] →
  problem_type self ∉ [REGRESSION; QUANTILE].
Proof.
  rewrite !elem_of_cons, !elem_of_nil.
  intros [H|[H|[]]] [H'|[H'|[]]]; congruence.
Qed.

Lemma Exists_notna_nonempty (y : Series) :
  Exists (λ v, notna v = true) (s_values y) → y ≠ [].
Proof. intros Hex ->. by apply Exists_nil in Hex. Qed.

(** C1, as the code has it: on a binary or multiclass problem, for
    training labels with at least one label that is not missing, the
    returned threshold either keeps at least [ceil(0.975 * total_rows)]
    rows and at least 2 classes, or no threshold does and it is the count
    of the last class of the descending accumulation; and a larger
    requested threshold never gives a smaller returned one. *)
Theorem adjust_threshold_keeps_enough_and_is_monotone (self : learner)
    (y : Series) (threshold threshold' : Z) (holdout_frac : Qc)
    (num_bag_folds : Z) :
  problem_type self ∈ [BINARY; MULTICLASS] →
  Exists (λ v, notna v = true) (s_values y) →
  ∃ t hf nbf,
    _adjust_threshold_if_necessary self y threshold holdout_frac num_bag_folds
      = Ok (Some t, hf, nbf)
    ∧ (retains_enough y t
       ∨ ((∀ t0, ¬ retains_enough y t0) ∧ last (value_counts y).*2 = Some t))
    ∧ (threshold ≤ threshold' →
       ∃ t', _adjust_threshold_if_necessary self y threshold' holdout_frac
               num_bag_folds = Ok (Some t', hf, nbf)
             ∧ t ≤ t').
Proof.
  intros Hpt Hex.
  pose proof (classification_not_regression self Hpt) as Hcls.
  pose proof (Exists_notna_nonempty y Hex) as Hne.
  destruct (adjust_threshold_classification self y threshold holdout_frac
              num_bag_folds Hne Hcls) as (hf & Hrun & Hhf).
  destruct (adjusted_threshold_properties y
              (safe_threshold y threshold num_bag_folds) Hex)
    as (t & Ht & Hkeep & Hsame & Hmax).
  exists t, hf, (clamped_folds y num_bag_folds).
  split; [by rewrite Hrun, Ht|]. split; [exact Hkeep|].
  intros Hle.
  destruct (adjust_threshold_classification self y threshold' holdout_frac
              num_bag_folds Hne Hcls) as (hf' & Hrun' & Hhf').
  destruct (adjusted_threshold_properties y
              (safe_threshold y threshold' num_bag_folds) Hex)
    as (t' & Ht' & Hkeep' & Hsame' & Hmax').
  exists t'. split; [by rewrite Hrun', Ht', Hhf, Hhf'|].
  pose proof (safe_threshold_mono y threshold threshold' num_bag_folds Hle) as Hst.
  pose proof (value_counts_nonneg y) as Hpos.
  destruct (decide (retains_enough y (safe_threshold y threshold' num_bag_folds)))
    as [Hen'|Hnen'].
  - (* the larger request keeps enough, so the smaller one does too *)
    assert (retains_enough y (safe_threshold y threshold num_bag_folds)) as Hen.
    { apply (proj2 (retains_enough_kept y _)).
      eapply enough_kept_antitone; [exact Hpos|exact Hst|].
      by apply (proj1 (retains_enough_kept y _)). }
    rewrite (Hsame Hen), (Hsame' Hen'). exact Hst.
  - destruct Hkeep as [Hk|[Hnever _]].
    + exact (Hmax' Hnen' t Hk).
    + (* no threshold keeps enough: both calls return the last count *)
      destruct Hkeep' as [Hk'|[_ Hlast']]; [destruct (Hnever _ Hk')|].
      destruct (decide (retains_enough y (safe_threshold y threshold num_bag_folds)))
        as [Hen|Hnen]; [destruct (Hnever _ Hen)|].
      assert (Some t = Some t') as [= ->]; [|lia].
      rewrite <-Ht, <-Ht'.
      destruct (minimums_met _ 2 (rows_retained y (safe_threshold y threshold _)) _) eqn:E;
        [apply minimums_met_true in E; destruct (Hnen E)|].
      destruct (minimums_met _ 2 (rows_retained y (safe_threshold y threshold' _)) _) eqn:E';
        [apply minimums_met_true in E'; destruct (Hnen' E')|].
      reflexivity.
Qed.

End AdjustThresholdClaims.

Lemma adjust_threshold_keeps_enough_witness :
  ∃ t hf nbf,
    _adjust_threshold_if_necessary (plain_learner MULTICLASS None false)
      y_100_50_1 51 (Q2Qc (1 # 10)) 0 = Ok (Some t, hf, nbf)
    ∧ (retains_enough y_100_50_1 t
       ∨ ((∀ t0, ¬ retains_enough y_100_50_1 t0)
          ∧ last (value_counts y_100_50_1).*2 = Some t))
    ∧ (51 ≤ 60 →
       ∃ t', _adjust_threshold_if_necessary (plain_learner MULTICLASS None false)
               y_100_50_1 60 (Q2Qc (1 # 10)) 0 = Ok (Some t', hf, nbf)
             ∧ t ≤ t').
Proof.
  apply (adjust_threshold_keeps_enough_and_is_monotone
           (plain_learner MULTICLASS None false) y_100_50_1 51 60).
  - simpl. apply list_elem_of_further, list_elem_of_here.
  - apply Exists_cons_hd. reflexivity.
Defined.

(** C1 as stated fails on a series that is not empty but whose labels are
    all missing: [value_counts] leaves them out, no class is counted, the
    accumulation has nothing to go through, and what comes back is [None]
    and not a threshold, whatever threshold is asked for. *)
Lemma adjust_threshold_none_on_missing_labels :
  let y := series_of [VNaN; VNaN] in
  let self := plain_learner MULTICLASS None false in
  y ≠ [] ∧ value_counts y = []
  ∧ (∀ threshold holdout_frac num_bag_folds,
       ¬ ∃ t hf nbf,
           _adjust_threshold_if_necessary self y threshold holdout_frac num_bag_folds
           = Ok (Some t, hf, nbf))
  ∧ ∃ hf nbf,
      _adjust_threshold_if_necessary self y 1 (Q2Qc (1 # 10)) 0 = Ok (None, hf, nbf).
Proof.
  intros y self. split; [done|]. split; [reflexivity|]. split.
  - intros threshold holdout_frac num_bag_folds (t & hf & nbf & H). revert H.
    unfold _adjust_threshold_if_necessary.
    destruct (decide (Z.of_nat (length y) = 0)); [done|].
    replace (bool_decide (problem_type self ∈ [REGRESSION; QUANTILE])) with false
      by reflexivity.
    replace (value_counts y) with (@nil (value * Z)) by reflexivity.
    cbn [filter list_filter fmap list_fmap length sum_list_Z accumulate_classes].
    unfold minimums_met. rewrite andb_comm. done.
  - eexists _, _. vm_compute. reflexivity.
Qed.


Section ScenarioCounts.
Context {Cleaner LabelCleaner FeatureGenerator : Type}.
Local Abbreviation learner := (learner Cleaner LabelCleaner FeatureGenerator).

(** C2, as the code has it: with three classes of counts 100, 50 and 1, a
    requested threshold of 1 and no bagging, the threshold stays 1 on a
    binary or multiclass problem: every class is kept, the one with a
    single row included. *)
Theorem adjust_threshold_100_50_1_stays_1 (self : learner) (y : Series)
    (holdout_frac : Qc) :
  problem_type self ∈ [BINARY; MULTICLASS] →
  (value_counts y).*2 = [100; 50; 1] →
  ∃ hf, _adjust_threshold_if_necessary self y 1 holdout_frac 0 = Ok (Some 1, hf, 0)
        ∧ classes_retained y 1 = 3 ∧ rows_retained y 1 = 151.
Proof.
  intros Hpt Hcounts.
  assert (y ≠ []) as Hne.
  { intros ->. discriminate Hcounts. }
  destruct (adjust_threshold_classification self y 1 holdout_frac 0 Hne
              (classification_not_regression self Hpt)) as (hf & Hrun & _).
  assert (clamped_folds y 0 = 0) as Hfolds by (unfold clamped_folds; lia).
  assert (safe_threshold y 1 0 = 1) as Hsafe.
  { unfold safe_threshold. rewrite Hfolds. reflexivity. }
  assert (rows_retained y 1 = 151) as Hrows.
  { unfold rows_retained. rewrite filter_counts_fmap, Hcounts. reflexivity. }
  assert (classes_retained y 1 = 3) as Hclasses.
  { unfold classes_retained.
    rewrite <-(length_fmap snd), filter_counts_fmap, Hcounts. reflexivity. }
  assert (total_rows y = 151) as Htotal.
  { unfold total_rows. rewrite Hcounts. reflexivity. }
  rewrite Hsafe, Hfolds, Hrows, Hclasses, Htotal in Hrun.
  exists hf. split; [exact Hrun|]. split; [exact Hclasses|exact Hrows].
Qed.

End ScenarioCounts.

Lemma adjust_threshold_100_50_1_witness :
  ∃ hf, _adjust_threshold_if_necessary (plain_learner MULTICLASS None false)
          y_100_50_1 1 (Q2Qc (1 # 10)) 0 = Ok (Some 1, hf, 0)
        ∧ classes_retained y_100_50_1 1 = 3 ∧ rows_retained y_100_50_1 1 = 151.
Proof.
  apply (adjust_threshold_100_50_1_stays_1 (plain_learner MULTICLASS None false)).
  - simpl. apply list_elem_of_further, list_elem_of_here.
  - vm_compute. reflexivity.
Defined.

(** C2 as stated fails: on these labels the returned threshold is not 50. *)
Lemma adjust_threshold_100_50_1_not_50 :
  (value_counts y_100_50_1).*2 = [100; 50; 1]
  ∧ ¬ ∃ hf nbf, _adjust_threshold_if_necessary (plain_learner MULTICLASS None false)
                  y_100_50_1 1 (Q2Qc (1 # 10)) 0 = Ok (Some 50, hf, nbf).
Proof.
  split; [vm_compute; reflexivity|].
  intros (hf & nbf & H). vm_compute in H. discriminate H.
Qed.


(** ** Facts about tables and frames *)

Lemma assoc_lookup_set_eq {K V} `{EqDecision K} (k : K) (v : V) l :
  assoc_lookup k (assoc_set k v l) = Some v.
Proof.
  induction l as [|[k' v'] l IH]; simpl.
  - by rewrite decide_True.
  - destruct (decide (k = k')) as [->|Hne]; simpl.
    + by rewrite decide_True.
    + by rewrite decide_False.
Qed.

Lemma assoc_lookup_set_ne {K V} `{EqDecision K} (k k0 : K) (v : V) l :
  k0 ≠ k → assoc_lookup k0 (assoc_set k v l) = assoc_lookup k0 l.
Proof.
  intros Hne. induction l as [|[k' v'] l IH]; simpl.
  - by rewrite decide_False.
  - destruct (decide (k = k')) as [->|Hne']; simpl.
    + by rewrite !decide_False.
    + destruct (decide (k0 = k')); [done|exact IH].
Qed.

Lemma assoc_set_keys {K V} `{EqDecision K} (k : K) (v : V) l :
  k ∈ l.*1 → (assoc_set k v l).*1 = l.*1.
Proof.
  induction l as [|[k' v'] l IH]; simpl; intros Hin.
  - by apply elem_of_nil in Hin.
  - destruct (decide (k = k')) as [->|Hne]; simpl; [done|].
    f_equal. apply IH. apply elem_of_cons in Hin as [?|?]; [done|done].
Qed.

Lemma assoc_set_keys_new {K V} `{EqDecision K} (k : K) (v : V) l :
  k ∉ l.*1 → (assoc_set k v l).*1 = l.*1 ++ [k].
Proof.
  induction l as [|[k' v'] l IH]; simpl; intros Hin; [done|].
  apply not_elem_of_cons in Hin as [Hne Hin].
  rewrite decide_False by done. simpl. f_equal. by apply IH.
Qed.

Lemma df_get_set (c : colname) (vals : list value) (X : DataFrame) :
  df_get c (df_set c vals X) = Some (zip (df_index X) vals).
Proof. unfold df_get, df_set. simpl. by rewrite assoc_lookup_set_eq. Qed.

Lemma df_len_set (c : colname) (vals : list value) (X : DataFrame) :
  df_len (df_set c vals X) = df_len X.
Proof. done. Qed.

Lemma df_index_set (c : colname) (vals : list value) (X : DataFrame) :
  df_index (df_set c vals X) = df_index X.
Proof. done. Qed.

(** A series that carries the index of the frame is written in row
    order. *)
Lemma df_setitem_aligned (c : colname) (w : Series) (X : DataFrame) :
  s_index w = df_index X →
  df_setitem c w X = Ok (df_set c (s_values w) X).
Proof.
  intros Hidx. unfold df_setitem.
  destruct (decide (df_index X = [] ∧ w ≠ [])) as [[Hnil Hw]|_].
  - exfalso. apply Hw. rewrite Hnil in Hidx. unfold s_index in Hidx.
    by apply fmap_nil_inv in Hidx.
  - cbv zeta. by rewrite decide_True.
Qed.

Lemma series_map_index (class_weights : list (value * Qc)) (y : Series) :
  s_index (series_map class_weights y) = s_index y.
Proof.
  unfold s_index, series_map. rewrite <- list_fmap_compose. by apply list_fmap_ext.
Qed.

(** Whatever the series, an assignment that returns keeps the rows a
    frame has. *)
Lemma df_setitem_index (c : colname) (w : Series) (X X' : DataFrame) :
  df_setitem c w X = Ok X' →
  df_index X ≠ [] → df_index X' = df_index X.
Proof.
  unfold df_setitem. intros Hset Hne. revert Hset.
  destruct (decide (df_index X = [] ∧ w ≠ [])) as [[? _]|_]; [done|]. cbv zeta.
  destruct (decide (s_index w = df_index X)); [by intros [= <-]|].
  destruct (decide (NoDup (s_index w))); [by intros [= <-]|done].
Qed.

Lemma zip_fmap_snd_zip {A B C} (f : B → C) (ks : list A) (vs : list B) :
  zip ks (f <$> (zip ks vs).*2) = (λ kv, (kv.1, f kv.2)) <$> zip ks vs.
Proof.
  revert vs. induction ks as [|k ks IH]; intros [|v vs]; simpl; [done..|].
  by rewrite IH.
Qed.

Lemma idxmax_first (pre post : list (value * bool)) (k : value) :
  Forall (λ kb, kb.2 = false) pre →
  idxmax (pre ++ (k, true) :: post) = Some k.
Proof.
  intros Hpre. unfold idxmax. rewrite filter_app.
  assert (filter (λ kb : value * bool, kb.2 = true) pre = []) as ->.
  { induction Hpre as [|[k' b] pre Hb _ IH]; [done|].
    rewrite filter_cons_False; [done|]. simpl in *. congruence. }
  by rewrite filter_cons_True.
Qed.

(** A series that has a label which is not finite has a first such row. *)
Lemma first_non_finite_exists (y : Series) :
  Exists (λ kv, non_finite kv.2 = true) y → ∃ k v, first_non_finite y k v.
Proof.
  induction y as [|[k v] y IH]; intros Hex; [by apply Exists_nil in Hex|].
  destruct (non_finite v) eqn:Hv.
  - exists k, v, [], y. done.
  - apply Exists_cons in Hex as [Hex|Hex]; [simpl in Hex; congruence|].
    destruct (IH Hex) as (k' & v' & pre & post & -> & Hpre & Hv').
    exists k', v', ((k, v) :: pre), post. split_and!; [done| |done].
    by constructor.
Qed.

Lemma isna_replace_inf (v : value) : isna (replace_inf v) = non_finite v.
Proof. by destruct v. Qed.

Section CheckNonFiniteFacts.
Context {Cleaner LabelCleaner FeatureGenerator : Type}.
Local Abbreviation learner := (learner Cleaner LabelCleaner FeatureGenerator).

(** C7: if the label column of the training split has a label that is NaN,
    missing, [+inf] or [-inf], the check raises the error that names the
    split and the row key of the first such row, and every frame that was
    on the heap before the call, the caller's own included, is unchanged
    after it. *)
Theorem check_raises_first_non_finite_label (self : learner) (h : heap)
    (l : positive) (X : DataFrame) (y : Series) (name : string) :
  h !! l = Some X →
  df_get (label self) X = Some y →
  Exists (λ kv, non_finite kv.2 = true) y →
  ∃ k v h',
    first_non_finite y k v
    ∧ _check_for_non_finite_values self h (Some l) name true
      = (Raise (ValueError_non_finite_label name k), h')
    ∧ h' !! l = Some X
    ∧ ∀ l0 X0, h !! l0 = Some X0 → h' !! l0 = Some X0.
Proof.
  intros Hl Hy Hex.
  destruct (first_non_finite_exists y Hex) as (k & v & Hfirst).
  exists k, v.
  set (l' := fresh (dom h)).
  assert (h !! l' = None) as Hfresh.
  { apply not_elem_of_dom. apply is_fresh. }
  set (frame := df_set (label self) (replace_inf <$> s_values y) X).
  exists (<[l' := frame]> (<[l' := X]> h)).
  assert (∀ l0 X0, h !! l0 = Some X0 →
            <[l' := frame]> (<[l' := X]> h) !! l0 = Some X0) as Hkeep.
  { intros l0 X0 H0. assert (l' ≠ l0) by congruence.
    by rewrite !lookup_insert_ne. }
  split; [exact Hfirst|]. split; [|split; [by apply Hkeep|exact Hkeep]].
  unfold _check_for_non_finite_values, deepcopy. simpl.
  fold l'. rewrite Hl. simpl. rewrite lookup_insert_eq. simpl. rewrite Hy.
  fold frame. unfold frame at 1. rewrite df_get_set.
  assert (df_get (label self) X = Some (zip (df_index X) (s_values y))) as Hzip.
  { rewrite Hy. f_equal. unfold df_get in Hy.
    destruct (assoc_lookup (label self) (df_columns X)) as [vals|]; [|done].
    simpl in Hy. injection Hy as <-. unfold s_values.
    clear. generalize (df_index X) as ks. intros ks. revert vals.
    induction ks as [|k0 ks IH]; intros [|v0 vs]; simpl; [done..|].
    by rewrite <-IH. }
  assert (zip (df_index X) (replace_inf <$> s_values y)
          = (λ kv, (kv.1, replace_inf kv.2)) <$> y) as ->.
  { rewrite Hy in Hzip. injection Hzip as Hzip. rewrite Hzip at 2.
    unfold s_values. rewrite Hzip at 1. apply zip_fmap_snd_zip. }
  rewrite <-list_fmap_compose.
  destruct Hfirst as (pre & post & -> & Hpre & Hv).
  rewrite bool_decide_eq_true_2.
  2:{ apply Exists_exists. exists (k, true). split; [|done].
      apply list_elem_of_fmap. exists (k, v). split.
      - simpl. by rewrite isna_replace_inf, Hv.
      - apply elem_of_app. right. apply list_elem_of_here. }
  rewrite fmap_app, fmap_cons. simpl. rewrite isna_replace_inf, Hv.
  rewrite idxmax_first; [done|].
  apply Forall_fmap. eapply Forall_impl; [exact Hpre|].
  intros [k0 v0] H0. simpl in *. by rewrite isna_replace_inf.
Qed.

End CheckNonFiniteFacts.

Lemma check_raises_first_non_finite_label_witness :
  ∃ k v h',
    first_non_finite
      (zip (VInt <$> [10; 11; 12]) [VStr "a"; VInf false; VNaN]) k v
    ∧ _check_for_non_finite_values (plain_learner MULTICLASS None false)
        {[ 5%positive := frame_with_bad_labels ]} (Some 5%positive) "train" true
      = (Raise (ValueError_non_finite_label "train" k), h')
    ∧ h' !! 5%positive = Some frame_with_bad_labels
    ∧ ∀ l0 X0, ({[ 5%positive := frame_with_bad_labels ]} : heap) !! l0 = Some X0 →
               h' !! l0 = Some X0.
Proof.
  apply (check_raises_first_non_finite_label (plain_learner MULTICLASS None false)
           {[ 5%positive := frame_with_bad_labels ]} 5%positive
           frame_with_bad_labels).
  - reflexivity.
  - reflexivity.
  - apply Exists_cons_tl, Exists_cons_hd. reflexivity.
Defined.


Section BundleWeightsFacts.
Context {Cleaner LabelCleaner FeatureGenerator : Type}.
Local Abbreviation learner := (learner Cleaner LabelCleaner FeatureGenerator).

(** C8: for a split that is not the training split and comes without
    weights, [bundle_weights] fails with the error naming the weight column
    and the dataset when [weight_evaluation] is on; when it is off it
    returns the frame with the weight column set to NaN in every row, the
    rows, their keys and the other columns being as before. *)
Theorem bundle_weights_without_weights (self : learner) (X : DataFrame)
    (name : string) :
  let X' := df_set (sample_weight self) (replicate (df_len X) VNaN) X in
  bundle_weights self (Some X) None name false
    = (if weight_evaluation self
       then Raise (ValueError_weights_missing (sample_weight self) name)
       else Ok (Some X'))
  ∧ df_len X' = df_len X
  ∧ df_index X' = df_index X
  ∧ df_has_column (sample_weight self) X' = true
  ∧ assoc_lookup (sample_weight self) (df_columns X')
    = Some (replicate (df_len X) VNaN)
  ∧ ∀ c, c ≠ sample_weight self →
         assoc_lookup c (df_columns X') = assoc_lookup c (df_columns X).
Proof.
  intros X'. split_and!.
  - unfold bundle_weights. simpl. by destruct (weight_evaluation self).
  - done.
  - done.
  - unfold df_has_column, df_colnames. apply bool_decide_eq_true_2.
    subst X'. simpl.
    destruct (decide (sample_weight self ∈ (df_columns X).*1)) as [Hin|Hnin].
    + by rewrite assoc_set_keys.
    + rewrite assoc_set_keys_new by done. apply elem_of_app. right.
      apply list_elem_of_here.
  - subst X'. simpl. apply assoc_lookup_set_eq.
  - intros c Hc. subst X'. simpl. by apply assoc_lookup_set_ne.
Qed.

End BundleWeightsFacts.


(** ** Facts about the balancing weights *)

Lemma assoc_lookup_NoDup {K V} `{EqDecision K} (k : K) (v : V) (l : list (K * V)) :
  NoDup l.*1 → (k, v) ∈ l → assoc_lookup k l = Some v.
Proof.
  induction l as [|[k' v'] l IH]; simpl; intros Hnd Hin.
  - by apply elem_of_nil in Hin.
  - apply NoDup_cons in Hnd as [Hk' Hnd].
    apply elem_of_cons in Hin as [[= <- <-]|Hin].
    + by rewrite decide_True.
    + rewrite decide_False; [by apply IH|].
      intros <-. apply Hk'. apply list_elem_of_fmap. by exists (k, v).
Qed.

Lemma assoc_lookup_fmap_key {K V} `{EqDecision K} (g : K → V) (k : K) (keys : list K) :
  k ∈ keys → assoc_lookup k ((λ c, (c, g c)) <$> keys) = Some (g k).
Proof.
  induction keys as [|k' keys IH]; simpl; intros Hin.
  - by apply elem_of_nil in Hin.
  - destruct (decide (k = k')) as [->|Hne]; [done|].
    apply IH. apply elem_of_cons in Hin as [?|?]; done.
Qed.

Lemma value_counts_keys y :
  (value_counts y).*1 ≡ₚ unique (filter (λ v, notna v = true) (s_values y)).
Proof.
  unfold value_counts. rewrite merge_sort_Permutation.
  rewrite <-list_fmap_compose. simpl.
  by rewrite list_fmap_id.
Qed.

Lemma value_counts_NoDup y : NoDup (value_counts y).*1.
Proof. rewrite value_counts_keys. apply NoDup_unique. Qed.

Lemma value_counts_length y : Z.of_nat (length (value_counts y)) = num_classes_of y.
Proof.
  unfold num_classes_of. f_equal.
  rewrite <-(length_fmap fst). by rewrite value_counts_keys.
Qed.

Lemma count_of_filter_notna c vs :
  notna c = true → count_of c (filter (λ v, notna v = true) vs) = count_of c vs.
Proof.
  intros Hc. unfold count_of. f_equal. f_equal.
  induction vs as [|v vs IH]; [done|].
  destruct (decide (v = c)) as [->|Hne].
  - rewrite (filter_cons_True (λ v, notna v = true)) by done.
    rewrite !filter_cons_True by done. by rewrite IH.
  - rewrite (filter_cons_False (λ v, v = c)) by done.
    destruct (decide (notna v = true)).
    + rewrite (filter_cons_True (λ v, notna v = true)) by done.
      by rewrite filter_cons_False.
    + by rewrite (filter_cons_False (λ v, notna v = true)).
Qed.

(** The count table holds, for each class of [y], its number of rows. *)
Lemma value_counts_lookup y c :
  c ∈ s_values y → notna c = true →
  assoc_lookup c (value_counts y) = Some (class_count c y).
Proof.
  intros Hin Hc. apply assoc_lookup_NoDup; [apply value_counts_NoDup|].
  apply (proj2 (value_counts_elem y c _)). split_and!; [done..|].
  unfold class_count. by rewrite count_of_filter_notna.
Qed.

Lemma class_count_pos c y : c ∈ s_values y → 1 ≤ class_count c y.
Proof. apply count_of_elem. Qed.

Lemma num_classes_pos c y : c ∈ s_values y → notna c = true → 1 ≤ num_classes_of y.
Proof.
  intros Hin Hc. unfold num_classes_of.
  assert (c ∈ unique (filter (λ v, notna v = true) (s_values y))) as Hu.
  { apply elem_of_unique. by apply list_elem_of_filter. }
  destruct (unique _); [by apply elem_of_nil in Hu|]. simpl. lia.
Qed.

Lemma Qc_of_Z_nonzero z : z ≠ 0 → Qc_of_Z z ≠ Q2Qc 0.
Proof.
  intros Hz Heq. apply Hz.
  apply (f_equal this) in Heq. simpl in Heq.
  unfold inject_Z in Heq. by injection Heq.
Qed.

(** Each class of [y] gets [n / (count * k)]. *)
Lemma balance_weights_lookup y c :
  c ∈ s_values y → notna c = true →
  assoc_lookup c (balance_weights y)
  = Some (Qc_of_Z (Z.of_nat (length y))
          / (Qc_of_Z (class_count c y) * Qc_of_Z (num_classes_of y)))%Qc.
Proof.
  intros Hin Hc. unfold balance_weights.
  rewrite (assoc_lookup_fmap_key
    (λ c, (Qc_of_Z (Z.of_nat (length y))
           / (Qc_of_Z (default 0%Z (assoc_lookup c (value_counts y)))
              * Qc_of_Z (Z.of_nat (length (value_counts y)))))%Qc)).
  - by rewrite value_counts_lookup, value_counts_length.
  - rewrite value_counts_keys. apply elem_of_unique. by apply list_elem_of_filter.
Qed.

(** The weighted rows of a class add up to [n / k], whatever the class. *)
Lemma balance_weight_sum (n cnt k : Z) :
  cnt ≠ 0 → k ≠ 0 →
  (Qc_of_Z cnt * (Qc_of_Z n / (Qc_of_Z cnt * Qc_of_Z k)) = Qc_of_Z n / Qc_of_Z k)%Qc.
Proof.
  intros Hcnt Hk.
  pose proof (Qc_of_Z_nonzero cnt Hcnt). pose proof (Qc_of_Z_nonzero k Hk).
  field. done.
Qed.

(** ** Running methods of the learner *)

Ltac run_method :=
  unfold mbind, M_bind, mret, M_ret, bind, ret, get, lift, modify, raise,
    logger_warning, logger_log; simpl.

#[local] Opaque df_setitem.

Section BalanceWeightsClaim.
Context {Cleaner LabelCleaner FeatureGenerator : Type}.
Local Abbreviation learner := (learner Cleaner LabelCleaner FeatureGenerator).

(** C4, as the code has it: under the "balance" strategy on a binary or
    multiclass problem, the call that finds no class weights stored yet
    (the first one, made on the training labels) stores for every class [c]
    of [y] the weight [n / (count(c) * k)] and writes it on every row of
    the class, so that [count(c) * weight(c) = n / k] for every class; the
    frame must not already have a column named like the strategy, and the
    labels carry the row keys of the frame, as the labels taken out of it
    do (the column assignment aligns the weights on the keys of the
    frame). *)
Theorem set_predefined_weights_balances_first_call (self : learner)
    (X : DataFrame) (y : Series) :
  sample_weight self = BALANCE_WEIGHT →
  problem_type self ∈ [BINARY; MULTICLASS] →
  class_weights self = None →
  df_has_column BALANCE_WEIGHT X = false →
  s_index y = df_index X →
  ∃ self' w,
    set_predefined_weights X y self
      = (Ok (df_set BALANCE_WEIGHT (s_values w) X), self')
    ∧ class_weights self' = Some (balance_weights y)
    ∧ ∀ i key c, y !! i = Some (key, c) → notna c = true →
        let weight := (Qc_of_Z (Z.of_nat (length y))
                       / (Qc_of_Z (class_count c y) * Qc_of_Z (num_classes_of y)))%Qc in
        assoc_lookup c (balance_weights y) = Some weight
        ∧ w !! i = Some (key, VNum weight)
        ∧ (Qc_of_Z (class_count c y) * weight
           = Qc_of_Z (Z.of_nat (length y)) / Qc_of_Z (num_classes_of y))%Qc.
Proof.
  intros Hsw Hpt Hcw Hcol Hidx.
  eexists _, (series_map (balance_weights y) y).
  split; [|split].
  - unfold set_predefined_weights. run_method.
    rewrite Hsw, Hcol.
    rewrite (bool_decide_eq_false_2 (BALANCE_WEIGHT ∉ _)).
    2:{ intros Hn. apply Hn. apply list_elem_of_further, list_elem_of_here. }
    rewrite (bool_decide_eq_false_2 (problem_type self ∉ _)) by (by intros Hn).
    simpl. rewrite Hcw. run_method.
    rewrite df_setitem_aligned by (by rewrite series_map_index).
    reflexivity.
  - reflexivity.
  - intros i key c Hi Hc weight.
    assert (c ∈ s_values y) as Hin.
    { apply list_elem_of_fmap. exists (key, c). split; [done|].
      by eapply list_elem_of_lookup_2. }
    pose proof (balance_weights_lookup y c Hin Hc) as Hlook.
    split; [exact Hlook|]. split.
    + unfold series_map. rewrite list_lookup_fmap, Hi. simpl.
      by rewrite Hlook.
    + apply balance_weight_sum.
      * pose proof (class_count_pos c y Hin). lia.
      * pose proof (num_classes_pos c y Hin Hc). lia.
Qed.

End BalanceWeightsClaim.

#[local] Transparent df_setitem.

Lemma set_predefined_weights_balances_witness :
  ∃ self' w,
    set_predefined_weights (frame_x 3) y_a2_b1
        (plain_learner MULTICLASS BALANCE_WEIGHT false)
      = (Ok (df_set BALANCE_WEIGHT (s_values w) (frame_x 3)), self')
    ∧ class_weights self' = Some (balance_weights y_a2_b1)
    ∧ ∀ i key c, y_a2_b1 !! i = Some (key, c) → notna c = true →
        let weight := (Qc_of_Z (Z.of_nat (length y_a2_b1))
                       / (Qc_of_Z (class_count c y_a2_b1)
                          * Qc_of_Z (num_classes_of y_a2_b1)))%Qc in
        assoc_lookup c (balance_weights y_a2_b1) = Some weight
        ∧ w !! i = Some (key, VNum weight)
        ∧ (Qc_of_Z (class_count c y_a2_b1) * weight
           = Qc_of_Z (Z.of_nat (length y_a2_b1))
             / Qc_of_Z (num_classes_of y_a2_b1))%Qc.
Proof.
  apply (set_predefined_weights_balances_first_call
           (plain_learner MULTICLASS BALANCE_WEIGHT false) (frame_x 3) y_a2_b1).
  - reflexivity.
  - simpl. apply list_elem_of_further, list_elem_of_here.
  - reflexivity.
  - vm_compute. reflexivity.
  - reflexivity.
Defined.

(** C4 as stated fails once class weights are stored: after the call on
    the training labels [a, a, b], the call on the labels [a, b, b, b]
    gives class [a] the stored weight 3/4 and not 4 / (1 * 2), and the
    weighted rows of [a] and of [b] do not add up to the same. *)
Lemma set_predefined_weights_reuses_stored_weights :
  let fresh_learner := plain_learner MULTICLASS BALANCE_WEIGHT false in
  let trained := (set_predefined_weights (frame_x 3) y_a2_b1 fresh_learner).2 in
  let y := y_a1_b3 in
  ∃ X' self' wa wb,
    set_predefined_weights (frame_x 4) y trained = (Ok X', self')
    ∧ assoc_lookup BALANCE_WEIGHT (df_columns X')
      = Some [VNum wa; VNum wb; VNum wb; VNum wb]
    ∧ wa ≠ (Qc_of_Z (Z.of_nat (length y))
            / (Qc_of_Z (class_count (VStr "a") y) * Qc_of_Z (num_classes_of y)))%Qc
    ∧ (Qc_of_Z (class_count (VStr "a") y) * wa
       ≠ Qc_of_Z (class_count (VStr "b") y) * wb)%Qc.
Proof.
  eexists _, _, _, _. split; [vm_compute; reflexivity|].
  split; [vm_compute; reflexivity|].
  split; intros H; apply (f_equal this) in H; vm_compute in H; discriminate H.
Qed.


Section ApplyCleanerFacts.
Context {Cleaner LabelCleaner FeatureGenerator : Type}.
Local Abbreviation learner := (learner Cleaner LabelCleaner FeatureGenerator).
Variable Cleaner_transform : Cleaner → DataFrame → result DataFrame.
Variable extract_label : colname → DataFrame → result (DataFrame * Series).
Variable LabelCleaner_transform : LabelCleaner → Series → result Series.
Variable extract_column : DataFrame → colname → result (DataFrame * option Series).

(** When the classes of the training labels and of the split can each be
    put in order (or the problem is not a classification), a validation
    split that the fitted cleaner empties is dropped: the method returns
    [(None, None, None, holdout_frac_og)]. *)
Lemma apply_cleaner_transform_empty_split (self : learner) (c : Cleaner)
    (X X' : DataFrame) (y_og y_uncleaned : Series)
    (holdout_frac holdout_frac_og : Qc) (name : string) :
  df_get (label self) X = Some y_og →
  cleaner self = Some c →
  Cleaner_transform c X = Ok X' →
  df_len X' = 0%nat →
  (problem_type self ∈ [BINARY; MULTICLASS] →
   is_ok (py_sorted (unique (s_values y_uncleaned))) = true
   ∧ is_ok (py_sorted (unique (s_values y_og))) = true) →
  ∃ self',
    _apply_cleaner_transform Cleaner_transform extract_label
        LabelCleaner_transform extract_column
        (Some X) y_uncleaned holdout_frac holdout_frac_og name false self
      = (Ok (None, None, None, holdout_frac_og), self')
    ∧ cleaner self' = cleaner self
    ∧ class_weights self' = class_weights self
    ∧ feature_generator self' = feature_generator self.
Proof.
  intros Hy Hc Ht Hlen Hsort.
  unfold _apply_cleaner_transform, self_cleaner_transform. run_method.
  rewrite Hy, Hc. run_method. rewrite Ht. simpl.
  rewrite Hlen. simpl.
  destruct (bool_decide (problem_type self ∈ [BINARY; MULTICLASS])) eqn:Hpt.
  - apply bool_decide_eq_true in Hpt. destruct (Hsort Hpt) as [H1 H2].
    destruct (py_sorted (unique (s_values y_uncleaned))) as [tc|]; [|done].
    destruct (py_sorted (unique (s_values y_og))) as [vc|]; [|done].
    simpl. eexists. split; [reflexivity|]. done.
  - simpl. eexists. split; [reflexivity|]. done.
Qed.

End ApplyCleanerFacts.

(** C3 fails on the code where the training labels mix strings and numbers:
    the validation split is emptied by the cleaner, and the warning that
    lists the sorted training classes (line 381) raises [TypeError] before
    anything is returned. *)
Theorem apply_cleaner_transform_raises_on_mixed_labels :
  df_get (Some "class"%string) frame_unseen
    = Some (zip (VInt <$> [20; 21]) [VStr "z"; VStr "q"])
  ∧ (∃ X', example_Cleaner_transform (Some "class"%string, 1, [VStr "a"; VInt 1])
              frame_unseen = Ok X'
            ∧ df_len X' = 0%nat)
  ∧ fst (example_apply_cleaner_transform (Some frame_unseen) y_mixed 1%Qc
           (Q2Qc (1 # 5)) "val" false
           (example_learner_cleaning [VStr "a"; VInt 1]))
    = Raise TypeError_not_orderable.
Proof.
  split_and!.
  - vm_compute. reflexivity.
  - eexists. split; vm_compute; reflexivity.
  - vm_compute. reflexivity.
Qed.

(** With training labels of one kind the same split is dropped as the
    claim says. *)
Lemma apply_cleaner_transform_drops_unseen_split :
  fst (example_apply_cleaner_transform (Some frame_unseen) y_strings 1%Qc
         (Q2Qc (1 # 5)) "val" false
         (example_learner_cleaning [VStr "a"; VStr "b"]))
  = Ok (None, None, None, Q2Qc (1 # 5)).
Proof. vm_compute. reflexivity. Qed.


(** ** Facts about concatenation and re-splitting *)

Lemma range_index_length (n : nat) : length (range_index n) = n.
Proof. unfold range_index. rewrite length_fmap, length_seqZ. lia. Qed.

Lemma concat_frames_len (datasets : list (option DataFrame)) (T : DataFrame) :
  concat_frames datasets = Ok T →
  df_len T = sum_list (len_opt <$> datasets).
Proof.
  unfold concat_frames. intros H.
  assert (sum_list (df_len <$> omap id datasets) = sum_list (len_opt <$> datasets)) as <-.
  { clear. induction datasets as [|[d|] ds IH]; [done| |exact IH].
    change (omap id (Some d :: ds)) with (d :: omap id ds).
    rewrite !fmap_cons. simpl. by rewrite IH. }
  destruct (omap id datasets); [done|].
  injection H as <-. unfold df_len at 1. simpl. apply range_index_length.
Qed.

Lemma iloc_len (idx length : nat) (T : DataFrame) :
  (idx + length ≤ df_len T)%nat → df_len (iloc idx length T) = length.
Proof.
  intros Hle. unfold df_len, iloc in *. simpl.
  rewrite length_take, length_drop. lia.
Qed.

(** The loop gives back, for every split that is present, the rows of the
    combined frame at the position of the split, under the split's own
    keys; it cannot fail when the combined frame has rows enough. *)
Lemma resplit_spec (T : DataFrame) (datasets : list (option DataFrame)) (idx : nat) :
  (idx + sum_list (len_opt <$> datasets) ≤ df_len T)%nat →
  ∃ out, resplit T datasets idx = Ok out
         ∧ Forall2 same_rows_opt datasets out
         ∧ ∀ i d, datasets !! i = Some (Some d) →
             out !! i = Some (Some (rows_at T (idx + sum_list (len_opt <$> take i datasets)) d)).
Proof.
  revert idx. induction datasets as [|[d|] ds IH]; intros idx Hle;
    rewrite ?fmap_cons in Hle; cbn [sum_list_with id len_opt from_option] in Hle;
    cbn [resplit].
  - exists []. split_and!; [done|constructor|]. intros i d Hd. done.
  - unfold set_index. rewrite iloc_len by lia. rewrite decide_True by done.
    destruct (IH (idx + df_len d)%nat) as (out & Hout & Hrows & Hat); [lia|].
    unfold mbind, result_bind. rewrite Hout. eexists. split; [reflexivity|].
    split.
    + constructor; [|exact Hrows]. split; reflexivity.
    + intros [|i] d0 Hd0.
      * injection Hd0 as <-.
        change (take 0 (Some d :: ds)) with (@nil (option DataFrame)).
        rewrite fmap_nil. cbn [sum_list_with]. rewrite Nat.add_0_r. reflexivity.
      * change (take (S i) (Some d :: ds)) with (Some d :: take i ds).
        rewrite fmap_cons. cbn [sum_list_with id len_opt from_option].
        rewrite Nat.add_assoc. exact (Hat i d0 Hd0).
  - destruct (IH idx) as (out & Hout & Hrows & Hat); [lia|].
    unfold mbind, result_bind. rewrite Hout. eexists. split; [reflexivity|].
    split.
    + constructor; [exact I|exact Hrows].
    + intros [|i] d0 Hd0; [discriminate Hd0|].
      change (take (S i) (None :: ds)) with (None :: take i ds).
      rewrite fmap_cons. cbn [sum_list_with id len_opt from_option].
      exact (Hat i d0 Hd0).
Qed.

Lemma same_rows_rows_at T idx d : same_rows d (rows_at T idx d).
Proof. done. Qed.

Lemma same_rows_opt_rows_at T idx d : same_rows_opt d (rows_at T idx <$> d).
Proof. by destruct d. Qed.

Section UnifyFeaturesFacts.
Context {Cleaner LabelCleaner FeatureGenerator : Type}.
Local Abbreviation learner := (learner Cleaner LabelCleaner FeatureGenerator).
Variable LabelCleaner_problem_type_transform : LabelCleaner → problem_type_t.
Variable FeatureGenerator_is_fit : FeatureGenerator → bool.
Variable FeatureGenerator_transform : FeatureGenerator → DataFrame → result DataFrame.
Variable fit_transform_features :
  FeatureGenerator → DataFrame → Series → problem_type_t → option Scorer →
  FeatureGenerator * result DataFrame.

Local Abbreviation unify :=
  (unify_features LabelCleaner_problem_type_transform FeatureGenerator_is_fit
     FeatureGenerator_transform fit_transform_features).

Lemma set_index_iloc (T : DataFrame) (idx : nat) (d : DataFrame) :
  (idx + df_len d ≤ df_len T)%nat →
  set_index (df_index d) (iloc idx (df_len d) T) = Ok (rows_at T idx d).
Proof.
  intros Hle. unfold set_index. rewrite iloc_len by lia.
  by rewrite decide_True.
Qed.

(** What the loop gives for the four entries of [datasets]. *)
Lemma resplit_four (T X : DataFrame) (X_val X_unlabeled : option DataFrame) :
  (df_len X + len_opt X_val + len_opt X_unlabeled ≤ df_len T)%nat →
  resplit T [Some X; X_val; None; X_unlabeled] 0
  = Ok [Some (rows_at T 0 X); rows_at T (df_len X) <$> X_val; None;
        rows_at T (df_len X + len_opt X_val) <$> X_unlabeled].
Proof.
  intros Hle. destruct X_val as [V|], X_unlabeled as [U|];
    cbn [len_opt from_option] in Hle; cbn [resplit];
    unfold mbind, result_bind;
    rewrite ?set_index_iloc by (cbn [Nat.add]; lia);
    cbn [Nat.add fmap option_fmap option_map len_opt from_option];
    rewrite ?Nat.add_0_r; reflexivity.
Qed.

Lemma concat_frames_with_train (X : DataFrame) (rest : list (option DataFrame)) :
  is_ok (concat_frames (Some X :: rest)) = true.
Proof. reflexivity. Qed.

#[local] Opaque concat_frames concat_series resplit.

Hypothesis transform_rows : ∀ g X X',
  FeatureGenerator_transform g X = Ok X' → df_len X' = df_len X.
Hypothesis fit_transform_rows : ∀ g X y problem metric g' X',
  fit_transform_features g X y problem metric = (g', Ok X') →
  df_len X' = df_len X.

(** C5, as the code has it: when the feature generator gives back as many
    rows as it is given, the combined frame has the rows of the training,
    validation and unlabeled splits that are present (the training split
    always is), the loop over it cannot fail, and each of these splits
    comes back from the step with the row count, the row keys and the row
    order of the split that went in (its cells are the rows of the
    transformed combined frame at its position); the test split is not part
    of the combined frame: it comes back with its row count, under the keys
    the generator gives it; a split that is absent stays absent. *)
Theorem unify_features_round_trip (self : learner) (X : DataFrame) (y : Series)
    (X_val : option DataFrame) (y_val : option Series)
    (X_test : option DataFrame) (y_test : option Series)
    (X_unlabeled : option DataFrame) :
  ∃ X_super,
    concat_frames [Some X; X_val; None; X_unlabeled] = Ok X_super
    ∧ df_len X_super = (df_len X + len_opt X_val + len_opt X_unlabeled)%nat
    ∧ (∀ T, df_len T = df_len X_super →
         resplit T [Some X; X_val; None; X_unlabeled] 0
         = Ok [Some (rows_at T 0 X); rows_at T (df_len X) <$> X_val; None;
               rows_at T (df_len X + len_opt X_val) <$> X_unlabeled])
    ∧ (∀ X' X_val' X_test' X_unlabeled' self',
         unify X y X_val y_val X_test y_test X_unlabeled self
           = (Ok (X', X_val', X_test', X_unlabeled'), self') →
         same_rows X X' ∧ same_rows_opt X_val X_val'
         ∧ same_rows_opt X_unlabeled X_unlabeled'
         ∧ same_len_opt X_test X_test'
         ∧ (df_len X' + len_opt X_val' + len_opt X_unlabeled')%nat = df_len X_super
         ∧ ∃ T, df_len T = df_len X_super
                ∧ X' = rows_at T 0 X
                ∧ X_val' = rows_at T (df_len X) <$> X_val
                ∧ X_unlabeled' = rows_at T (df_len X + len_opt X_val) <$> X_unlabeled).
Proof.
  destruct (concat_frames [Some X; X_val; None; X_unlabeled]) as [X_super|e] eqn:Hc.
  2:{ pose proof (concat_frames_with_train X [X_val; None; X_unlabeled]) as Hok.
      rewrite Hc in Hok. discriminate Hok. }
  pose proof (concat_frames_len _ _ Hc) as Hlen.
  assert (df_len X_super = (df_len X + len_opt X_val + len_opt X_unlabeled)%nat) as Hsum.
  { rewrite Hlen. cbn [fmap list_fmap sum_list_with id len_opt from_option].
    destruct X_val, X_unlabeled; simpl; unfold id; lia. }
  exists X_super. split; [reflexivity|]. split; [exact Hsum|]. split.
  { intros T HT. apply resplit_four. lia. }
  intros X' X_val' X_test' X_unlabeled' self' Hrun.
  assert (∃ T X_test0 s0,
            df_len T = df_len X_super ∧ same_len_opt X_test X_test0
            ∧ (datasets ← lift (resplit T [Some X; X_val; None; X_unlabeled] 0);
               match datasets with
               | [Some X; X_val; X_test_super; X_unlabeled] =>
                   ret (X, X_val, X_test0, X_unlabeled)
               | _ => raise ValueError_unpack
               end) s0 = (Ok (X', X_val', X_test', X_unlabeled'), self'))
    as (T & X_test0 & s0 & HT & Htest & Hrest).
  { revert Hrun. unfold unify_features. run_method. rewrite Hc.
    unfold feature_generator_transform, self_fit_transform_features. run_method.
    destruct (FeatureGenerator_is_fit (feature_generator self)).
    - destruct (FeatureGenerator_transform (feature_generator self) X_super)
        as [T|e] eqn:HT; [|done].
      simpl. destruct X_test as [Xt|].
      + simpl. destruct (FeatureGenerator_transform (feature_generator self) Xt)
          as [Xt'|e] eqn:HXt; [|done].
        simpl. intros Hrun. exists T, (Some Xt'). eexists.
        split; [by eapply transform_rows|]. split; [by eapply transform_rows|].
        exact Hrun.
      + simpl. intros Hrun. exists T, None. eexists.
        split; [by eapply transform_rows|]. split; [done|]. exact Hrun.
    - destruct (concat_series _) as [y_super|e]; [|done]. simpl.
      destruct (label_cleaner self) as [lc|]; [|done]. simpl.
      destruct (fit_transform_features _ _ _ _ _) as [g' [T|e]] eqn:HT; [|done].
      simpl. destruct X_test as [Xt|].
      + simpl. destruct (FeatureGenerator_transform g' Xt) as [Xt'|e] eqn:HXt; [|done].
        simpl. intros Hrun. exists T, (Some Xt'). eexists.
        split; [by eapply fit_transform_rows|]. split; [by eapply transform_rows|].
        exact Hrun.
      + simpl. intros Hrun. exists T, None. eexists.
        split; [by eapply fit_transform_rows|]. split; [done|]. exact Hrun. }
  revert Hrest. run_method. rewrite resplit_four by lia.
  intros [= <- <- <- <- _].
  split; [apply same_rows_rows_at|]. split; [apply same_rows_opt_rows_at|].
  split; [apply same_rows_opt_rows_at|]. split; [exact Htest|]. split.
  - rewrite Hsum. destruct X_val, X_unlabeled; reflexivity.
  - exists T. done.
Qed.

#[local] Transparent concat_frames concat_series resplit.

End UnifyFeaturesFacts.

(** The round trip of [unify_features_round_trip] on three training rows, two
    validation rows, one test row and two unlabeled rows, with a generator
    that is already fit and returns the frame it is given. *)
Lemma unify_features_round_trip_witness :
  ∃ X' X_val' X_test' X_unlabeled' self',
    example_unify_features split_train (series_of (VInt <$> [0; 1; 0]))
      (Some split_val) (Some (series_of (VInt <$> [1; 0])))
      (Some split_test) None (Some split_unlabeled)
      (example_learner MULTICLASS None false true)
    = (Ok (X', X_val', X_test', X_unlabeled'), self')
    ∧ same_rows split_train X'
    ∧ same_rows_opt (Some split_val) X_val'
    ∧ same_rows_opt (Some split_unlabeled) X_unlabeled'
    ∧ same_len_opt (Some split_test) X_test'
    ∧ (df_len X' + len_opt X_val' + len_opt X_unlabeled')%nat = 7%nat.
Proof.
  assert (∀ (g : bool) (X X' : DataFrame),
            (λ _ X, Ok X) g X = (Ok X' : result DataFrame) → df_len X' = df_len X) as Ht.
  { intros g X X' [= ->]. reflexivity. }
  assert (∀ g X y problem metric g' X',
            example_fit_transform_features g X y problem metric = (g', Ok X') →
            df_len X' = df_len X) as Hf.
  { intros g X y problem metric g' X' [= _ ->]. reflexivity. }
  destruct (unify_features_round_trip (Cleaner := example_cleaner)
              (LabelCleaner := unit) (FeatureGenerator := bool)
              (λ _, MULTICLASS) (λ g, g) (λ _ X, Ok X)
              example_fit_transform_features Ht Hf
              (example_learner MULTICLASS None false true)
              split_train (series_of (VInt <$> [0; 1; 0]))
              (Some split_val) (Some (series_of (VInt <$> [1; 0])))
              (Some split_test) None (Some split_unlabeled))
    as (X_super & Hc & Hlen & _ & Hrun).
  destruct (example_unify_features split_train (series_of (VInt <$> [0; 1; 0]))
              (Some split_val) (Some (series_of (VInt <$> [1; 0])))
              (Some split_test) None (Some split_unlabeled)
              (example_learner MULTICLASS None false true))
    as [[[[[X' X_val'] X_test'] X_unlabeled']|e] self'] eqn:E.
  - exists X', X_val', X_test', X_unlabeled', self'. split; [reflexivity|].
    destruct (Hrun _ _ _ _ _ E) as (H1 & H2 & H3 & H4 & H5 & _).
    rewrite Hlen in H5. exact (conj H1 (conj H2 (conj H3 (conj H4 H5)))).
  - vm_compute in E. discriminate E.
Defined.

(** C5 as stated fails for the test split: it is left out of the combined
    frame and transformed on its own, and its row keys are not put back.
    With a generator, already fit, that gives back the rows it is given
    under keys counted from 0, the test split that went in under the key
    ["t"] comes back under the key 0, while the other splits come back under
    their own keys. *)
Lemma unify_features_test_keys_not_restored :
  let renumber := λ (_ : bool) (X : DataFrame),
    (Ok (mkDataFrame (range_index (df_len X)) (df_columns X)) : result DataFrame) in
  (∀ g X X', renumber g X = Ok X' → df_len X' = df_len X)
  ∧ ∃ X' X_val' X_test' X_unlabeled' self',
      unify_features (Cleaner := example_cleaner) (LabelCleaner := unit)
        (FeatureGenerator := bool)
        (λ _, MULTICLASS) (λ g, g) renumber example_fit_transform_features
        split_train (series_of (VInt <$> [0; 1; 0]))
        (Some split_val) (Some (series_of (VInt <$> [1; 0])))
        (Some split_test) None (Some split_unlabeled)
        (example_learner MULTICLASS None false true)
      = (Ok (X', X_val', Some X_test', X_unlabeled'), self')
      ∧ same_rows split_train X'
      ∧ same_rows_opt (Some split_val) X_val'
      ∧ same_rows_opt (Some split_unlabeled) X_unlabeled'
      ∧ df_len X_test' = df_len split_test
      ∧ df_index split_test = [VStr "t"]
      ∧ df_index X_test' = [VInt 0]
      ∧ df_index X_test' ≠ df_index split_test.
Proof.
  intros renumber. split.
  - intros g X X' [= <-]. unfold df_len. simpl. apply range_index_length.
  - eexists _, _, _, _, _. split; [vm_compute; reflexivity|].
    repeat split; try (vm_compute; reflexivity).
    vm_compute. intros H. discriminate H.
Qed.


Section AdjustThresholdSafety.
Context {Cleaner LabelCleaner FeatureGenerator : Type}.
Local Abbreviation learner := (learner Cleaner LabelCleaner FeatureGenerator).

Lemma with_logged_nil (self : learner) : with_logged [] self = self.
Proof. destruct self. unfold with_logged. simpl. by rewrite app_nil_r. Qed.

Lemma with_logged_app (self : learner) a b :
  with_logged b (with_logged a self) = with_logged (a ++ b) self.
Proof. unfold with_logged. simpl. by rewrite app_assoc. Qed.

Lemma logger_log_with_logged (self : learner) level msg :
  logger_log level msg self = (Ok tt, with_logged [(level, msg)] self).
Proof. reflexivity. Qed.

(** The inner function returns a threshold (not [None]) on a series that is
    not empty, when the problem is a regression or some label is present. *)
Lemma _adjust_threshold_returns (self : learner) y threshold holdout_frac nbf :
  y ≠ [] →
  (problem_type self ∈ [REGRESSION; QUANTILE]
   ∨ Exists (λ v, notna v = true) (s_values y)) →
  ∃ t hf folds,
    _adjust_threshold_if_necessary self y threshold holdout_frac nbf
    = Ok (Some t, hf, folds).
Proof.
  intros Hne Hcase.
  destruct (decide (problem_type self ∈ [REGRESSION; QUANTILE])) as [Hreg|Hcls].
  - unfold _adjust_threshold_if_necessary.
    destruct (decide (Z.of_nat (length y) = 0)) as [Hz|_].
    { destruct y; [done|simpl in Hz; lia]. }
    rewrite bool_decide_eq_true_2 by done. by eexists _, _, _.
  - destruct Hcase as [Hreg|Hex]; [done|].
    destruct (adjust_threshold_classification self y threshold holdout_frac nbf
                Hne Hcls) as (hf & -> & _).
    destruct (adjusted_threshold_properties y (safe_threshold y threshold nbf) Hex)
      as (t & -> & _).
    by eexists _, _, _.
Qed.

(** C9 (amended): on a training label series that is not empty and, unless
    the problem is a regression or quantile one, has a label that is not
    missing, [adjust_threshold_if_necessary] returns a triple for every
    requested threshold, holdout fraction and fold count; it changes the
    learner only by writing warnings to the log: one when the threshold was
    lowered, one when the holdout fraction was raised, one when the fold
    count changed. *)
Theorem adjust_threshold_returns_and_only_warns (self : learner) (y : Series)
    (threshold : Z) (holdout_frac : Qc) (num_bag_folds : Z) :
  y ≠ [] →
  (problem_type self ∈ [REGRESSION; QUANTILE]
   ∨ Exists (λ v, notna v = true) (s_values y)) →
  ∃ t hf folds,
    adjust_threshold_if_necessary y threshold holdout_frac num_bag_folds self
    = (Ok (t, hf, folds),
       with_logged (adjust_warnings threshold holdout_frac num_bag_folds t hf folds)
         self)
    ∧ Forall (λ entry, entry.1 = 30) (adjust_warnings threshold holdout_frac
                                        num_bag_folds t hf folds).
Proof.
  intros Hne Hcase.
  destruct (_adjust_threshold_returns self y threshold holdout_frac num_bag_folds
              Hne Hcase) as (t & hf & folds & Hinner).
  exists t, hf, folds. split.
  - unfold adjust_threshold_if_necessary. run_method. rewrite Hinner.
    unfold adjust_warnings, logger_warning.
    destruct (decide (t ≠ threshold)) as [Hn|Heq];
      destruct (decide (t < threshold)) as [Hlt|Hge]; try lia;
      destruct (decide (hf ≠ holdout_frac)) as [Hn'|Heq'];
      destruct (decide (holdout_frac < hf)%Qc) as [Hlt'|Hge'];
      try (exfalso; apply Heq'; intros E; apply Qclt_not_eq in Hlt'; by apply Hlt');
      destruct (decide (folds ≠ num_bag_folds));
      run_method; unfold with_logged; clear Hinner Hcase; destruct self; simpl;
      rewrite <- ?app_assoc, ?app_nil_r; reflexivity.
  - unfold adjust_warnings. repeat case_decide; repeat constructor.
Qed.

End AdjustThresholdSafety.

(** [adjust_threshold_returns_and_only_warns] on the labels a, a, b of a
    multiclass problem, with threshold 10, holdout fraction 1/10 and 5 folds
    requested. *)
Lemma adjust_threshold_returns_witness :
  ∃ t hf folds,
    adjust_threshold_if_necessary y_a2_b1 10 (Q2Qc (1 # 10)) 5
      (plain_learner MULTICLASS None false)
    = (Ok (t, hf, folds),
       with_logged (adjust_warnings 10 (Q2Qc (1 # 10)) 5 t hf folds)
         (plain_learner MULTICLASS None false))
    ∧ Forall (λ entry, entry.1 = 30)
        (adjust_warnings 10 (Q2Qc (1 # 10)) 5 t hf folds).
Proof.
  apply (adjust_threshold_returns_and_only_warns
           (plain_learner MULTICLASS None false) y_a2_b1 10 (Q2Qc (1 # 10)) 5).
  - discriminate.
  - right. apply Exists_cons_hd. reflexivity.
Defined.

(** C9 as stated fails on the empty series: [1 / num_rows] divides by zero,
    on a classification problem and on a regression problem alike. *)
Lemma adjust_threshold_raises_on_empty_series :
  (adjust_threshold_if_necessary [] 10 (Q2Qc (1 # 10)) 5
     (plain_learner MULTICLASS None false)).1 = Raise ZeroDivisionError
  ∧ (adjust_threshold_if_necessary [] 10 (Q2Qc (1 # 10)) 5
       (plain_learner REGRESSION None false)).1 = Raise ZeroDivisionError.
Proof. split; reflexivity. Qed.


(** * Running a method step by step *)

Section MethodSteps.
Context {Cleaner LabelCleaner FeatureGenerator : Type}.
Local Abbreviation learner := (learner Cleaner LabelCleaner FeatureGenerator).
Local Abbreviation M := (M Cleaner LabelCleaner FeatureGenerator).
Implicit Types Inv : learner → Prop.

Lemma bind_Ok_inv {A B} (m : M A) (k : A → M B) (s s' : learner) (b : B) :
  (m ≫= k) s = (Ok b, s') →
  ∃ a s1, m s = (Ok a, s1) ∧ k a s1 = (Ok b, s').
Proof.
  unfold mbind, M_bind, bind. destruct (m s) as [[a|e] s1]; [|discriminate].
  intros H. by exists a, s1.
Qed.

Lemma bind_Ok_run {A B} (m : M A) (k : A → M B) (s s1 : learner) (a : A) :
  m s = (Ok a, s1) → (m ≫= k) s = k a s1.
Proof. unfold mbind, M_bind, bind. by intros ->. Qed.

Lemma bind_state {A B} (m : M A) (k : A → M B) (s : learner) :
  ∃ r s1, m s = (r, s1)
    ∧ match r with
      | Ok a => (m ≫= k) s = k a s1
      | Raise e => (m ≫= k) s = (Raise e, s1)
      end.
Proof.
  unfold mbind, M_bind, bind. destruct (m s) as [[a|e] s1]; by eexists _, _.
Qed.

Lemma ret_inv {A} (a b : A) (s s' : learner) :
  mret (M := M) a s = (Ok b, s') → b = a ∧ s' = s.
Proof. by intros [= -> ->]. Qed.

Lemma lift_inv {A} (r : result A) (b : A) (s s' : learner) :
  lift r s = (Ok b, s') → r = Ok b ∧ s' = s.
Proof. by intros [= -> ->]. Qed.

Lemma get_inv (s s' a : learner) : get s = (Ok a, s') → a = s ∧ s' = s.
Proof. by intros [= -> ->]. Qed.

Lemma modify_inv (f : learner → learner) (s s' : learner) (u : unit) :
  modify f s = (Ok u, s') → s' = f s.
Proof. by intros [= _ ->]. Qed.

Lemma keeps_bind {A B} Inv (m : M A) (k : A → M B) :
  keeps Inv m → (∀ a, keeps Inv (k a)) → keeps Inv (m ≫= k).
Proof.
  intros Hm Hk s Hs. specialize (Hm s Hs).
  unfold mbind, M_bind, bind. destruct (m s) as [[a|e] s1]; simpl in *.
  - by apply Hk.
  - done.
Qed.

Lemma keeps_get_bind {B} Inv (k : learner → M B) :
  (∀ s, Inv s → Inv (k s s).2) → keeps Inv (get ≫= k).
Proof. intros Hk s Hs. by apply Hk. Qed.

Lemma keeps_ret {A} Inv (a : A) : keeps Inv (mret (M := M) a).
Proof. by intros s Hs. Qed.

Lemma keeps_raise {A} Inv (e : exn) : keeps Inv (raise e : M A).
Proof. by intros s Hs. Qed.

Lemma keeps_lift {A} Inv (r : result A) : keeps Inv (lift r : M A).
Proof. by intros s Hs. Qed.

Lemma keeps_get Inv : keeps Inv get.
Proof. by intros s Hs. Qed.

Lemma keeps_modify Inv (f : learner → learner) :
  (∀ s, Inv s → Inv (f s)) → keeps Inv (modify f).
Proof. intros Hf s Hs. by apply Hf. Qed.

Lemma keeps_at {A} Inv (m : M A) s : keeps Inv m → Inv s → Inv (m s).2.
Proof. intros Hm Hs. by apply Hm. Qed.

Lemma keeps_bind_at {A B} Inv (m : M A) (k : A → M B) s :
  Inv (m s).2 → (∀ a, keeps Inv (k a)) → Inv ((m ≫= k) s).2.
Proof.
  intros Hm Hk. unfold mbind, M_bind, bind.
  destruct (m s) as [[a|e] s1]; simpl in *; [by apply Hk|done].
Qed.

Lemma lift_bind {A B} (r : result A) (k : A → M B) (s : learner) :
  (lift r ≫= k) s = match r with Ok a => k a s | Raise e => (Raise e, s) end.
Proof. by destruct r. Qed.

Lemma ret_bind {A B} (a : A) (k : A → M B) (s : learner) :
  (ret a ≫= k) s = k a s.
Proof. reflexivity. Qed.

Lemma raise_bind {A B} (e : exn) (k : A → M B) (s : learner) :
  (raise e ≫= k) s = (Raise e, s).
Proof. reflexivity. Qed.

Lemma keeps_run {A} Inv (m : M A) s r s' :
  keeps Inv m → m s = (r, s') → Inv s → Inv s'.
Proof. intros Hm Hrun Hs. specialize (Hm s Hs). by rewrite Hrun in Hm. Qed.

End MethodSteps.


Ltac keeps_step :=
  lazymatch goal with
  | |- keeps _ (mbind _ _) => apply keeps_bind; [|intros ?]
  | |- keeps _ (mret _) => apply keeps_ret
  | |- keeps _ (ret _) => apply keeps_ret
  | |- keeps _ (raise _) => apply keeps_raise
  | |- keeps _ (lift _) => apply keeps_lift
  | |- keeps _ get => apply keeps_get
  | |- keeps _ (match ?x with _ => _ end) => destruct x
  end.

(** * Methods keep every stable property *)

Section StableProperties.
Context {Cleaner LabelCleaner FeatureGenerator : Type}.
Local Abbreviation learner := (learner Cleaner LabelCleaner FeatureGenerator).
Local Abbreviation M := (M Cleaner LabelCleaner FeatureGenerator).

(** The assignments of the pipeline a property may have to survive: writing
    to the log, setting the class weights, the threshold, the cleaners or
    the feature names, and calling [transform] or
    [print_feature_metadata_info] on the generator. *)
Variable Inv : learner → Prop.
Hypothesis Inv_logged : ∀ w s, Inv s → Inv (with_logged w s).
Hypothesis Inv_class_weights : ∀ cw s, Inv s → Inv (with_class_weights cw s).
Hypothesis Inv_threshold : ∀ t s, Inv s → Inv (with_threshold t s).
Hypothesis Inv_cleaner : ∀ c s, Inv s → Inv (with_cleaner c s).
Hypothesis Inv_label_cleaner : ∀ c s, Inv s → Inv (with_label_cleaner c s).
Hypothesis Inv_original_features : ∀ cols s, Inv s → Inv (with_original_features cols s).
Hypothesis Inv_transform : ∀ X s, Inv s → Inv (with_fg_call (CallTransform X) s).
Hypothesis Inv_print : ∀ s, Inv s → Inv (with_fg_call CallPrintFeatureMetadataInfo s).

Lemma keeps_logger_log level msg : keeps Inv (logger_log level msg).
Proof. apply keeps_modify. intros s Hs. by apply (Inv_logged [(level, msg)]). Qed.

Lemma keeps_logger_warning msg : keeps Inv (logger_warning msg).
Proof. apply keeps_logger_log. Qed.

Lemma keeps_with_threshold t : keeps Inv (modify (with_threshold t)).
Proof. apply keeps_modify, Inv_threshold. Qed.

Lemma keeps_with_class_weights cw : keeps Inv (modify (with_class_weights cw)).
Proof. apply keeps_modify, Inv_class_weights. Qed.

Lemma keeps_with_cleaner c : keeps Inv (modify (with_cleaner c)).
Proof. apply keeps_modify, Inv_cleaner. Qed.

Lemma keeps_with_label_cleaner c : keeps Inv (modify (with_label_cleaner c)).
Proof. apply keeps_modify, Inv_label_cleaner. Qed.

Lemma keeps_with_original_features c : keeps Inv (modify (with_original_features c)).
Proof. apply keeps_modify, Inv_original_features. Qed.

Lemma keeps_adjust_threshold y threshold holdout_frac num_bag_folds :
  keeps Inv (adjust_threshold_if_necessary y threshold holdout_frac num_bag_folds).
Proof.
  unfold adjust_threshold_if_necessary.
  repeat first [keeps_step | apply keeps_logger_warning].
Qed.

Lemma keeps_set_predefined_weights X y : keeps Inv (set_predefined_weights X y).
Proof.
  unfold set_predefined_weights.
  repeat first [keeps_step | apply keeps_logger_log | apply keeps_with_class_weights].
Qed.

Lemma keeps_checked X name is_train : keeps Inv (checked X name is_train).
Proof. unfold checked. repeat keeps_step. Qed.

(** From here on the weighting step is taken as a whole: a property that
    speaks of the class weights survives it for a reason of its own. *)
Hypothesis Inv_set_predefined_weights :
  ∀ X y, keeps Inv (set_predefined_weights X y).

Section PipelineKeeps.
Variable augment_rare_classes : DataFrame → colname → Z → result DataFrame.
Variable Cleaner_construct : problem_type_t → colname → Z → result Cleaner.
Variable Cleaner_fit_transform : Cleaner → DataFrame → result (Cleaner * DataFrame).
Variable Cleaner_transform : Cleaner → DataFrame → result DataFrame.
Variable extract_label : colname → DataFrame → result (DataFrame * Series).
Variable LabelCleaner_construct :
  problem_type_t → Series → Series → option value → result LabelCleaner.
Variable LabelCleaner_transform : LabelCleaner → Series → result Series.
Variable LabelCleaner_num_classes : LabelCleaner → option Z.
Variable LabelCleaner_problem_type_transform : LabelCleaner → problem_type_t.
Variable extract_column : DataFrame → colname → result (DataFrame * option Series).
Variable FeatureGenerator_is_fit : FeatureGenerator → bool.
Variable FeatureGenerator_transform : FeatureGenerator → DataFrame → result DataFrame.
Variable fit_transform_features :
  FeatureGenerator → DataFrame → Series → problem_type_t → option Scorer →
  FeatureGenerator * result DataFrame.

Local Abbreviation apply_cleaner :=
  (_apply_cleaner_transform Cleaner_transform extract_label
     LabelCleaner_transform extract_column).
Local Abbreviation unify :=
  (unify_features LabelCleaner_problem_type_transform FeatureGenerator_is_fit
     FeatureGenerator_transform fit_transform_features).
Local Abbreviation gdp :=
  (general_data_processing augment_rare_classes Cleaner_construct
     Cleaner_fit_transform Cleaner_transform extract_label
     LabelCleaner_construct LabelCleaner_transform LabelCleaner_num_classes
     LabelCleaner_problem_type_transform extract_column
     FeatureGenerator_is_fit FeatureGenerator_transform fit_transform_features).

Lemma keeps_self_cleaner_transform X :
  keeps Inv (self_cleaner_transform Cleaner_transform X).
Proof. unfold self_cleaner_transform. repeat keeps_step. Qed.

Lemma keeps_self_label_cleaner_transform y :
  keeps Inv (self_label_cleaner_transform LabelCleaner_transform y).
Proof. unfold self_label_cleaner_transform. repeat keeps_step. Qed.

Lemma keeps_feature_generator_transform X :
  keeps Inv (feature_generator_transform FeatureGenerator_transform X).
Proof.
  unfold feature_generator_transform.
  repeat first [keeps_step | apply keeps_modify, Inv_transform].
Qed.

Lemma keeps_apply_cleaner_transform X y_uncleaned holdout_frac holdout_frac_og
    name is_test :
  keeps Inv (apply_cleaner X y_uncleaned holdout_frac holdout_frac_og name is_test).
Proof.
  unfold _apply_cleaner_transform.
  repeat first [keeps_step | apply keeps_logger_warning
               | apply keeps_self_cleaner_transform
               | apply keeps_self_label_cleaner_transform
               | apply Inv_set_predefined_weights].
Qed.

(** Fitting the generator is the one step a stable property has to be
    shown to survive, and only from a learner whose generator is not fit. *)
Hypothesis Inv_fit : ∀ X y problem metric s,
  Inv s → FeatureGenerator_is_fit (feature_generator s) = false →
  Inv (self_fit_transform_features fit_transform_features X y problem metric s).2.

Lemma keeps_unify_features X y X_val y_val X_test y_test X_unlabeled :
  keeps Inv (unify X y X_val y_val X_test y_test X_unlabeled).
Proof.
  unfold unify_features. cbv zeta. cbn [negb].
  apply keeps_bind; [apply keeps_lift|intros X_super].
  apply keeps_get_bind. intros s Hs.
  apply keeps_bind_at.
  2:{ intros [X_super' X_test']. repeat keeps_step. }
  destruct (FeatureGenerator_is_fit (feature_generator s)) eqn:Hfit.
  - apply keeps_at; [|exact Hs].
    repeat first [keeps_step | apply keeps_logger_log
                 | apply keeps_feature_generator_transform
                 | apply keeps_modify, Inv_print].
  - rewrite lift_bind. destruct (concat_series _) as [y_super|e]; [|exact Hs].
    destruct (label_cleaner s) as [lc|]; [|exact Hs].
    rewrite ret_bind. apply keeps_bind_at; [by apply Inv_fit|intros T].
    repeat first [keeps_step | apply keeps_feature_generator_transform].
Qed.

Lemma keeps_general_data_processing X X_val X_test X_unlabeled holdout_frac
    num_bag_folds :
  keeps Inv (gdp X X_val X_test X_unlabeled holdout_frac num_bag_folds).
Proof.
  unfold general_data_processing.
  repeat first [keeps_step | apply keeps_logger_log | apply keeps_checked
               | apply keeps_with_threshold | apply keeps_with_cleaner
               | apply keeps_with_label_cleaner | apply keeps_with_original_features
               | apply keeps_adjust_threshold
               | apply keeps_self_label_cleaner_transform
               | apply Inv_set_predefined_weights
               | apply keeps_apply_cleaner_transform
               | apply keeps_unify_features].
Qed.

End PipelineKeeps.

End StableProperties.


(** * What the steps of [general_data_processing] return *)

Section StepFacts.
Context {Cleaner LabelCleaner FeatureGenerator : Type}.
Local Abbreviation learner := (learner Cleaner LabelCleaner FeatureGenerator).
Local Abbreviation M := (M Cleaner LabelCleaner FeatureGenerator).

Lemma df_has_column_get (c : colname) (X : DataFrame) :
  df_has_column c X = true ↔ is_Some (df_get c X).
Proof.
  unfold df_has_column, df_get, df_colnames. rewrite bool_decide_eq_true.
  induction (df_columns X) as [|[k v] l IH]; simpl.
  - split; [by intros ?%elem_of_nil|by intros [? ?]].
  - rewrite elem_of_cons. destruct (decide (c = k)) as [->|Hne]; simpl.
    + split; [by eexists|by left].
    + rewrite IH. split; [by intros [?|?]|by right].
Qed.

(** The check reads the learner's label only, leaves the learner as it
    is, and gives back a frame with the columns and the index of the one
    it was given. *)
Lemma check_of_label (s s2 : learner) X name is_train :
  label s2 = label s →
  _check_for_non_finite_values_of s2 X name is_train
  = _check_for_non_finite_values_of s X name is_train.
Proof.
  intros Hl. unfold _check_for_non_finite_values_of, _check_for_non_finite_values.
  by rewrite Hl.
Qed.

Lemma check_of_frame (s : learner) (X X' : DataFrame) name is_train :
  _check_for_non_finite_values_of s (Some X) name is_train = Ok (Some X') →
  df_colnames X' = df_colnames X ∧ df_index X' = df_index X.
Proof.
  unfold _check_for_non_finite_values_of, _check_for_non_finite_values, deepcopy.
  cbn [fmap option_fmap option_map].
  rewrite lookup_singleton_eq. cbn [default from_option]. unfold id.
  destruct (is_train || df_has_column (label s) X).
  2:{ cbn [mbind result_bind option_bind]. rewrite lookup_singleton_eq.
      by intros [= ->]. }
  set (l' := fresh (dom _)). rewrite lookup_insert_eq. cbn [default from_option].
  unfold id.
  destruct (df_get (label s) X) as [y|] eqn:Hy; [|done].
  rewrite df_get_set.
  destruct (bool_decide _); [destruct (idxmax _)|]; try done.
  all: cbn [mbind result_bind option_bind]; rewrite lookup_insert_eq;
    intros [= <-]; split; [|done].
  all: unfold df_colnames, df_set; cbn [df_columns]; apply assoc_set_keys.
  all: assert (is_Some (df_get (label s) X)) as Hs by (by eexists);
    apply df_has_column_get in Hs; unfold df_has_column in Hs;
    by apply bool_decide_eq_true in Hs.
Qed.

Lemma checked_inv (s s' : learner) X X' name is_train :
  checked X name is_train s = (Ok X', s') →
  s' = s
  ∧ _check_for_non_finite_values_of s (Some X) name is_train = Ok (Some X')
  ∧ df_colnames X' = df_colnames X ∧ df_index X' = df_index X.
Proof.
  unfold checked. run_method.
  destruct (_check_for_non_finite_values_of s (Some X) name is_train)
    as [[X1|]|e] eqn:Hc; simpl; [|done..].
  intros [= <- <-]. split; [done|]. split; [done|]. by eapply check_of_frame.
Qed.

Lemma checked_label (s s2 : learner) X name is_train :
  label s2 = label s →
  (checked X name is_train s2).1 = (checked X name is_train s).1
  ∧ (checked X name is_train s2).2 = s2.
Proof.
  intros Hl. unfold checked. run_method. rewrite (check_of_label s s2) by done.
  by destruct (_check_for_non_finite_values_of s (Some X) name is_train) as [[X1|]|e].
Qed.

(** ** The threshold adjustment *)

Lemma _adjust_threshold_problem_type (s s2 : learner) y threshold holdout_frac nbf :
  problem_type s2 = problem_type s →
  _adjust_threshold_if_necessary s2 y threshold holdout_frac nbf
  = _adjust_threshold_if_necessary s y threshold holdout_frac nbf.
Proof. intros Hp. unfold _adjust_threshold_if_necessary. by rewrite Hp. Qed.

Lemma _adjust_threshold_holdout (s : learner) y threshold holdout_frac nbf r hf folds :
  _adjust_threshold_if_necessary s y threshold holdout_frac nbf = Ok (r, hf, folds) →
  y ≠ []
  ∧ hf = py_max holdout_frac (1 / Qc_of_Z (Z.of_nat (length y)) + Q2Qc (1 # 1000))%Qc
  ∧ folds = Z.min nbf (Z.of_nat (length y)).
Proof.
  unfold _adjust_threshold_if_necessary.
  destruct (decide (Z.of_nat (length y) = 0)) as [Hz|Hz]; [done|].
  assert (y ≠ []) by (by intros ->).
  destruct (bool_decide _); [by intros [= <- <- <-]|].
  destruct (minimums_met _ _ _ _); by intros [= <- <- <-].
Qed.

Lemma adjust_threshold_run (s : learner) y threshold holdout_frac nbf t hf folds :
  _adjust_threshold_if_necessary s y threshold holdout_frac nbf = Ok (Some t, hf, folds) →
  adjust_threshold_if_necessary y threshold holdout_frac nbf s
  = (Ok (t, hf, folds), with_logged (adjust_warnings threshold holdout_frac nbf t hf folds) s).
Proof.
  intros Hinner.
  destruct (adjust_threshold_if_necessary y threshold holdout_frac nbf s)
    as [r s'] eqn:Hrun.
  revert Hrun. unfold adjust_threshold_if_necessary. run_method. rewrite Hinner.
  unfold adjust_warnings, logger_warning.
  destruct (decide (t ≠ threshold)) as [Hn|Heq];
    destruct (decide (t < threshold)) as [Hlt|Hge]; try lia;
    destruct (decide (hf ≠ holdout_frac)) as [Hn'|Heq'];
    destruct (decide (holdout_frac < hf)%Qc) as [Hlt'|Hge'];
    try (exfalso; apply Heq'; intros E; apply Qclt_not_eq in Hlt'; by apply Hlt');
    destruct (decide (folds ≠ nbf));
    run_method; intros [= <- <-]; f_equal;
    unfold with_logged; destruct s; simpl;
    rewrite <- ?app_assoc, ?app_nil_r; reflexivity.
Qed.

Lemma adjust_threshold_inv (s s' : learner) y threshold holdout_frac nbf t hf folds :
  adjust_threshold_if_necessary y threshold holdout_frac nbf s = (Ok (t, hf, folds), s') →
  _adjust_threshold_if_necessary s y threshold holdout_frac nbf = Ok (Some t, hf, folds)
  ∧ s' = with_logged (adjust_warnings threshold holdout_frac nbf t hf folds) s.
Proof.
  destruct (_adjust_threshold_if_necessary s y threshold holdout_frac nbf)
    as [[[[t1|] hf1] folds1]|e] eqn:Hinner.
  - rewrite (adjust_threshold_run _ _ _ _ _ _ _ _ Hinner). by intros [= <- <- <- <-].
  - unfold adjust_threshold_if_necessary. run_method. by rewrite Hinner.
  - unfold adjust_threshold_if_necessary. run_method. by rewrite Hinner.
Qed.

(** ** The weighting step *)

#[local] Opaque df_setitem.

(** Once the class weights are settled the step leaves the learner alone. *)
Lemma set_predefined_weights_settled (s : learner) X y :
  settled s → (set_predefined_weights X y s).2 = s.
Proof.
  intros Hs. unfold set_predefined_weights. run_method.
  destruct (bool_decide (sample_weight s ∉ [AUTO_WEIGHT; BALANCE_WEIGHT])
            || bool_decide (problem_type s ∉ [BINARY; MULTICLASS])) eqn:Hnoop;
    [done|].
  destruct Hs as [Hs|[cw Hcw]]; [congruence|].
  destruct (df_has_column (sample_weight s) X); [done|].
  destruct (decide (sample_weight s = BALANCE_WEIGHT)); simpl.
  - by rewrite Hcw.
  - by destruct (decide (sample_weight s = AUTO_WEIGHT)).
Qed.

(** A step that returns leaves settled class weights behind. *)
Lemma set_predefined_weights_settles (s s' : learner) X y X' :
  set_predefined_weights X y s = (Ok X', s') → settled s'.
Proof.
  unfold set_predefined_weights, settled. run_method.
  destruct (bool_decide (sample_weight s ∉ [AUTO_WEIGHT; BALANCE_WEIGHT])
            || bool_decide (problem_type s ∉ [BINARY; MULTICLASS])) eqn:Hnoop.
  { intros [= <- <-]. by left. }
  destruct (df_has_column (sample_weight s) X); [done|].
  destruct (decide (sample_weight s = BALANCE_WEIGHT)); simpl.
  - destruct (class_weights s) as [cw|] eqn:Hcw; simpl; intros [= _ <-]; right; simpl.
    + by rewrite Hcw.
    + done.
  - by destruct (decide (sample_weight s = AUTO_WEIGHT)).
Qed.

(** A second learner with the same strategy and problem type, which holds
    the class weights the first run left behind, computes the same frame
    and stays as it is. *)
Lemma set_predefined_weights_replay (s s' s2 : learner) X y X' :
  set_predefined_weights X y s = (Ok X', s') →
  sample_weight s2 = sample_weight s →
  problem_type s2 = problem_type s →
  class_weights s2 = class_weights s' →
  set_predefined_weights X y s2 = (Ok X', s2).
Proof.
  intros Hrun Hsw Hpt Hcw. revert Hrun.
  unfold set_predefined_weights. run_method. rewrite Hsw, Hpt.
  destruct (bool_decide (sample_weight s ∉ [AUTO_WEIGHT; BALANCE_WEIGHT])
            || bool_decide (problem_type s ∉ [BINARY; MULTICLASS])) eqn:Hnoop.
  { by intros [= <- <-]. }
  destruct (df_has_column (sample_weight s) X); [done|].
  destruct (decide (sample_weight s = BALANCE_WEIGHT)); simpl.
  - destruct (class_weights s) as [cw|] eqn:Hcw0; simpl; intros [= Hset <-];
      simpl in Hcw; rewrite ?Hcw0 in Hcw; rewrite Hcw; simpl;
      rewrite ?Hcw, ?Hcw0, ?Hsw; simpl; by rewrite <- Hset, ?Hcw0.
  - by destruct (decide (sample_weight s = AUTO_WEIGHT)).
Qed.

#[local] Transparent df_setitem.

End StepFacts.


(** * More on the threshold adjustment (lines 406-459) *)

Lemma py_max_idem (a b : Qc) : py_max (py_max a b) b = py_max a b.
Proof.
  unfold py_max. destruct (decide (a < b)%Qc) as [Hlt|Hge].
  - rewrite decide_False; [done|]. intros H. by apply Qclt_not_eq in H.
  - by rewrite decide_False.
Qed.

Lemma py_max_ge (a b : Qc) : (a ≤ py_max a b)%Qc ∧ (b ≤ py_max a b)%Qc.
Proof.
  unfold py_max. destruct (decide (a < b)%Qc) as [Hlt|Hge].
  - split; [by apply Qclt_le_weak|apply Qcle_refl].
  - split; [apply Qcle_refl|by apply Qcnot_lt_le].
Qed.

Lemma clamped_folds_idem y nbf :
  clamped_folds y (clamped_folds y nbf) = clamped_folds y nbf.
Proof. unfold clamped_folds. lia. Qed.

Lemma safe_threshold_ge y t nbf : t ≤ safe_threshold y t nbf ∧ 1 ≤ safe_threshold y t nbf.
Proof. unfold safe_threshold. repeat case_decide; lia. Qed.

(** A threshold that is safe already stays as it is. *)
Lemma safe_threshold_idem y t nbf :
  safe_threshold y (safe_threshold y t nbf) (clamped_folds y nbf)
  = safe_threshold y t nbf.
Proof.
  unfold safe_threshold. rewrite clamped_folds_idem. repeat case_decide; lia.
Qed.

Lemma minimums_met_retains y t :
  minimums_met (minimum_rows_to_keep_of (total_rows y)) 2
    (rows_retained y t) (classes_retained y t) = true
  ↔ retains_enough y t.
Proof. by rewrite minimums_met_true. Qed.

Lemma minimums_met_enough_kept y t :
  minimums_met (minimum_rows_to_keep_of (total_rows y)) 2
    (rows_retained y t) (classes_retained y t) = true
  ↔ enough_kept (minimum_rows_to_keep_of (total_rows y)) 2 (value_counts y).*2 t.
Proof. rewrite minimums_met_retains. apply retains_enough_kept. Qed.

(** [ceil(0.975 * total)] is at most [total]. *)
Lemma minimum_rows_to_keep_le (total : Z) :
  0 ≤ total → minimum_rows_to_keep_of total ≤ total.
Proof.
  intros Hpos. unfold minimum_rows_to_keep_of.
  rewrite <-(Qceiling_Z total) at 2. apply Qceiling_resp_le.
  unfold Qle, Qmult, inject_Z. simpl. lia.
Qed.

Lemma kept_all cs t : Forall (λ c, t ≤ c) cs → kept cs t = cs.
Proof.
  unfold kept. induction 1 as [|c cs Hc _ IH]; [done|].
  by rewrite filter_cons_True, IH.
Qed.

Lemma descending_last_le cs c l :
  descending cs → last cs = Some l → c ∈ cs → l ≤ c.
Proof.
  intros Hs. revert l. induction Hs as [|c0 cs Hs IH Hall]; intros l Hl Hin; [done|].
  destruct cs as [|c1 cs].
  - simpl in Hl. injection Hl as <-. apply list_elem_of_singleton in Hin. lia.
  - rewrite last_cons_cons in Hl. apply elem_of_cons in Hin as [->|Hin].
    + rewrite Forall_forall in Hall. apply Hall.
      apply last_Some_elem_of in Hl. done.
    + by apply IH.
Qed.

Lemma elem_of_accumulate mr mc cs nc nr t :
  accumulate_classes mr mc cs nc nr None = Some t → t ∈ cs.
Proof.
  intros Hacc.
  destruct (accumulate_classes_spec mr mc cs nc nr None)
    as [(i & c & Hi & Hr & _)|[Hr _]].
  - rewrite Hr in Hacc. injection Hacc as <-. by eapply list_elem_of_lookup_2.
  - rewrite Hr in Hacc. destruct (last cs) as [l|] eqn:Hl; [|done].
    injection Hacc as <-. by apply last_Some_elem_of.
Qed.

(** What the loop gives on a count table: the largest threshold that keeps
    enough, or the last count when no threshold keeps enough. *)
Lemma accumulate_outcome (y : Series) (t : Z) :
  let mr := minimum_rows_to_keep_of (total_rows y) in
  let cs := (value_counts y).*2 in
  accumulate_classes mr 2 cs 0 0 None = Some t →
  (enough_kept mr 2 cs t ∧ ∀ t', enough_kept mr 2 cs t' → t' ≤ t)
  ∨ ((∀ t', ¬ enough_kept mr 2 cs t') ∧ last cs = Some t).
Proof.
  intros mr cs Hacc.
  pose proof (value_counts_descending y) as Hdesc.
  pose proof (value_counts_nonneg y) as Hpos.
  destruct (accumulate_classes_spec mr 2 cs 0 0 None)
    as [(i & c & Hi & Hr & Hm & Hbefore)|[Hr Hnone]].
  - rewrite Hr in Hacc. injection Hacc as <-. left. split.
    + by eapply stop_enough_kept.
    + intros t' Hen. by eapply enough_kept_le_stop.
  - right. split.
    + intros t'. by apply never_enough_kept.
    + rewrite Hr in Hacc. by destruct (last cs).
Qed.

Lemma adjust_warnings_same t hf folds : adjust_warnings t hf folds t hf folds = [].
Proof.
  unfold adjust_warnings.
  destruct (decide (t < t)); [lia|].
  destruct (decide (hf < hf)%Qc) as [H|_]; [by apply Qclt_not_eq in H|].
  by destruct (decide (folds ≠ folds)).
Qed.

Section AdjustThresholdMore.
Context {Cleaner LabelCleaner FeatureGenerator : Type}.
Local Abbreviation learner := (learner Cleaner LabelCleaner FeatureGenerator).

Lemma _adjust_threshold_regression (self : learner) y threshold holdout_frac nbf :
  y ≠ [] → problem_type self ∈ [REGRESSION; QUANTILE] →
  _adjust_threshold_if_necessary self y threshold holdout_frac nbf
  = Ok (Some (safe_threshold y threshold nbf),
        py_max holdout_frac (1 / Qc_of_Z (Z.of_nat (length y)) + Q2Qc (1 # 1000))%Qc,
        clamped_folds y nbf).
Proof.
  intros Hne Hreg. unfold _adjust_threshold_if_necessary.
  destruct (decide (Z.of_nat (length y) = 0)) as [Hz|_].
  { destruct y; [done|simpl in Hz; lia]. }
  by rewrite bool_decide_eq_true_2.
Qed.

(** Feeding the triple the function returned back into it gives the same
    triple. *)
Lemma _adjust_threshold_idem (self : learner) y threshold holdout_frac nbf t hf folds :
  _adjust_threshold_if_necessary self y threshold holdout_frac nbf
    = Ok (Some t, hf, folds) →
  _adjust_threshold_if_necessary self y t hf folds = Ok (Some t, hf, folds).
Proof.
  intros H.
  destruct (_adjust_threshold_holdout _ _ _ _ _ _ _ _ H) as (Hne & Hhf & Hfolds).
  fold (clamped_folds y nbf) in Hfolds.
  destruct (decide (problem_type self ∈ [REGRESSION; QUANTILE])) as [Hreg|Hcls].
  - rewrite _adjust_threshold_regression in H by done. injection H as Ht _ _.
    rewrite _adjust_threshold_regression by done.
    rewrite Hfolds at 1 2. rewrite <-Ht at 1.
    rewrite safe_threshold_idem, clamped_folds_idem, Ht, Hhf, py_max_idem.
    by rewrite <-Hfolds.
  - destruct (adjust_threshold_classification self y threshold holdout_frac nbf
                Hne Hcls) as (hf1 & E1 & _).
    rewrite E1 in H. injection H as Ht _ _.
    destruct (adjust_threshold_classification self y t hf folds Hne Hcls)
      as (hf2 & -> & ->).
    assert (clamped_folds y folds = folds) as ->
      by (rewrite Hfolds; apply clamped_folds_idem).
    assert (py_max hf (1 / Qc_of_Z (Z.of_nat (length y)) + Q2Qc (1 # 1000))%Qc = hf) as ->
      by (rewrite Hhf; apply py_max_idem).
    f_equal. f_equal. f_equal.
    destruct (minimums_met _ _ (rows_retained y (safe_threshold y threshold nbf)) _)
      eqn:Hmet.
    + injection Ht as <-. rewrite Hfolds, safe_threshold_idem. by rewrite Hmet.
    + destruct (safe_threshold_ge y t folds) as [Hge _].
      destruct (minimums_met _ _ (rows_retained y (safe_threshold y t folds)) _)
        eqn:Hmet2; [|exact Ht].
      apply minimums_met_enough_kept in Hmet2.
      destruct (accumulate_outcome y t Ht) as [[_ Hmax]|[Hnone _]].
      * apply Hmax in Hmet2. f_equal. lia.
      * by apply Hnone in Hmet2.
Qed.

(** X1: adjusting an adjusted triple changes nothing: called again with the
    threshold, holdout fraction and fold count it returned, on the same
    labels, [adjust_threshold_if_necessary] returns them again and writes
    no warning. *)
Theorem adjust_threshold_is_idempotent (self self' : learner) (y : Series)
    (threshold : Z) (holdout_frac : Qc) (num_bag_folds : Z)
    (t : Z) (hf : Qc) (folds : Z) :
  adjust_threshold_if_necessary y threshold holdout_frac num_bag_folds self
    = (Ok (t, hf, folds), self') →
  adjust_threshold_if_necessary y t hf folds self' = (Ok (t, hf, folds), self').
Proof.
  intros Hrun. apply adjust_threshold_inv in Hrun as [Hinner ->].
  apply _adjust_threshold_idem in Hinner.
  rewrite (adjust_threshold_run _ y t hf folds t hf folds).
  - f_equal. rewrite adjust_warnings_same. apply with_logged_nil.
  - by rewrite (_adjust_threshold_problem_type self).
Qed.

End AdjustThresholdMore.

Lemma adjust_threshold_is_idempotent_witness :
  ∃ t hf folds s',
    adjust_threshold_if_necessary y_100_50_1 200 (Q2Qc (1 # 10)) 5
      (plain_learner MULTICLASS None false) = (Ok (t, hf, folds), s')
    ∧ adjust_threshold_if_necessary y_100_50_1 t hf folds s' = (Ok (t, hf, folds), s').
Proof.
  destruct (adjust_threshold_if_necessary y_100_50_1 200 (Q2Qc (1 # 10)) 5
              (plain_learner MULTICLASS None false))
    as [[[[t hf] folds]|e] s'] eqn:Hrun.
  - exists t, hf, folds, s'. split; [reflexivity|].
    exact (adjust_threshold_is_idempotent _ _ _ _ _ _ _ _ _ Hrun).
  - vm_compute in Hrun. discriminate Hrun.
Defined.

(** ** Label series with one class, or with two and more *)

Lemma Forall_eq_replicate {A} (c : A) (l : list A) :
  Forall (λ v, v = c) l → l = replicate (length l) c.
Proof. induction 1 as [|x l -> _ IH]; simpl; [done|]. by rewrite <-IH. Qed.

Lemma remove_dups_replicate {A} `{EqDecision A} (n : nat) (c : A) :
  remove_dups (replicate (S n) c) = [c].
Proof.
  induction n as [|n IH]; [done|].
  change (replicate (S (S n)) c) with (c :: replicate (S n) c).
  cbn [remove_dups].
  destruct (decide_rel elem_of c (replicate (S n) c)) as [_|Hn]; [exact IH|].
  exfalso. apply Hn. by left.
Qed.

Lemma value_counts_single_class (y : Series) (c : value) :
  y ≠ [] → Forall (λ v, v = c) (s_values y) → notna c = true →
  value_counts y = [(c, Z.of_nat (length y))].
Proof.
  intros Hne Hall Hc. unfold value_counts.
  assert (length (s_values y) = length y) as Hlen by apply length_fmap.
  rewrite (Forall_eq_replicate c _ Hall), Hlen.
  destruct (length y) as [|n] eqn:Hn; [by destruct y|].
  assert (filter (λ v, notna v = true) (replicate (S n) c) = replicate (S n) c) as ->.
  { generalize (S n). intros m. induction m as [|m IH]; [done|]. simpl.
    by rewrite filter_cons_True, IH. }
  unfold unique. rewrite reverse_replicate, remove_dups_replicate.
  change (reverse [c]) with [c]. cbn [fmap list_fmap].
  assert (count_of c (replicate (S n) c) = Z.of_nat (S n)) as ->.
  { unfold count_of. f_equal. generalize (S n). intros m.
    induction m as [|m IH]; [done|]. simpl. rewrite filter_cons_True by done.
    simpl. by rewrite IH. }
  reflexivity.
Qed.

Lemma value_counts_two_classes (y : Series) (a b : value) :
  a ∈ s_values y → b ∈ s_values y → notna a = true → notna b = true → a ≠ b →
  (2 ≤ length (value_counts y))%nat.
Proof.
  intros Ha Hb Hna Hnb Hne.
  assert ((a, count_of a (filter (λ v, notna v = true) (s_values y))) ∈ value_counts y)
    as Hina by (by apply value_counts_elem).
  assert ((b, count_of b (filter (λ v, notna v = true) (s_values y))) ∈ value_counts y)
    as Hinb by (by apply value_counts_elem).
  destruct (value_counts y) as [|x [|x' l]]; simpl; [|exfalso|lia].
  - by apply elem_of_nil in Hina.
  - apply list_elem_of_singleton in Hina, Hinb. congruence.
Qed.

Section AdjustThresholdClasses.
Context {Cleaner LabelCleaner FeatureGenerator : Type}.
Local Abbreviation learner := (learner Cleaner LabelCleaner FeatureGenerator).

(** X2: whatever is requested, the triple that comes back has a threshold
    of at least 1, a holdout fraction that is at least the requested one and
    at least [1 / n + 0.001], and a fold count that is at most the requested
    one and at most the number [n] of training rows (which is not 0). *)
Theorem adjust_threshold_bounds (self self' : learner) (y : Series)
    (threshold : Z) (holdout_frac : Qc) (num_bag_folds : Z)
    (t : Z) (hf : Qc) (folds : Z) :
  adjust_threshold_if_necessary y threshold holdout_frac num_bag_folds self
    = (Ok (t, hf, folds), self') →
  y ≠ []
  ∧ 1 ≤ t
  ∧ (holdout_frac ≤ hf)%Qc
  ∧ (1 / Qc_of_Z (Z.of_nat (length y)) + Q2Qc (1 # 1000) ≤ hf)%Qc
  ∧ folds ≤ num_bag_folds
  ∧ folds ≤ Z.of_nat (length y).
Proof.
  intros Hrun. apply adjust_threshold_inv in Hrun as [Hinner _].
  destruct (_adjust_threshold_holdout _ _ _ _ _ _ _ _ Hinner) as (Hne & -> & ->).
  split; [exact Hne|]. split; [|split_and!; try lia; apply py_max_ge].
  destruct (decide (problem_type self ∈ [REGRESSION; QUANTILE])) as [Hreg|Hcls].
  - rewrite _adjust_threshold_regression in Hinner by done.
    injection Hinner as <-. apply safe_threshold_ge.
  - destruct (adjust_threshold_classification self y threshold holdout_frac
                num_bag_folds Hne Hcls) as (hf1 & E1 & _).
    rewrite E1 in Hinner. injection Hinner as Ht.
    destruct (minimums_met _ _ _ _).
    + injection Ht as <-. apply safe_threshold_ge.
    + apply elem_of_accumulate in Ht.
      pose proof (value_counts_positive y) as Hpos.
      rewrite Forall_forall in Hpos. by apply Hpos.
Qed.

(** X3: on a classification problem whose training labels have at least
    two classes, the threshold is never raised above the requested one made
    safe: it is at most [max(requested, 1)] without bagging, at most
    [max(requested, 2)] with two folds or more. *)
Theorem adjust_threshold_two_classes_upper_bound (self self' : learner)
    (y : Series) (threshold : Z) (holdout_frac : Qc) (num_bag_folds : Z)
    (t : Z) (hf : Qc) (folds : Z) (a b : value) :
  problem_type self ∉ [REGRESSION; QUANTILE] →
  a ∈ s_values y → b ∈ s_values y → notna a = true → notna b = true → a ≠ b →
  adjust_threshold_if_necessary y threshold holdout_frac num_bag_folds self
    = (Ok (t, hf, folds), self') →
  t ≤ Z.max threshold (if decide (folds < 2) then 1 else 2).
Proof.
  intros Hcls Ha Hb Hna Hnb Hab Hrun.
  pose proof (value_counts_two_classes y a b Ha Hb Hna Hnb Hab) as Htwo.
  apply adjust_threshold_inv in Hrun as [Hinner _].
  destruct (_adjust_threshold_holdout _ _ _ _ _ _ _ _ Hinner) as (Hne & _ & ->).
  assert (safe_threshold y threshold num_bag_folds
          = Z.max threshold (if decide (Z.min num_bag_folds (Z.of_nat (length y)) < 2)
                             then 1 else 2)) as Hsafe.
  { unfold safe_threshold, clamped_folds. repeat case_decide; lia. }
  rewrite <-Hsafe. clear Hsafe.
  destruct (adjust_threshold_classification self y threshold holdout_frac
              num_bag_folds Hne Hcls) as (hf1 & E1 & _).
  rewrite E1 in Hinner. injection Hinner as Ht.
  set (st := safe_threshold y threshold num_bag_folds) in *.
  destruct (minimums_met _ _ (rows_retained y st) _) eqn:Hmet.
  { injection Ht as <-. lia. }
  destruct (decide (t ≤ st)) as [|Hgt]; [done|]. exfalso.
  assert (¬ enough_kept (minimum_rows_to_keep_of (total_rows y)) 2
            (value_counts y).*2 st) as Hnot.
  { intros Hen. apply minimums_met_enough_kept in Hen. congruence. }
  apply Hnot.
  pose proof (value_counts_nonneg y) as Hpos.
  destruct (accumulate_outcome y t Ht) as [[Hen _]|[_ Hlast]].
  - apply (enough_kept_antitone _ _ _ st t); [done|lia|done].
  - unfold enough_kept. rewrite kept_all.
    + split; [|rewrite length_fmap; lia].
      apply minimum_rows_to_keep_le. by apply sum_list_Z_nonneg.
    + apply Forall_forall. intros c Hc.
      pose proof (descending_last_le _ c t (value_counts_descending y) Hlast Hc). lia.
Qed.

(** X4: on a classification problem whose training labels are all the same
    class, no threshold keeps two classes, and the threshold returned is
    the number of training rows, whatever was requested; the warning about
    the threshold is written only when that lowers the request. *)
Theorem adjust_threshold_single_class (self : learner) (y : Series) (c : value)
    (threshold : Z) (holdout_frac : Qc) (num_bag_folds : Z) :
  problem_type self ∉ [REGRESSION; QUANTILE] →
  y ≠ [] → Forall (λ v, v = c) (s_values y) → notna c = true →
  ∃ hf folds,
    adjust_threshold_if_necessary y threshold holdout_frac num_bag_folds self
    = (Ok (Z.of_nat (length y), hf, folds),
       with_logged (adjust_warnings threshold holdout_frac num_bag_folds
                      (Z.of_nat (length y)) hf folds) self)
    ∧ ((30, MsgThresholdUpdated threshold (Z.of_nat (length y)))
         ∈ adjust_warnings threshold holdout_frac num_bag_folds
             (Z.of_nat (length y)) hf folds
       ↔ Z.of_nat (length y) < threshold).
Proof.
  intros Hcls Hne Hall Hc.
  destruct (adjust_threshold_classification self y threshold holdout_frac
              num_bag_folds Hne Hcls) as (hf & E & _).
  exists hf, (clamped_folds y num_bag_folds). split.
  - apply adjust_threshold_run. rewrite E. f_equal. f_equal. f_equal.
    unfold rows_retained, classes_retained, total_rows.
    rewrite (value_counts_single_class y c Hne Hall Hc).
    assert (∀ mr nr st, minimums_met mr 2 nr
              (Z.of_nat (length (filter (λ cc : value * Z, st ≤ cc.2)
                                   [(c, Z.of_nat (length y))]))) = false) as Hnot.
    { intros mr nr st. unfold minimums_met. apply andb_false_iff. right.
      apply bool_decide_eq_false. pose proof (length_filter (λ cc : value * Z, st ≤ cc.2)
        [(c, Z.of_nat (length y))]) as Hl. simpl in Hl. lia. }
    rewrite Hnot. cbn [fmap list_fmap snd accumulate_classes].
    assert (∀ mr nr, minimums_met mr 2 nr (0 + 1) = false) as ->; [|done].
    intros mr nr. unfold minimums_met. apply andb_false_iff. right.
    apply bool_decide_eq_false. lia.
  - unfold adjust_warnings. rewrite !elem_of_app.
    repeat case_decide; rewrite ?elem_of_cons, ?elem_of_nil; split;
      try done; try (intros [H'|[H'|H']]; by (destruct H' as [H'|[]] || destruct H'));
      by (intros; left; left).
Qed.

End AdjustThresholdClasses.

Lemma adjust_threshold_bounds_witness :
  ∃ t hf folds s',
    adjust_threshold_if_necessary y_a2_b1 10 (Q2Qc (1 # 10)) 5
      (plain_learner MULTICLASS None false) = (Ok (t, hf, folds), s')
    ∧ y_a2_b1 ≠ []
    ∧ 1 ≤ t
    ∧ (Q2Qc (1 # 10) ≤ hf)%Qc
    ∧ (1 / Qc_of_Z (Z.of_nat (length y_a2_b1)) + Q2Qc (1 # 1000) ≤ hf)%Qc
    ∧ folds ≤ 5
    ∧ folds ≤ Z.of_nat (length y_a2_b1).
Proof.
  destruct (adjust_threshold_if_necessary y_a2_b1 10 (Q2Qc (1 # 10)) 5
              (plain_learner MULTICLASS None false))
    as [[[[t hf] folds]|e] s'] eqn:Hrun.
  - exists t, hf, folds, s'. split; [reflexivity|].
    exact (adjust_threshold_bounds _ _ _ _ _ _ _ _ _ Hrun).
  - vm_compute in Hrun. discriminate Hrun.
Defined.

Lemma adjust_threshold_two_classes_upper_bound_witness :
  ∃ t hf folds s',
    adjust_threshold_if_necessary y_a2_b1 10 (Q2Qc (1 # 10)) 5
      (plain_learner MULTICLASS None false) = (Ok (t, hf, folds), s')
    ∧ t ≤ Z.max 10 (if decide (folds < 2) then 1 else 2).
Proof.
  destruct (adjust_threshold_if_necessary y_a2_b1 10 (Q2Qc (1 # 10)) 5
              (plain_learner MULTICLASS None false))
    as [[[[t hf] folds]|e] s'] eqn:Hrun.
  - exists t, hf, folds, s'. split; [reflexivity|].
    apply (adjust_threshold_two_classes_upper_bound
             (plain_learner MULTICLASS None false) s' y_a2_b1 10 (Q2Qc (1 # 10)) 5
             t hf folds (VStr "a") (VStr "b")).
    + rewrite !elem_of_cons, !elem_of_nil. intros [H|[H|[]]]; discriminate H.
    + apply list_elem_of_here.
    + apply list_elem_of_further, list_elem_of_further, list_elem_of_here.
    + reflexivity.
    + reflexivity.
    + discriminate.
    + exact Hrun.
  - vm_compute in Hrun. discriminate Hrun.
Defined.

Lemma adjust_threshold_single_class_witness :
  ∃ hf folds,
    adjust_threshold_if_necessary (series_of [VStr "a"; VStr "a"; VStr "a"]) 1
      (Q2Qc (1 # 10)) 0 (plain_learner BINARY None false)
    = (Ok (3, hf, folds),
       with_logged (adjust_warnings 1 (Q2Qc (1 # 10)) 0 3 hf folds)
         (plain_learner BINARY None false))
    ∧ ((30, MsgThresholdUpdated 1 3) ∈ adjust_warnings 1 (Q2Qc (1 # 10)) 0 3 hf folds
       ↔ 3 < 1).
Proof.
  apply (adjust_threshold_single_class (plain_learner BINARY None false)
           (series_of [VStr "a"; VStr "a"; VStr "a"]) (VStr "a") 1 (Q2Qc (1 # 10)) 0).
  - rewrite !elem_of_cons, !elem_of_nil. intros [H|[H|[]]]; discriminate H.
  - discriminate.
  - repeat constructor.
  - reflexivity.
Defined.


(** * More on the frames the learner writes to *)

Lemma df_get_set_ne (c c0 : colname) (vals : list value) (X : DataFrame) :
  c0 ≠ c → df_get c0 (df_set c vals X) = df_get c0 X.
Proof.
  intros Hne. unfold df_get, df_set. simpl. by rewrite assoc_lookup_set_ne.
Qed.

Lemma df_colnames_set (c : colname) (vals : list value) (X : DataFrame) :
  df_colnames (df_set c vals X)
  = if df_has_column c X then df_colnames X else df_colnames X ++ [c].
Proof.
  unfold df_colnames, df_has_column, df_set, df_colnames. simpl.
  destruct (decide (c ∈ (df_columns X).*1)) as [Hin|Hnin].
  - rewrite bool_decide_eq_true_2 by done. by apply assoc_set_keys.
  - rewrite bool_decide_eq_false_2 by done. by apply assoc_set_keys_new.
Qed.

(** The label column read from a frame is keyed by the frame's index. *)
Lemma df_get_zip (c : colname) (X : DataFrame) (y : Series) :
  df_get c X = Some y → y = zip (df_index X) (s_values y).
Proof.
  unfold df_get. destruct (assoc_lookup c (df_columns X)) as [vals|]; [|done].
  simpl. intros [= <-]. unfold s_values.
  generalize (df_index X) as ks. intros ks. revert vals.
  induction ks as [|k0 ks IH]; intros [|v0 vs]; simpl; [done..|].
  by rewrite <-IH.
Qed.

Lemma replace_inf_finite (v : value) : non_finite v = false → replace_inf v = v.
Proof. by destruct v. Qed.

Lemma isna_finite (v : value) : non_finite v = false → isna v = false.
Proof. by destruct v. Qed.

#[local] Opaque df_setitem.

Section FrameFacts.
Context {Cleaner LabelCleaner FeatureGenerator : Type}.
Local Abbreviation learner := (learner Cleaner LabelCleaner FeatureGenerator).
Local Abbreviation M := (M Cleaner LabelCleaner FeatureGenerator).

(** X5: weights that are given are bundled whatever the split and the
    [weight_evaluation] flag: the frame that comes back has the weight
    column, which reads back as the weights given (they carry the row keys
    of the frame), and its row keys and other columns are as before. *)
Theorem bundle_weights_round_trip (self : learner) (X : DataFrame) (w : Series)
    (name : string) (is_train : bool) :
  s_index w = df_index X →
  ∃ X',
    bundle_weights self (Some X) (Some w) name is_train = Ok (Some X')
    ∧ df_get (sample_weight self) X' = Some w
    ∧ df_index X' = df_index X
    ∧ df_colnames X'
      = (if df_has_column (sample_weight self) X then df_colnames X
         else df_colnames X ++ [sample_weight self])
    ∧ ∀ c, c ≠ sample_weight self → df_get c X' = df_get c X.
Proof.
  intros Hidx. exists (df_set (sample_weight self) (s_values w) X). split_and!.
  - unfold bundle_weights. destruct is_train; by rewrite df_setitem_aligned.
  - rewrite df_get_set, <-Hidx. unfold s_index, s_values. by rewrite zip_fst_snd.
  - done.
  - apply df_colnames_set.
  - intros c Hc. by apply df_get_set_ne.
Qed.

(** X6: a split whose label column has only finite labels passes the
    check: what comes back is a copy at a new place on the heap, with the
    row keys, the column names and every column, the labels included, of
    the frame given; the frame given stays where and what it was. *)
Theorem check_accepts_finite_labels (self : learner) (h : heap) (l : positive)
    (X : DataFrame) (y : Series) (name : string) (is_train : bool) :
  h !! l = Some X →
  df_get (label self) X = Some y →
  Forall (λ kv, non_finite kv.2 = false) y →
  ∃ l' X' h',
    _check_for_non_finite_values self h (Some l) name is_train = (Ok (Some l'), h')
    ∧ l' ≠ l ∧ h !! l' = None
    ∧ h' !! l' = Some X'
    ∧ (∀ l0 X0, h !! l0 = Some X0 → h' !! l0 = Some X0)
    ∧ df_index X' = df_index X
    ∧ df_colnames X' = df_colnames X
    ∧ ∀ c, df_get c X' = df_get c X.
Proof.
  intros Hl Hy Hfin.
  set (l' := fresh (dom h)).
  assert (h !! l' = None) as Hfresh by (apply not_elem_of_dom, is_fresh).
  assert (l' ≠ l) as Hne by congruence.
  assert (replace_inf <$> s_values y = s_values y) as Hvals.
  { unfold s_values. rewrite <-list_fmap_compose. apply list_fmap_ext.
    intros i [k v] Hi. simpl. apply replace_inf_finite.
    rewrite Forall_lookup in Hfin. apply (Hfin i (k, v) Hi). }
  set (frame := df_set (label self) (s_values y) X).
  assert (df_get (label self) frame = Some y) as Hframe.
  { unfold frame. rewrite df_get_set. f_equal. symmetry. by eapply df_get_zip. }
  exists l', frame, (<[l' := frame]> (<[l' := X]> h)). split_and!.
  - unfold _check_for_non_finite_values, deepcopy.
    assert (df_has_column (label self) X = true) as Hcol
      by (apply df_has_column_get; by eexists).
    rewrite Hl. cbn [default from_option]. unfold id. rewrite Hcol, orb_true_r.
    fold l'. rewrite lookup_insert_eq. cbn [default from_option]. unfold id.
    rewrite Hy, Hvals. fold frame. rewrite Hframe.
    rewrite bool_decide_eq_false_2; [done|].
    intros Hex. apply Exists_exists in Hex as ([k b] & Hin & Hb). simpl in Hb.
    apply list_elem_of_fmap in Hin as ([k' v] & [= -> ->] & Hin).
    rewrite Forall_forall in Hfin. specialize (Hfin _ Hin). simpl in *.
    apply isna_finite in Hfin. congruence.
  - exact Hne.
  - exact Hfresh.
  - apply lookup_insert_eq.
  - intros l0 X0 H0. assert (l' ≠ l0) by congruence. by rewrite !lookup_insert_ne.
  - done.
  - unfold frame. rewrite df_colnames_set.
    assert (df_has_column (label self) X = true) as ->
      by (apply df_has_column_get; by eexists). done.
  - intros c. destruct (decide (c = label self)) as [->|Hc].
    + by rewrite Hframe, Hy.
    + unfold frame. by apply df_get_set_ne.
Qed.

(** X7: the guards of [set_predefined_weights].  When the strategy is
    neither "auto" nor "balance", or the problem is not a classification,
    the frame comes back as it is (a column named like [sample_weight]
    included) and the learner is untouched; otherwise a frame that already
    has a column named like the strategy is refused with [ValueError], and
    the "auto" strategy with [NotImplementedError]; the learner is
    untouched in both. *)
Theorem set_predefined_weights_guards (self : learner) (X : DataFrame) (y : Series) :
  (bool_decide (sample_weight self ∉ [AUTO_WEIGHT; BALANCE_WEIGHT])
   || bool_decide (problem_type self ∉ [BINARY; MULTICLASS]) = true →
   set_predefined_weights X y self = (Ok X, self))
  ∧ (sample_weight self ∈ [AUTO_WEIGHT; BALANCE_WEIGHT] →
     problem_type self ∈ [BINARY; MULTICLASS] →
     df_has_column (sample_weight self) X = true →
     set_predefined_weights X y self
     = (Raise (ValueError_weight_column_in_data (sample_weight self)), self))
  ∧ (sample_weight self = AUTO_WEIGHT →
     problem_type self ∈ [BINARY; MULTICLASS] →
     df_has_column (sample_weight self) X = false →
     set_predefined_weights X y self = (Raise NotImplementedError_auto_weight, self)).
Proof.
  assert (sample_weight self ∈ [AUTO_WEIGHT; BALANCE_WEIGHT] →
          problem_type self ∈ [BINARY; MULTICLASS] →
          bool_decide (sample_weight self ∉ [AUTO_WEIGHT; BALANCE_WEIGHT])
          || bool_decide (problem_type self ∉ [BINARY; MULTICLASS]) = false) as Hgo.
  { intros Hs Hp. apply orb_false_iff.
    split; apply bool_decide_eq_false; by intros Hn. }
  split_and!.
  - intros Hnoop. unfold set_predefined_weights. run_method. by rewrite Hnoop.
  - intros Hs Hp Hcol. unfold set_predefined_weights. run_method.
    by rewrite (Hgo Hs Hp), Hcol.
  - intros Hs Hp Hcol. unfold set_predefined_weights. run_method.
    rewrite Hgo, Hcol; [|rewrite Hs; by left|done].
    rewrite Hs. simpl. done.
Qed.

(** X8: with class weights stored, the "balance" strategy on a
    classification problem writes them on the rows and leaves the learner
    as it is, for labels that carry the row keys of the frame: a row gets
    the stored weight of its label, and NaN when its label has no stored
    weight (a class not seen when the weights were computed); the weight
    column is new and comes last, rows and other columns are as before. *)
Theorem set_predefined_weights_with_stored_weights (self : learner)
    (X : DataFrame) (y : Series) (cw : list (value * Qc)) :
  sample_weight self = BALANCE_WEIGHT →
  problem_type self ∈ [BINARY; MULTICLASS] →
  class_weights self = Some cw →
  df_has_column BALANCE_WEIGHT X = false →
  s_index y = df_index X →
  ∃ X',
    set_predefined_weights X y self = (Ok X', self)
    ∧ assoc_lookup BALANCE_WEIGHT (df_columns X')
      = Some ((λ kv, from_option VNum VNaN (assoc_lookup kv.2 cw)) <$> y)
    ∧ (∀ i key c, y !! i = Some (key, c) → assoc_lookup c cw = None →
         assoc_lookup BALANCE_WEIGHT (df_columns X') ≫= (.!! i) = Some VNaN)
    ∧ df_index X' = df_index X
    ∧ df_colnames X' = df_colnames X ++ [BALANCE_WEIGHT]
    ∧ ∀ c, c ≠ BALANCE_WEIGHT → df_get c X' = df_get c X.
Proof.
  intros Hsw Hpt Hcw Hcol Hidx.
  exists (df_set BALANCE_WEIGHT (s_values (series_map cw y)) X).
  assert (s_values (series_map cw y)
          = (λ kv, from_option VNum VNaN (assoc_lookup kv.2 cw)) <$> y) as Hvals.
  { unfold s_values, series_map. by rewrite <-list_fmap_compose. }
  assert (assoc_lookup BALANCE_WEIGHT
            (df_columns (df_set BALANCE_WEIGHT (s_values (series_map cw y)) X))
          = Some ((λ kv, from_option VNum VNaN (assoc_lookup kv.2 cw)) <$> y)) as Hlook.
  { unfold df_set. simpl. by rewrite assoc_lookup_set_eq, Hvals. }
  split_and!.
  - unfold set_predefined_weights. run_method. rewrite Hsw, Hcol.
    rewrite (bool_decide_eq_false_2 (BALANCE_WEIGHT ∉ _)).
    2:{ intros Hn. apply Hn. apply list_elem_of_further, list_elem_of_here. }
    rewrite (bool_decide_eq_false_2 (problem_type self ∉ _)) by (by intros Hn).
    simpl. rewrite Hcw. run_method. rewrite Hcw. simpl.
    by rewrite df_setitem_aligned by (by rewrite series_map_index).
  - exact Hlook.
  - intros i key c Hi Hnone. rewrite Hlook. simpl.
    rewrite list_lookup_fmap, Hi. simpl. by rewrite Hnone.
  - done.
  - by rewrite df_colnames_set, Hcol.
  - intros c Hc. by apply df_get_set_ne.
Qed.

End FrameFacts.

#[local] Transparent df_setitem.

Lemma bundle_weights_round_trip_witness :
  let w := zip (VInt <$> [0; 1; 2]) (VInt <$> [1; 2; 3]) in
  ∃ X',
    bundle_weights (plain_learner MULTICLASS (Some "w"%string) true)
      (Some (frame_x 3)) (Some w) "X_val" false = Ok (Some X')
    ∧ df_get (Some "w"%string) X' = Some w
    ∧ df_index X' = df_index (frame_x 3)
    ∧ df_colnames X'
      = (if df_has_column (Some "w"%string) (frame_x 3) then df_colnames (frame_x 3)
         else df_colnames (frame_x 3) ++ [Some "w"%string])
    ∧ ∀ c, c ≠ Some "w"%string → df_get c X' = df_get c (frame_x 3).
Proof.
  intros w.
  apply (bundle_weights_round_trip (plain_learner MULTICLASS (Some "w"%string) true)
           (frame_x 3) w "X_val" false).
  reflexivity.
Defined.

Lemma check_accepts_finite_labels_witness :
  let X := frame_of (VInt <$> [10; 11]) (VInt <$> [1; 2]) [VStr "a"; VStr "b"] in
  ∃ l' X' h',
    _check_for_non_finite_values (plain_learner MULTICLASS None false)
      {[ 5%positive := X ]} (Some 5%positive) "train" true = (Ok (Some l'), h')
    ∧ l' ≠ 5%positive ∧ ({[ 5%positive := X ]} : heap) !! l' = None
    ∧ h' !! l' = Some X'
    ∧ (∀ l0 X0, ({[ 5%positive := X ]} : heap) !! l0 = Some X0 → h' !! l0 = Some X0)
    ∧ df_index X' = df_index X
    ∧ df_colnames X' = df_colnames X
    ∧ ∀ c, df_get c X' = df_get c X.
Proof.
  intros X.
  apply (check_accepts_finite_labels (plain_learner MULTICLASS None false)
           {[ 5%positive := X ]} 5%positive X
           (zip (VInt <$> [10; 11]) [VStr "a"; VStr "b"]) "train" true).
  - reflexivity.
  - reflexivity.
  - repeat constructor.
Defined.

Lemma set_predefined_weights_guards_witness :
  set_predefined_weights (frame_x 3) y_a2_b1 (plain_learner REGRESSION BALANCE_WEIGHT false)
    = (Ok (frame_x 3), plain_learner REGRESSION BALANCE_WEIGHT false)
  ∧ set_predefined_weights (frame_x 3) y_a2_b1
      (plain_learner MULTICLASS (Some "x"%string) false)
    = (Ok (frame_x 3), plain_learner MULTICLASS (Some "x"%string) false)
  ∧ set_predefined_weights (df_set BALANCE_WEIGHT (VInt <$> [1; 1; 1]) (frame_x 3))
      y_a2_b1 (plain_learner MULTICLASS BALANCE_WEIGHT false)
    = (Raise (ValueError_weight_column_in_data BALANCE_WEIGHT),
       plain_learner MULTICLASS BALANCE_WEIGHT false)
  ∧ set_predefined_weights (frame_x 3) y_a2_b1 (plain_learner BINARY AUTO_WEIGHT false)
    = (Raise NotImplementedError_auto_weight, plain_learner BINARY AUTO_WEIGHT false).
Proof.
  split_and!.
  - apply (set_predefined_weights_guards
             (plain_learner REGRESSION BALANCE_WEIGHT false) (frame_x 3) y_a2_b1).
    reflexivity.
  - apply (set_predefined_weights_guards
             (plain_learner MULTICLASS (Some "x"%string) false) (frame_x 3) y_a2_b1).
    reflexivity.
  - apply (set_predefined_weights_guards
             (plain_learner MULTICLASS BALANCE_WEIGHT false)
             (df_set BALANCE_WEIGHT (VInt <$> [1; 1; 1]) (frame_x 3)) y_a2_b1).
    + apply list_elem_of_further, list_elem_of_here.
    + apply list_elem_of_further, list_elem_of_here.
    + reflexivity.
  - apply (set_predefined_weights_guards
             (plain_learner BINARY AUTO_WEIGHT false) (frame_x 3) y_a2_b1).
    + reflexivity.
    + apply list_elem_of_here.
    + reflexivity.
Defined.

Lemma set_predefined_weights_with_stored_weights_witness :
  let cw := [(VStr "a", Q2Qc (3 # 4)); (VStr "b", Q2Qc (3 # 2))] in
  let self := with_class_weights (Some cw) (plain_learner MULTICLASS BALANCE_WEIGHT false) in
  let y := series_of [VStr "a"; VStr "z"; VStr "b"] in
  ∃ X',
    set_predefined_weights (frame_x 3) y self = (Ok X', self)
    ∧ assoc_lookup BALANCE_WEIGHT (df_columns X')
      = Some ((λ kv, from_option VNum VNaN (assoc_lookup kv.2 cw)) <$> y)
    ∧ (∀ i key c, y !! i = Some (key, c) → assoc_lookup c cw = None →
         assoc_lookup BALANCE_WEIGHT (df_columns X') ≫= (.!! i) = Some VNaN)
    ∧ df_index X' = df_index (frame_x 3)
    ∧ df_colnames X' = df_colnames (frame_x 3) ++ [BALANCE_WEIGHT]
    ∧ ∀ c, c ≠ BALANCE_WEIGHT → df_get c X' = df_get c (frame_x 3).
Proof.
  intros cw self y.
  apply (set_predefined_weights_with_stored_weights self (frame_x 3) y cw).
  - reflexivity.
  - apply list_elem_of_further, list_elem_of_here.
  - reflexivity.
  - reflexivity.
  - reflexivity.
Defined.


(** * More on the pipeline: cleaning a split, and the whole of
      [general_data_processing] *)

Section PipelineFacts.
Context {Cleaner LabelCleaner FeatureGenerator : Type}.
Local Abbreviation learner := (learner Cleaner LabelCleaner FeatureGenerator).
Local Abbreviation M := (M Cleaner LabelCleaner FeatureGenerator).
Variable augment_rare_classes : DataFrame → colname → Z → result DataFrame.
Variable Cleaner_construct : problem_type_t → colname → Z → result Cleaner.
Variable Cleaner_fit_transform : Cleaner → DataFrame → result (Cleaner * DataFrame).
Variable Cleaner_transform : Cleaner → DataFrame → result DataFrame.
Variable extract_label : colname → DataFrame → result (DataFrame * Series).
Variable LabelCleaner_construct :
  problem_type_t → Series → Series → option value → result LabelCleaner.
Variable LabelCleaner_transform : LabelCleaner → Series → result Series.
Variable LabelCleaner_num_classes : LabelCleaner → option Z.
Variable LabelCleaner_problem_type_transform : LabelCleaner → problem_type_t.
Variable extract_column : DataFrame → colname → result (DataFrame * option Series).
Variable FeatureGenerator_is_fit : FeatureGenerator → bool.
Variable FeatureGenerator_transform : FeatureGenerator → DataFrame → result DataFrame.
Variable fit_transform_features :
  FeatureGenerator → DataFrame → Series → problem_type_t → option Scorer →
  FeatureGenerator * result DataFrame.

Local Abbreviation apply_cleaner :=
  (_apply_cleaner_transform Cleaner_transform extract_label
     LabelCleaner_transform extract_column).
Local Abbreviation unify :=
  (unify_features LabelCleaner_problem_type_transform FeatureGenerator_is_fit
     FeatureGenerator_transform fit_transform_features).
Local Abbreviation gdp :=
  (general_data_processing augment_rare_classes Cleaner_construct
     Cleaner_fit_transform Cleaner_transform extract_label
     LabelCleaner_construct LabelCleaner_transform LabelCleaner_num_classes
     LabelCleaner_problem_type_transform extract_column
     FeatureGenerator_is_fit FeatureGenerator_transform fit_transform_features).

(** What a call of [_apply_cleaner_transform] that returns has done. *)
Lemma apply_cleaner_transform_inv (s s' : learner) (X : option DataFrame)
    (y_uncleaned : Series) (holdout_frac holdout_frac_og : Qc) (name : string)
    (is_test : bool) X2 y2 w2 hf2 :
  apply_cleaner X y_uncleaned holdout_frac holdout_frac_og name is_test s
    = (Ok (X2, y2, w2, hf2), s') →
  match X with
  | None => (X2, y2, w2, hf2) = (None, None, None, holdout_frac) ∧ s' = s
  | Some X0 =>
      if df_has_column (label s) X0 then
        ∃ c Xc, cleaner s = Some c ∧ Cleaner_transform c X0 = Ok Xc
          ∧ (is_test = true → df_len Xc = df_len X0)
          ∧ if decide (df_len Xc = 0%nat)
            then (X2, y2, w2, hf2) = (None, None, None, holdout_frac_og)
            else is_Some X2 ∧ is_Some y2 ∧ hf2 = holdout_frac
      else (X2, y2, w2, hf2) = (Some X0, None, None, holdout_frac) ∧ s' = s
  end.
Proof.
  unfold _apply_cleaner_transform, self_cleaner_transform,
    self_label_cleaner_transform. run_method.
  destruct X as [X0|]; [|by intros [= <- <- <- <- <-]].
  destruct (df_get (label s) X0) as [y_og|] eqn:Hy.
  2:{ assert (df_has_column (label s) X0 = false) as ->.
      { apply not_true_is_false. intros Hc. apply df_has_column_get in Hc.
        rewrite Hy in Hc. by destruct Hc. }
      by intros [= <- <- <- <- <-]. }
  assert (df_has_column (label s) X0 = true) as ->
    by (apply df_has_column_get; by eexists).
  destruct (cleaner s) as [c|]; [|done]. simpl.
  destruct (Cleaner_transform c X0) as [Xc|e] eqn:Hc; [|done]. simpl.
  intros Hrun. exists c, Xc. split; [done|]. split; [done|].
  destruct (is_test && bool_decide (Some (df_len Xc) ≠ (if is_test then Some (df_len X0) else None)))
    eqn:Hassert; [done|].
  split.
  { intros ->. simpl in Hassert. apply bool_decide_eq_false in Hassert.
    destruct (decide (df_len Xc = df_len X0)) as [|Hne]; [done|].
    exfalso. apply Hassert. congruence. }
  revert Hrun. destruct (decide (df_len Xc = 0%nat)) as [Hz|Hnz].
  - destruct (bool_decide (problem_type s ∈ [BINARY; MULTICLASS])).
    + destruct (py_sorted (unique (s_values y_uncleaned))); [|done].
      destruct (py_sorted (unique (s_values y_og))); [|done]. simpl.
      by intros [= <- <- <- <- _].
    + simpl. by intros [= <- <- <- <- _].
  - destruct (extract_label (label s) Xc) as [[X1 y1]|]; [|done]. simpl.
    destruct (label_cleaner s) as [lc|]; [|done]. simpl.
    destruct (LabelCleaner_transform lc y1) as [y1'|]; [|done]. simpl.
    destruct (set_predefined_weights X1 y1' s) as [[X1'|] s1]; [|done].
    destruct (extract_column X1' (sample_weight s)) as [[X1'' w1]|]; [|done]. simpl.
    intros [= <- <- <- <- _]. by split_and!.
Qed.

(** X9: the edges of [_apply_cleaner_transform].  A split that is absent
    comes back absent, and a split without the label column comes back as
    it was given, neither cleaned nor split into features and labels; the
    cleaner is not consulted (none need be fit) and the learner is
    untouched.  A test split with the label column from which the fitted
    cleaner removes (or to which it adds) rows is refused with the
    assertion error that names the split. *)
Theorem apply_cleaner_transform_edges (s : learner) (y_uncleaned : Series)
    (holdout_frac holdout_frac_og : Qc) (name : string) (is_test : bool) :
  apply_cleaner None y_uncleaned holdout_frac holdout_frac_og name is_test s
    = (Ok (None, None, None, holdout_frac), s)
  ∧ (∀ X0, df_has_column (label s) X0 = false →
       apply_cleaner (Some X0) y_uncleaned holdout_frac holdout_frac_og name is_test s
       = (Ok (Some X0, None, None, holdout_frac), s))
  ∧ (∀ X0 c Xc, df_has_column (label s) X0 = true →
       cleaner s = Some c → Cleaner_transform c X0 = Ok Xc →
       df_len Xc ≠ df_len X0 →
       apply_cleaner (Some X0) y_uncleaned holdout_frac holdout_frac_og name true s
       = (Raise (AssertionError_low_frequency_classes name), s)).
Proof.
  split_and!.
  - reflexivity.
  - intros X0 Hcol. unfold _apply_cleaner_transform. run_method.
    destruct (df_get (label s) X0) as [y_og|] eqn:Hy; [|done].
    assert (df_has_column (label s) X0 = true) as Hc
      by (apply df_has_column_get; by eexists). congruence.
  - intros X0 c Xc Hcol Hc Ht Hlen.
    apply df_has_column_get in Hcol as [y_og Hy].
    unfold _apply_cleaner_transform, self_cleaner_transform. run_method.
    rewrite Hy, Hc. simpl. rewrite Ht. simpl.
    rewrite bool_decide_eq_true_2; [done|]. congruence.
Qed.

(** ** The feature generator over calls of [general_data_processing] *)

(** X10: a call of [general_data_processing] on a learner whose feature
    generator is fit never fits it again, whether the call returns or
    raises: the generator the learner holds afterwards is the one it held,
    and every call made on it was [transform] or
    [print_feature_metadata_info]. *)
Theorem general_data_processing_never_refits (self : learner) (X : DataFrame)
    (X_val X_test X_unlabeled : option DataFrame) (holdout_frac : Qc)
    (num_bag_folds : Z) :
  FeatureGenerator_is_fit (feature_generator self) = true →
  let self' := (gdp X X_val X_test X_unlabeled holdout_frac num_bag_folds self).2 in
  feature_generator self' = feature_generator self
  ∧ ∃ calls, fg_calls self' = fg_calls self ++ calls
             ∧ Forall (λ c, is_fit_call c = false) calls.
Proof.
  intros Hfit.
  set (Inv := λ s : learner,
        feature_generator s = feature_generator self
        ∧ ∃ calls, fg_calls s = fg_calls self ++ calls
                   ∧ Forall (λ c, is_fit_call c = false) calls).
  assert (∀ c s, is_fit_call c = false → Inv s → Inv (with_fg_call c s)) as Hcall.
  { intros c s Hc [Hg (calls & Hcalls & Hall)]. split; [done|].
    exists (calls ++ [c]). simpl. rewrite Hcalls, app_assoc. split; [done|].
    apply Forall_app. split; [done|]. by constructor. }
  apply (keeps_general_data_processing Inv); try (by intros ? s [? ?]).
  - intros X0 s. by apply Hcall.
  - intros s. by apply Hcall.
  - intros X0 y0. apply keeps_set_predefined_weights; by intros ? s [? ?].
  - intros X0 y0 problem metric s [Hg _] Hnot. rewrite Hg in Hnot. congruence.
  - split; [done|]. exists []. by rewrite app_nil_r.
Qed.

(** X11: over any sequence of calls of [general_data_processing], made
    one after the other on the same learner with whatever arguments and
    whatever outcome, the feature generator is fit to completion at most
    once, provided a fit that returns leaves a generator that reports
    [is_fit()]. *)
Theorem general_data_processing_fits_at_most_once (self : learner)
    (calls : list gdp_args) :
  (∀ g X y problem metric g' X',
     fit_transform_features g X y problem metric = (g', Ok X') →
     FeatureGenerator_is_fit g' = true) →
  completed_fits (fg_calls self) = 0%nat →
  (completed_fits
     (fg_calls
        (run_calls (λ a, gdp (arg_X a) (arg_X_val a) (arg_X_test a)
                           (arg_X_unlabeled a) (arg_holdout_frac a)
                           (arg_num_bag_folds a)) calls self)) ≤ 1)%nat.
Proof.
  intros Hcontract Hzero.
  set (Inv := λ s : learner,
        (completed_fits (fg_calls s) ≤ 1)%nat
        ∧ (completed_fits (fg_calls s) = 1%nat →
           FeatureGenerator_is_fit (feature_generator s) = true)).
  assert (∀ c s, completed_fit c = false → Inv s → Inv (with_fg_call c s)) as Hcall.
  { intros c s Hc [H1 H2]. unfold Inv, completed_fits in *. simpl.
    rewrite filter_app, length_app, filter_cons_False by congruence.
    simpl. rewrite Nat.add_0_r. done. }
  assert (Inv (run_calls (λ a, gdp (arg_X a) (arg_X_val a) (arg_X_test a)
                                 (arg_X_unlabeled a) (arg_holdout_frac a)
                                 (arg_num_bag_folds a)) calls self)) as [H _];
    [|exact H].
  assert (Inv self) as Hself by (split; lia).
  clear Hzero. revert self Inv Hcall Hself.
  induction calls as [|a calls IH]; intros self Inv Hcall Hself.
  { exact Hself. }
  simpl. set (s1 := (gdp _ _ _ _ _ _ self).2).
  assert (Inv s1) as Hs1.
  { apply (keeps_general_data_processing Inv); try (by intros ? s [? ?]); try done.
    - intros X0 s. by apply Hcall.
    - intros s. by apply Hcall.
    - intros X0 y0. apply keeps_set_predefined_weights; by intros ? s [? ?].
    - intros X0 y0 problem metric s [H1 H2] Hnot.
      assert (completed_fits (fg_calls s) = 0%nat) as H0.
      { destruct (completed_fits (fg_calls s)) as [|[|n]] eqn:E; [done| |lia].
        rewrite H2 in Hnot; done. }
      unfold self_fit_transform_features. run_method.
      destruct (fit_transform_features (feature_generator s) X0 y0 problem metric)
        as [g' [T|e]] eqn:Hf; simpl; unfold Inv, completed_fits in *; simpl;
        rewrite filter_app, length_app.
      + rewrite filter_cons_True by done. simpl. rewrite H0. split; [lia|].
        intros _. by eapply Hcontract.
      + rewrite filter_cons_False by done. simpl. rewrite H0. split; [lia|]. lia. }
  by apply IH.
Qed.

End PipelineFacts.

Lemma apply_cleaner_transform_edges_witness :
  let s := example_learner_cleaning [VStr "a"; VStr "b"] in
  example_apply_cleaner_transform None y_strings 1%Qc (Q2Qc (1 # 5)) "test" true s
    = (Ok (None, None, None, 1%Qc), s)
  ∧ example_apply_cleaner_transform (Some (frame_x 3)) y_strings 1%Qc (Q2Qc (1 # 5))
      "test" true s
    = (Ok (Some (frame_x 3), None, None, 1%Qc), s)
  ∧ example_apply_cleaner_transform (Some frame_unseen) y_strings 1%Qc (Q2Qc (1 # 5))
      "test" true s
    = (Raise (AssertionError_low_frequency_classes "test"), s).
Proof.
  intros s.
  pose proof (apply_cleaner_transform_edges example_Cleaner_transform
                example_extract_label (λ _ y, Ok y) example_extract_column
                s y_strings 1%Qc (Q2Qc (1 # 5)) "test" true) as (H1 & H2 & H3).
  split_and!.
  - exact H1.
  - apply H2. reflexivity.
  - eapply H3.
    + reflexivity.
    + reflexivity.
    + reflexivity.
    + vm_compute. discriminate.
Defined.

Lemma general_data_processing_never_refits_witness :
  let self := example_learner MULTICLASS None false true in
  let self' := (example_general_data_processing frame_train_aabb (Some frame_val_ab)
                  None None (Q2Qc (1 # 10)) 0 self).2 in
  feature_generator self' = feature_generator self
  ∧ ∃ calls, fg_calls self' = fg_calls self ++ calls
             ∧ Forall (λ c, is_fit_call c = false) calls.
Proof.
  intros self.
  apply (general_data_processing_never_refits (λ X _ _, Ok X)
           example_Cleaner_construct example_Cleaner_fit_transform
           example_Cleaner_transform example_extract_label
           (λ _ _ _ _, Ok tt) (λ _ y, Ok y) (λ _, None) (λ _, MULTICLASS)
           example_extract_column (λ g, g) (λ _ X, Ok X)
           example_fit_transform_features self frame_train_aabb
           (Some frame_val_ab) None None (Q2Qc (1 # 10)) 0).
  reflexivity.
Defined.

Lemma general_data_processing_fits_at_most_once_witness :
  let self := example_learner MULTICLASS None false false in
  let call := mkGdpArgs frame_train_aabb (Some frame_val_ab) None None (Q2Qc (1 # 10)) 0 in
  (completed_fits
     (fg_calls
        (run_calls (λ a, example_general_data_processing (arg_X a) (arg_X_val a)
                           (arg_X_test a) (arg_X_unlabeled a) (arg_holdout_frac a)
                           (arg_num_bag_folds a)) [call; call; call] self)) ≤ 1)%nat.
Proof.
  intros self call.
  apply (general_data_processing_fits_at_most_once (λ X _ _, Ok X)
           example_Cleaner_construct example_Cleaner_fit_transform
           example_Cleaner_transform example_extract_label
           (λ _ _ _ _, Ok tt) (λ _ y, Ok y) (λ _, None) (λ _, MULTICLASS)
           example_extract_column (λ g, g) (λ _ X, Ok X)
           example_fit_transform_features self [call; call; call]).
  - intros g X y problem metric g' X' H. injection H as <- _. reflexivity.
  - reflexivity.
Defined.


(** * [general_data_processing] from its first line to its last *)

Section WholePipeline.
Context {Cleaner LabelCleaner FeatureGenerator : Type}.
Local Abbreviation learner := (learner Cleaner LabelCleaner FeatureGenerator).
Local Abbreviation M := (M Cleaner LabelCleaner FeatureGenerator).
Variable augment_rare_classes : DataFrame → colname → Z → result DataFrame.
Variable Cleaner_construct : problem_type_t → colname → Z → result Cleaner.
Variable Cleaner_fit_transform : Cleaner → DataFrame → result (Cleaner * DataFrame).
Variable Cleaner_transform : Cleaner → DataFrame → result DataFrame.
Variable extract_label : colname → DataFrame → result (DataFrame * Series).
Variable LabelCleaner_construct :
  problem_type_t → Series → Series → option value → result LabelCleaner.
Variable LabelCleaner_transform : LabelCleaner → Series → result Series.
Variable LabelCleaner_num_classes : LabelCleaner → option Z.
Variable LabelCleaner_problem_type_transform : LabelCleaner → problem_type_t.
Variable extract_column : DataFrame → colname → result (DataFrame * option Series).
Variable FeatureGenerator_is_fit : FeatureGenerator → bool.
Variable FeatureGenerator_transform : FeatureGenerator → DataFrame → result DataFrame.
Variable fit_transform_features :
  FeatureGenerator → DataFrame → Series → problem_type_t → option Scorer →
  FeatureGenerator * result DataFrame.

Local Abbreviation apply_cleaner :=
  (_apply_cleaner_transform Cleaner_transform extract_label
     LabelCleaner_transform extract_column).
Local Abbreviation unify :=
  (unify_features LabelCleaner_problem_type_transform FeatureGenerator_is_fit
     FeatureGenerator_transform fit_transform_features).
Local Abbreviation gdp :=
  (general_data_processing augment_rare_classes Cleaner_construct
     Cleaner_fit_transform Cleaner_transform extract_label
     LabelCleaner_construct LabelCleaner_transform LabelCleaner_num_classes
     LabelCleaner_problem_type_transform extract_column
     FeatureGenerator_is_fit FeatureGenerator_transform fit_transform_features).

Ltac inv_bind H a s Hm := apply bind_Ok_inv in H as (a & s & Hm & H).

Lemma self_label_cleaner_transform_inv (s s' : learner) (y y' : Series) :
  self_label_cleaner_transform LabelCleaner_transform y s = (Ok y', s') →
  s' = s ∧ ∃ lc, label_cleaner s = Some lc ∧ LabelCleaner_transform lc y = Ok y'.
Proof.
  unfold self_label_cleaner_transform. run_method.
  destruct (label_cleaner s) as [lc|]; [|done]. simpl.
  destruct (LabelCleaner_transform lc y) as [y1|] eqn:Hlc; [|done].
  intros [= <- <-]. split; [done|]. by exists lc.
Qed.

(** Splits that are absent stay absent through the loop of lines 287-292,
    and no other. *)
Lemma resplit_absent (T : DataFrame) (ds ds' : list (option DataFrame)) (idx : nat) :
  resplit T ds idx = Ok ds' → Forall2 (λ d d', d = None ↔ d' = None) ds ds'.
Proof.
  revert ds' idx. induction ds as [|[d|] ds IH]; intros ds' idx; simpl.
  - intros [= <-]. constructor.
  - destruct (set_index _ _) as [d'|]; [|done]. simpl.
    destruct (resplit T ds (idx + df_len d)) as [rest|] eqn:Hrest; [|done]. simpl.
    intros [= <-]. constructor; [done|]. by eapply IH.
  - destruct (resplit T ds idx) as [rest|] eqn:Hrest; [|done]. simpl.
    intros [= <-]. constructor; [done|]. by eapply IH.
Qed.

Lemma unify_features_absent (s s' : learner) X y X_val y_val X_test y_test
    X_unlabeled X' X_val' X_test' X_unlabeled' :
  unify X y X_val y_val X_test y_test X_unlabeled s
    = (Ok (X', X_val', X_test', X_unlabeled'), s') →
  (X_val' = None ↔ X_val = None) ∧ (X_unlabeled' = None ↔ X_unlabeled = None).
Proof.
  unfold unify_features. cbv zeta. intros Hrun.
  inv_bind Hrun X_super s1 H1. inv_bind Hrun self s2 H2.
  inv_bind Hrun p s3 H3. destruct p as [T X_test0].
  inv_bind Hrun ds s4 H4. apply lift_inv in H4 as [H4 ->].
  apply resplit_absent in H4.
  destruct ds as [|[d0|] [|d1 [|d2 [|d3 [|]]]]]; try done.
  apply ret_inv in Hrun as [[= <- <- <- <-] _].
  apply Forall2_cons in H4 as [_ H4]. apply Forall2_cons in H4 as [Hv H4].
  apply Forall2_cons in H4 as [_ H4]. apply Forall2_cons in H4 as [Hu _].
  split; by symmetry.
Qed.

Lemma bundle_weights_absent (s : learner) X w name X' :
  bundle_weights s X w name false = Ok X' → (X' = None ↔ X = None).
Proof.
  unfold bundle_weights. destruct X as [X0|]; [|by intros [= <-]].
  destruct w as [w|]; [destruct (df_setitem _ w X0); by intros [= <-]|].
  destruct (negb (weight_evaluation s)); [by intros [= <-]|done].
Qed.

(** What the weighting step returns depends on the learner through its
    weighting strategy, its problem type and its class weights only. *)
Lemma set_predefined_weights_result (s s2 : learner) X y :
  sample_weight s2 = sample_weight s →
  problem_type s2 = problem_type s →
  class_weights s2 = class_weights s →
  (set_predefined_weights X y s2).1 = (set_predefined_weights X y s).1.
Proof.
  intros Hsw Hpt Hcw. unfold set_predefined_weights. run_method.
  rewrite Hsw, Hpt.
  destruct (bool_decide (sample_weight s ∉ [AUTO_WEIGHT; BALANCE_WEIGHT])
            || bool_decide (problem_type s ∉ [BINARY; MULTICLASS])); [done|].
  destruct (df_has_column (sample_weight s) X); [done|].
  destruct (decide (sample_weight s = BALANCE_WEIGHT)); simpl.
  - rewrite Hcw. destruct (class_weights s) eqn:Hcw0; simpl;
      by rewrite ?Hcw, ?Hcw0, ?Hsw.
  - by destruct (decide (sample_weight s = AUTO_WEIGHT)).
Qed.

#[local] Opaque concat_frames concat_series resplit.

(** After a pass that returns, the generator the learner holds is fit,
    when a fit that returns leaves a fit generator. *)
Lemma unify_features_fit_after (s s' : learner) X y X_val y_val X_test y_test
    X_unlabeled r :
  (∀ g X y problem metric g' X',
     fit_transform_features g X y problem metric = (g', Ok X') →
     FeatureGenerator_is_fit g' = true) →
  unify X y X_val y_val X_test y_test X_unlabeled s = (Ok r, s') →
  FeatureGenerator_is_fit (feature_generator s') = true.
Proof.
  intros Hcontract.
  unfold unify_features, feature_generator_transform, self_fit_transform_features.
  cbv zeta. run_method.
  destruct (concat_frames _) as [X_super|]; [|done]. simpl.
  destruct (FeatureGenerator_is_fit (feature_generator s)) eqn:Hfit.
  - destruct (FeatureGenerator_transform (feature_generator s) X_super) as [T|]; [|done].
    simpl. destruct X_test as [Xt|]; simpl.
    + destruct (FeatureGenerator_transform (feature_generator s) Xt) as [Xt'|]; [|done].
      simpl. destruct (resplit T _ 0) as [ds|]; [|done]. simpl.
      destruct ds as [|[d0|] [|d1 [|d2 [|d3 [|]]]]]; try done.
      by intros [= _ <-].
    + destruct (resplit T _ 0) as [ds|]; [|done]. simpl.
      destruct ds as [|[d0|] [|d1 [|d2 [|d3 [|]]]]]; try done.
      by intros [= _ <-].
  - destruct (concat_series _) as [y_super|]; [|done]. simpl.
    destruct (label_cleaner s) as [lc|]; [|done]. simpl.
    destruct (fit_transform_features _ _ _ _ _) as [g' [T|]] eqn:Hf; [|done].
    apply Hcontract in Hf.
    simpl. destruct X_test as [Xt|]; simpl.
    + destruct (FeatureGenerator_transform g' Xt) as [Xt'|]; [|done].
      simpl. destruct (resplit T _ 0) as [ds|]; [|done]. simpl.
      destruct ds as [|[d0|] [|d1 [|d2 [|d3 [|]]]]]; try done.
      by intros [= _ <-].
    + destruct (resplit T _ 0) as [ds|]; [|done]. simpl.
      destruct ds as [|[d0|] [|d1 [|d2 [|d3 [|]]]]]; try done.
      by intros [= _ <-].
Qed.

#[local] Transparent concat_frames concat_series resplit.

(** X12: [general_data_processing] checks the labels of the three splits
    before it does anything else: when the check of the training split
    raises, or that of the validation split after it, or that of the test
    split after both, the call raises that error and the learner is as it
    was: nothing was logged, no cleaner was fit, no threshold was set. *)
Theorem general_data_processing_validates_first (self : learner) (X : DataFrame)
    (X_val X_test X_unlabeled : option DataFrame) (holdout_frac : Qc)
    (num_bag_folds : Z) :
  let check := _check_for_non_finite_values_of self in
  let ok_or_absent (V : option DataFrame) (name : string) :=
    match V with
    | Some V => ∃ V', check (Some V) name false = Ok (Some V')
    | None => True
    end in
  (∀ e, check (Some X) "train" true = Raise e →
     gdp X X_val X_test X_unlabeled holdout_frac num_bag_folds self = (Raise e, self))
  ∧ (∀ X' V e, check (Some X) "train" true = Ok (Some X') →
       X_val = Some V → check (Some V) "val" false = Raise e →
       gdp X X_val X_test X_unlabeled holdout_frac num_bag_folds self = (Raise e, self))
  ∧ (∀ X' T e, check (Some X) "train" true = Ok (Some X') →
       ok_or_absent X_val "val" →
       X_test = Some T → check (Some T) "test" false = Raise e →
       gdp X X_val X_test X_unlabeled holdout_frac num_bag_folds self = (Raise e, self)).
Proof.
  intros check ok_or_absent. subst check ok_or_absent. split_and!.
  - intros e He. unfold general_data_processing, checked. run_method. by rewrite He.
  - intros X' V e HX -> He. unfold general_data_processing, checked. run_method.
    rewrite HX. simpl. by rewrite He.
  - intros X' T e HX Hval -> He. unfold general_data_processing, checked. run_method.
    rewrite HX. simpl. destruct X_val as [V|].
    + destruct Hval as [V' HV]. rewrite HV. simpl. by rewrite He.
    + simpl. by rewrite He.
Qed.

(** What a call of [general_data_processing] that returns has done, step
    by step: the frames and labels each step produced, and what the learner
    holds at the end. *)
Lemma general_data_processing_inv (self self' : learner)
    (X : DataFrame) (X_val X_test X_unlabeled : option DataFrame)
    (holdout_frac : Qc) (num_bag_folds : Z) (out : processed) :
  gdp X X_val X_test X_unlabeled holdout_frac num_bag_folds self = (Ok out, self') →
  let requested :=
    match eval_metric self with
    | Some metric =>
        if needs_proba metric && bool_decide (problem_type self = MULTICLASS)
        then (if decide (num_bag_folds > 0) then 2 else 1)
        else threshold self
    | None => threshold self
    end in
  let holdout_frac_adjusted :=
    match X_val with
    | Some V => if df_has_column (label self) V then 1%Qc else holdout_frac
    | None => holdout_frac
    end in
  ∃ (X1 X2 X3 X4 X5 X6 X7 : DataFrame) (Xv1 : option DataFrame)
    (y_train y : Series) (w : option Series)
    (c0 c : Cleaner) (lc : LabelCleaner) (hf1 : Qc),
    _check_for_non_finite_values_of self (Some X) "train" true = Ok (Some X1)
    ∧ match X_val with
      | Some V =>
          ∃ V1, Xv1 = Some V1
            ∧ _check_for_non_finite_values_of self (Some V) "val" false = Ok (Some V1)
            ∧ df_colnames V1 = df_colnames V
      | None => Xv1 = None
      end
    ∧ (X2 = X1 ∨ augment_rare_classes X1 (label self) 2 = Ok X2)
    ∧ df_get (label self) X2 = Some y_train
    ∧ _adjust_threshold_if_necessary self y_train requested holdout_frac_adjusted
        num_bag_folds = Ok (Some (threshold self'), hf1, out_num_bag_folds out)
    ∧ Cleaner_construct (problem_type self) (label self) (threshold self') = Ok c0
    ∧ Cleaner_fit_transform c0 X2 = Ok (c, X3)
    ∧ cleaner self' = Some c
    ∧ extract_label (label self) X3 = Ok (X4, y)
    ∧ LabelCleaner_construct (problem_type self) y y_train (_positive_class self) = Ok lc
    ∧ label_cleaner self' = Some lc
    ∧ LabelCleaner_transform lc y = Ok (out_y out)
    ∧ (set_predefined_weights X4 (out_y out) self).1 = Ok X5
    ∧ extract_column X5 (sample_weight self) = Ok (X6, w)
    ∧ extract_column X6 (groups self) = Ok (X7, out_groups out)
    ∧ _original_features self' = Some (df_colnames X7)
    ∧ match Xv1 with
      | Some V1 =>
          if df_has_column (label self) V1 then
            ∃ Xc, Cleaner_transform c V1 = Ok Xc
              ∧ (out_X_val out = None ↔ df_len Xc = 0%nat)
              ∧ out_holdout_frac out
                = (if decide (df_len Xc = 0%nat) then holdout_frac else hf1)
          else is_Some (out_X_val out) ∧ out_holdout_frac out = hf1
      | None => out_X_val out = None ∧ out_holdout_frac out = hf1
      end
    ∧ ((∀ g X y problem metric g' X',
          fit_transform_features g X y problem metric = (g', Ok X') →
          FeatureGenerator_is_fit g' = true) →
       FeatureGenerator_is_fit (feature_generator self') = true).
Proof.
  intros Hrun requested holdout_frac_adjusted.
  set (InvC := λ s : learner,
        label s = label self ∧ problem_type s = problem_type self
        ∧ groups s = groups self ∧ sample_weight s = sample_weight self
        ∧ _positive_class s = _positive_class self
        ∧ class_weights s = class_weights self).
  unfold general_data_processing in Hrun.
  (* the three checks *)
  inv_bind Hrun X1 s1 H1. apply checked_inv in H1 as (-> & Hchk & _ & _).
  inv_bind Hrun Xv1 s2 H2.
  assert (s2 = self
          ∧ match X_val with
            | Some V =>
                ∃ V1, Xv1 = Some V1
                  ∧ _check_for_non_finite_values_of self (Some V) "val" false
                    = Ok (Some V1)
                  ∧ df_colnames V1 = df_colnames V
            | None => Xv1 = None
            end) as [-> HXv].
  { destruct X_val as [V|].
    - inv_bind H2 V1 s2' H2a. apply checked_inv in H2a as (-> & HchkV & HcolsV & _).
      apply ret_inv in H2 as [-> ->]. split; [done|]. by exists V1.
    - by apply ret_inv in H2 as [-> ->]. }
  clear H2.
  inv_bind Hrun Xt1 s3 H3.
  assert (s3 = self) as ->.
  { destruct X_test as [T|].
    - inv_bind H3 T1 s3' H3a. apply checked_inv in H3a as (-> & _).
      by apply ret_inv in H3 as [_ ->].
    - by apply ret_inv in H3 as [_ ->]. }
  clear H3.
  inv_bind Hrun self0 s4 H4. apply get_inv in H4 as [-> ->].
  cbv zeta in Hrun.
  assert (match Xv1 with
          | Some X_val => if df_has_column (label self) X_val then 1%Qc else holdout_frac
          | None => holdout_frac
          end = holdout_frac_adjusted) as Hhf0.
  { subst holdout_frac_adjusted. destruct X_val as [V|].
    - destruct HXv as (V1 & -> & _ & Hcols). unfold df_has_column. by rewrite Hcols.
    - by rewrite HXv. }
  rewrite Hhf0 in Hrun.
  (* the metric step *)
  inv_bind Hrun X2 sA HA.
  assert (InvC sA ∧ threshold sA = requested
          ∧ (X2 = X1 ∨ augment_rare_classes X1 (label self) 2 = Ok X2))
    as (HCA & HthrA & HX2).
  { revert HA. subst requested. destruct (eval_metric self) as [metric|].
    2:{ intros [= <- <-]. split; [by unfold InvC|]. split; [done|by left]. }
    destruct (needs_proba metric && bool_decide (problem_type self = MULTICLASS)).
    2:{ intros [= <- <-]. split; [by unfold InvC|]. split; [done|by left]. }
    destruct (decide (num_bag_folds > 0)).
    - run_method. destruct (groups self) eqn:Eg.
      + intros [= <- <-]. split; [by unfold InvC|]. split; [done|by left].
      + destruct (augment_rare_classes X1 (label self) 2) as [Xa|] eqn:Ha; [|done].
        intros [= <- <-]. split; [by unfold InvC|]. split; [done|by right].
    - run_method. intros [= <- <-]. split; [by unfold InvC|]. split; [done|by left]. }
  clear HA.
  destruct HCA as (EAl & EAp & EAg & EAs & EAc & EAw).
  inv_bind Hrun self0 s5 H5. apply get_inv in H5 as [-> ->].
  inv_bind Hrun y_train s6 H6.
  assert (df_get (label self) X2 = Some y_train ∧ s6 = sA) as [Hy ->].
  { revert H6. rewrite EAl. destruct (df_get (label self) X2); [|done].
    by intros [= -> ->]. }
  clear H6.
  (* the threshold adjustment *)
  inv_bind Hrun r sB Hadj. destruct r as [[t hf1] nbf2].
  apply adjust_threshold_inv in Hadj as [Hinner ->].
  rewrite (_adjust_threshold_problem_type self sA) in Hinner by done.
  rewrite HthrA in Hinner.
  (* the cleaners *)
  inv_bind Hrun u sC Hm. apply modify_inv in Hm as ->.
  inv_bind Hrun self0 s7 H7. apply get_inv in H7 as [-> ->].
  cbn [label problem_type threshold _positive_class sample_weight groups
       with_threshold with_logged] in Hrun.
  rewrite ?EAl, ?EAp, ?EAs, ?EAg, ?EAc in Hrun.
  inv_bind Hrun c0 s8 H8. apply lift_inv in H8 as [Hc0 ->].
  inv_bind Hrun u1 s9 H9. apply modify_inv in H9 as ->.
  inv_bind Hrun p s10 H10. destruct p as [c1 X3]. apply lift_inv in H10 as [Hc1 ->].
  inv_bind Hrun u2 s11 H11. apply modify_inv in H11 as ->.
  inv_bind Hrun p s12 H12. destruct p as [X4 y]. apply lift_inv in H12 as [Hxl ->].
  inv_bind Hrun lc s13 H13. apply lift_inv in H13 as [Hlc ->].
  inv_bind Hrun u3 s14 H14. apply modify_inv in H14 as ->.
  inv_bind Hrun y' s15 H15.
  apply self_label_cleaner_transform_inv in H15 as [-> (lc' & Elc & Hlct)].
  cbn in Elc. injection Elc as <-.
  (* the weights of the training split *)
  inv_bind Hrun X5 sD Hspw.
  set (Inv1 := λ s : learner,
        label s = label self ∧ threshold s = t ∧ cleaner s = Some c1
        ∧ label_cleaner s = Some lc).
  assert (∀ X0 y0, keeps Inv1 (set_predefined_weights X0 y0)) as I1spw
    by (intros; by apply keeps_set_predefined_weights).
  assert (∀ Xo yu h ho name is_test, keeps Inv1 (apply_cleaner Xo yu h ho name is_test))
    as I1act by (intros; by apply keeps_apply_cleaner_transform).
  match type of Hspw with set_predefined_weights _ _ ?s = _ => set (sK := s) in * end.
  assert (Inv1 sD) as H1D by (by eapply (keeps_run Inv1 _ _ _ _ (I1spw _ _) Hspw)).
  inv_bind Hrun p s16 H16. destruct p as [X6 w]. apply lift_inv in H16 as [Hxw ->].
  inv_bind Hrun p s17 H17. destruct p as [X7 groups_]. apply lift_inv in H17 as [Hxg ->].
  inv_bind Hrun u4 sE Hlog.
  assert (Inv1 sE) as H1E.
  { revert Hlog. destruct (LabelCleaner_num_classes lc); [|by intros [= _ <-]].
    destruct (decide (problem_type self ≠ BINARY)); by intros [= _ <-]. }
  clear Hlog.
  (* the validation and test splits *)
  inv_bind Hrun r sF Hval. destruct r as [[[Xv2 yv2] wv2] hf3].
  assert (Inv1 sF) as H1F by (by eapply (keeps_run Inv1 _ _ _ _ (I1act _ _ _ _ _ _) Hval)).
  apply apply_cleaner_transform_inv in Hval.
  destruct H1E as (HlE & _ & HcE & _). rewrite HlE, HcE in Hval.
  inv_bind Hrun r sG Htest. destruct r as [[[Xt2 yt2] wt2] hf4].
  assert (Inv1 sG) as H1G by (by eapply (keeps_run Inv1 _ _ _ _ (I1act _ _ _ _ _ _) Htest)).
  clear Htest.
  inv_bind Hrun u5 s18 H18. apply modify_inv in H18 as ->.
  inv_bind Hrun u6 s19 H19. apply modify_inv in H19 as ->.
  inv_bind Hrun u7 s20 H20.
  set (Inv2 := λ s : learner, Inv1 s ∧ _original_features s = Some (df_colnames X7)).
  assert (Inv2 s20) as H2_20.
  { revert H20. destruct Xt2; by intros [= _ <-]. }
  clear H20.
  (* the feature generator *)
  inv_bind Hrun r sH Huni. destruct r as [[[X8 Xv8] Xt8] Xu8].
  assert (Inv2 sH) as H2H.
  { eapply (keeps_run Inv2); [|exact Huni|exact H2_20].
    apply keeps_unify_features; try done.
    intros X0 y0 problem metric s HI _. unfold self_fit_transform_features.
    run_method. by destruct (fit_transform_features _ _ _ _ _) as [g' [T|]]. }
  pose proof (λ Hcontract,
              unify_features_fit_after _ _ _ _ _ _ _ _ _ _ Hcontract Huni) as HfitH.
  apply unify_features_absent in Huni as [Hv8 _].
  inv_bind Hrun self0 s21 H21. apply get_inv in H21 as [-> ->].
  inv_bind Hrun X9 s22 H22. apply lift_inv in H22 as [Hb1 ->].
  inv_bind Hrun Xv9 s23 H23. apply lift_inv in H23 as [Hb2 ->].
  apply bundle_weights_absent in Hb2.
  inv_bind Hrun Xt9 s24 H24. apply lift_inv in H24 as [Hb3 ->].
  destruct X9 as [X9|]; [|done]. apply ret_inv in Hrun as [-> <-].
  destruct H2H as [(_ & HtH & HcH & HlcH) HofH].
  exists X1, X2, X3, X4, X5, X6, X7, Xv1, y_train, y, w, c0, c1, lc, hf1. simpl.
  rewrite HtH. split_and!; try done.
  - rewrite <- (set_predefined_weights_result self sK) by done.
    by rewrite Hspw.
  - destruct Xv1 as [V1|].
    + destruct (df_has_column (label self) V1).
      * destruct Hval as (c & Xc & [= <-] & Ht & _ & Hcase). exists Xc.
        split; [done|]. rewrite Hb2, Hv8.
        destruct (decide (df_len Xc = 0%nat)) as [Hz|Hnz].
        -- by injection Hcase as -> _ _ ->.
        -- destruct Hcase as ([Xv' ->] & _ & ->). split; [|done].
           split; [done|]. intros; lia.
      * destruct Hval as [[= -> _ _ ->] _]. split; [|done].
        apply not_eq_None_Some. rewrite Hb2, Hv8. done.
    + destruct Hval as [[= -> _ _ ->] _]. split; [|done]. by rewrite Hb2, Hv8.
Qed.

(** X13: with a validation frame that has the label column, the holdout
    fraction asked for plays no part before the end: the threshold
    adjustment is run with holdout fraction 1 on the training labels (those
    of the checked training frame, or of its augmentation when the metric
    needs all classes), and the call returns [max(1, 1 / n + 0.001)] for
    [n] training labels when the validation split survives cleaning, and
    the holdout fraction asked for when the cleaner leaves no row of it, in
    which case no validation frame is returned; the cleaner is the one the
    learner holds after the call, built with the learner's threshold and
    fit on the training frame; the fold count returned is
    [min(num_bag_folds, n)]. *)
Theorem general_data_processing_holdout_with_validation (self self' : learner)
    (X X_val : DataFrame) (X_test X_unlabeled : option DataFrame)
    (holdout_frac : Qc) (num_bag_folds : Z) (out : processed) :
  df_has_column (label self) X_val = true →
  gdp X (Some X_val) X_test X_unlabeled holdout_frac num_bag_folds self
    = (Ok out, self') →
  ∃ (X1 X2 X3 V1 Xc : DataFrame) (y_train : Series) (c0 c : Cleaner),
    _check_for_non_finite_values_of self (Some X) "train" true = Ok (Some X1)
    ∧ _check_for_non_finite_values_of self (Some X_val) "val" false = Ok (Some V1)
    ∧ (X2 = X1 ∨ augment_rare_classes X1 (label self) 2 = Ok X2)
    ∧ df_get (label self) X2 = Some y_train
    ∧ y_train ≠ []
    ∧ Cleaner_construct (problem_type self) (label self) (threshold self') = Ok c0
    ∧ Cleaner_fit_transform c0 X2 = Ok (c, X3)
    ∧ cleaner self' = Some c
    ∧ Cleaner_transform c V1 = Ok Xc
    ∧ (out_X_val out = None ↔ df_len Xc = 0%nat)
    ∧ out_holdout_frac out
      = (if decide (df_len Xc = 0%nat) then holdout_frac
         else py_max 1 (1 / Qc_of_Z (Z.of_nat (length y_train)) + Q2Qc (1 # 1000))%Qc)
    ∧ out_num_bag_folds out = Z.min num_bag_folds (Z.of_nat (length y_train)).
Proof.
  intros Hcol Hrun.
  destruct (general_data_processing_inv _ _ _ _ _ _ _ _ _ Hrun)
    as (X1 & X2 & X3 & X4 & X5 & X6 & X7 & Xv1 & y_train & y & w & c0 & c & lc & hf1
        & Hchk & (V1 & -> & HchkV & HcolsV) & HX2 & Hy & Hadj & Hc0 & Hc & Hcl
        & _ & _ & _ & _ & _ & _ & _ & _ & Hval & _).
  cbn beta iota in Hadj. rewrite Hcol in Hadj.
  apply _adjust_threshold_holdout in Hadj as (Hne & -> & Hfolds).
  assert (df_has_column (label self) V1 = true) as HcolV.
  { unfold df_has_column in *. by rewrite HcolsV. }
  rewrite HcolV in Hval. destruct Hval as (Xc & Ht & Hnone & Hhf).
  exists X1, X2, X3, V1, Xc, y_train, c0, c. split_and!; done.
Qed.

End WholePipeline.

Lemma general_data_processing_validates_first_witness :
  example_general_data_processing frame_with_bad_labels (Some frame_val_ab) None None
    (Q2Qc (1 # 10)) 0 (example_learner MULTICLASS None false false)
  = (Raise (ValueError_non_finite_label "train" (VInt 11)),
     example_learner MULTICLASS None false false).
Proof.
  apply (general_data_processing_validates_first (λ X _ _, Ok X)
           example_Cleaner_construct example_Cleaner_fit_transform
           example_Cleaner_transform example_extract_label
           (λ _ _ _ _, Ok tt) (λ _ y, Ok y) (λ _, None) (λ _, MULTICLASS)
           example_extract_column (λ g, g) (λ _ X, Ok X)
           example_fit_transform_features
           (example_learner MULTICLASS None false false) frame_with_bad_labels
           (Some frame_val_ab) None None (Q2Qc (1 # 10)) 0).
  vm_compute. reflexivity.
Defined.

Lemma general_data_processing_holdout_with_validation_witness :
  let self := example_learner MULTICLASS None false false in
  ∃ out self' (X1 X2 X3 V1 Xc : DataFrame) (y_train : Series)
    (c0 c : example_cleaner),
    example_general_data_processing frame_train_aabb (Some frame_val_ab) None None
      (Q2Qc (1 # 10)) 0 self = (Ok out, self')
    ∧ _check_for_non_finite_values_of self (Some frame_train_aabb) "train" true
      = Ok (Some X1)
    ∧ _check_for_non_finite_values_of self (Some frame_val_ab) "val" false = Ok (Some V1)
    ∧ (X2 = X1 ∨ (Ok X1 : result DataFrame) = Ok X2)
    ∧ df_get (label self) X2 = Some y_train
    ∧ y_train ≠ []
    ∧ example_Cleaner_construct (problem_type self) (label self) (threshold self')
      = Ok c0
    ∧ example_Cleaner_fit_transform c0 X2 = Ok (c, X3)
    ∧ cleaner self' = Some c
    ∧ example_Cleaner_transform c V1 = Ok Xc
    ∧ (out_X_val out = None ↔ df_len Xc = 0%nat)
    ∧ out_holdout_frac out
      = (if decide (df_len Xc = 0%nat) then Q2Qc (1 # 10)
         else py_max 1 (1 / Qc_of_Z (Z.of_nat (length y_train)) + Q2Qc (1 # 1000))%Qc)
    ∧ out_num_bag_folds out = Z.min 0 (Z.of_nat (length y_train)).
Proof.
  intros self.
  destruct (example_general_data_processing frame_train_aabb (Some frame_val_ab)
              None None (Q2Qc (1 # 10)) 0 self) as [[out|e] self'] eqn:Hrun.
  - exists out, self'.
    destruct (general_data_processing_holdout_with_validation (λ X _ _, Ok X)
                example_Cleaner_construct example_Cleaner_fit_transform
                example_Cleaner_transform example_extract_label
                (λ _ _ _ _, Ok tt) (λ _ y, Ok y) (λ _, None) (λ _, MULTICLASS)
                example_extract_column (λ g, g) (λ _ X, Ok X)
                example_fit_transform_features self self' frame_train_aabb
                frame_val_ab None None (Q2Qc (1 # 10)) 0 out eq_refl Hrun)
      as (X1 & X2 & X3 & V1 & Xc & y_train & c0 & c & H).
    exists X1, X2, X3, V1, Xc, y_train, c0, c. split; [reflexivity|exact H].
  - vm_compute in Hrun. discriminate Hrun.
Defined.


(** * The holdout fraction with a labelled validation frame *)

Section HoldoutOverride.
Context {Cleaner LabelCleaner FeatureGenerator : Type}.
Local Abbreviation learner := (learner Cleaner LabelCleaner FeatureGenerator).
Local Abbreviation M := (M Cleaner LabelCleaner FeatureGenerator).
Variable augment_rare_classes : DataFrame → colname → Z → result DataFrame.
Variable Cleaner_construct : problem_type_t → colname → Z → result Cleaner.
Variable Cleaner_fit_transform : Cleaner → DataFrame → result (Cleaner * DataFrame).
Variable Cleaner_transform : Cleaner → DataFrame → result DataFrame.
Variable extract_label : colname → DataFrame → result (DataFrame * Series).
Variable LabelCleaner_construct :
  problem_type_t → Series → Series → option value → result LabelCleaner.
Variable LabelCleaner_transform : LabelCleaner → Series → result Series.
Variable LabelCleaner_num_classes : LabelCleaner → option Z.
Variable LabelCleaner_problem_type_transform : LabelCleaner → problem_type_t.
Variable extract_column : DataFrame → colname → result (DataFrame * option Series).
Variable FeatureGenerator_is_fit : FeatureGenerator → bool.
Variable FeatureGenerator_transform : FeatureGenerator → DataFrame → result DataFrame.
Variable fit_transform_features :
  FeatureGenerator → DataFrame → Series → problem_type_t → option Scorer →
  FeatureGenerator * result DataFrame.

Local Abbreviation apply_cleaner :=
  (_apply_cleaner_transform Cleaner_transform extract_label
     LabelCleaner_transform extract_column).
Local Abbreviation unify :=
  (unify_features LabelCleaner_problem_type_transform FeatureGenerator_is_fit
     FeatureGenerator_transform fit_transform_features).
Local Abbreviation gdp :=
  (general_data_processing augment_rare_classes Cleaner_construct
     Cleaner_fit_transform Cleaner_transform extract_label
     LabelCleaner_construct LabelCleaner_transform LabelCleaner_num_classes
     LabelCleaner_problem_type_transform extract_column
     FeatureGenerator_is_fit FeatureGenerator_transform fit_transform_features).

(** C10: when a validation frame with the label column is given and the
    call returns, the threshold adjustment (whose threshold the learner
    keeps) was run with holdout fraction 1 in place of the one asked for,
    on the training labels, and gave [max(1, 1 / n + 0.001)] for [n]
    training rows; that is the holdout fraction returned, together with a
    validation frame, when the cleaner the learner holds leaves rows in the
    validation frame; when it leaves none, the holdout fraction asked for
    is returned, and no validation frame. *)
Theorem general_data_processing_overrides_holdout (self self' : learner)
    (X X_val : DataFrame) (X_test X_unlabeled : option DataFrame)
    (holdout_frac : Qc) (num_bag_folds : Z) (out : processed) :
  df_has_column (label self) X_val = true →
  gdp X (Some X_val) X_test X_unlabeled holdout_frac num_bag_folds self
    = (Ok out, self') →
  let requested :=
    match eval_metric self with
    | Some metric =>
        if needs_proba metric && bool_decide (problem_type self = MULTICLASS)
        then (if decide (num_bag_folds > 0) then 2 else 1)
        else threshold self
    | None => threshold self
    end in
  ∃ (X1 X2 V1 Xc : DataFrame) (y_train : Series) (c : Cleaner) (hf1 : Qc),
    _check_for_non_finite_values_of self (Some X) "train" true = Ok (Some X1)
    ∧ (X2 = X1 ∨ augment_rare_classes X1 (label self) 2 = Ok X2)
    ∧ df_get (label self) X2 = Some y_train
    ∧ _adjust_threshold_if_necessary self y_train requested 1 num_bag_folds
      = Ok (Some (threshold self'), hf1, out_num_bag_folds out)
    ∧ hf1 = py_max 1 (1 / Qc_of_Z (Z.of_nat (length y_train)) + Q2Qc (1 # 1000))%Qc
    ∧ _check_for_non_finite_values_of self (Some X_val) "val" false = Ok (Some V1)
    ∧ cleaner self' = Some c
    ∧ Cleaner_transform c V1 = Ok Xc
    ∧ (df_len Xc ≠ 0%nat →
       out_holdout_frac out = hf1 ∧ is_Some (out_X_val out))
    ∧ (df_len Xc = 0%nat →
       out_holdout_frac out = holdout_frac ∧ out_X_val out = None).
Proof.
  intros Hcol Hrun requested.
  destruct (general_data_processing_inv _ _ _ _ _ _ _ _ _ _ _ _ _ _ _ _ _ _ _ _ _ _
              Hrun)
    as (X1 & X2 & X3 & X4 & X5 & X6 & X7 & Xv1 & y_train & y & w & c0 & c & lc & hf1
        & Hchk & (V1 & -> & HchkV & HcolsV) & HX2 & Hy & Hadj & _ & _ & Hcl
        & _ & _ & _ & _ & _ & _ & _ & _ & Hval & _).
  cbn beta iota in Hadj. rewrite Hcol in Hadj.
  assert (df_has_column (label self) V1 = true) as HcolV.
  { unfold df_has_column in *. by rewrite HcolsV. }
  rewrite HcolV in Hval. destruct Hval as (Xc & Ht & Hnone & Hhf).
  exists X1, X2, V1, Xc, y_train, c, hf1. split_and!; try done.
  - by apply _adjust_threshold_holdout in Hadj as (_ & -> & _).
  - intros Hnz. rewrite decide_False in Hhf by done. split; [done|].
    apply not_eq_None_Some. intros Hn. by apply Hnone in Hn.
  - intros Hz. rewrite decide_True in Hhf by done. split; [done|].
    by apply Hnone.
Qed.

End HoldoutOverride.

(** A labelled validation frame that survives cleaning: the holdout
    fraction asked for is 1/10, the one returned is that of the adjustment
    run with 1. *)
Lemma general_data_processing_overrides_holdout_witness :
  let self := example_learner MULTICLASS None false false in
  ∃ out self' (y_train : Series) (hf1 : Qc),
    example_general_data_processing frame_train_aabb (Some frame_val_ab) None None
      (Q2Qc (1 # 10)) 0 self = (Ok out, self')
    ∧ _adjust_threshold_if_necessary self y_train 1 1 0
      = Ok (Some (threshold self'), hf1, out_num_bag_folds out)
    ∧ hf1 = py_max 1 (1 / Qc_of_Z (Z.of_nat (length y_train)) + Q2Qc (1 # 1000))%Qc
    ∧ out_holdout_frac out = hf1
    ∧ is_Some (out_X_val out).
Proof.
  intros self.
  destruct (example_general_data_processing frame_train_aabb (Some frame_val_ab)
              None None (Q2Qc (1 # 10)) 0 self) as [[out|e] self'] eqn:Hrun.
  - destruct (general_data_processing_overrides_holdout (λ X _ _, Ok X)
                example_Cleaner_construct example_Cleaner_fit_transform
                example_Cleaner_transform example_extract_label
                (λ _ _ _ _, Ok tt) (λ _ y, Ok y) (λ _, None) (λ _, MULTICLASS)
                example_extract_column (λ g, g) (λ _ X, Ok X)
                example_fit_transform_features self self' frame_train_aabb
                frame_val_ab None None (Q2Qc (1 # 10)) 0 out eq_refl Hrun)
      as (X1 & X2 & V1 & Xc & y_train & c & hf1 & _ & _ & _ & Hadj & Hhf & HchkV
          & Hc & Ht & Hkeep & _).
    exists out, self', y_train, hf1. split; [reflexivity|].
    split; [exact Hadj|]. split; [exact Hhf|]. apply Hkeep.
    revert Hrun HchkV Hc Ht. clear. intros Hrun.
    vm_compute in Hrun. injection Hrun as <- <-.
    intros [= <-]. intros [= <-]. intros [= <-]. discriminate.
  - vm_compute in Hrun. discriminate Hrun.
Defined.


(** * Calling [general_data_processing] again *)

Lemma safe_threshold_idem_folds y t nbf :
  safe_threshold y (safe_threshold y t nbf) nbf = safe_threshold y t nbf.
Proof. unfold safe_threshold. repeat case_decide; lia. Qed.

Section SecondCall.
Context {Cleaner LabelCleaner FeatureGenerator : Type}.
Local Abbreviation learner := (learner Cleaner LabelCleaner FeatureGenerator).
Local Abbreviation M := (M Cleaner LabelCleaner FeatureGenerator).
Variable augment_rare_classes : DataFrame → colname → Z → result DataFrame.
Variable Cleaner_construct : problem_type_t → colname → Z → result Cleaner.
Variable Cleaner_fit_transform : Cleaner → DataFrame → result (Cleaner * DataFrame).
Variable Cleaner_transform : Cleaner → DataFrame → result DataFrame.
Variable extract_label : colname → DataFrame → result (DataFrame * Series).
Variable LabelCleaner_construct :
  problem_type_t → Series → Series → option value → result LabelCleaner.
Variable LabelCleaner_transform : LabelCleaner → Series → result Series.
Variable LabelCleaner_num_classes : LabelCleaner → option Z.
Variable LabelCleaner_problem_type_transform : LabelCleaner → problem_type_t.
Variable extract_column : DataFrame → colname → result (DataFrame * option Series).
Variable FeatureGenerator_is_fit : FeatureGenerator → bool.
Variable FeatureGenerator_transform : FeatureGenerator → DataFrame → result DataFrame.
Variable fit_transform_features :
  FeatureGenerator → DataFrame → Series → problem_type_t → option Scorer →
  FeatureGenerator * result DataFrame.

Local Abbreviation apply_cleaner :=
  (_apply_cleaner_transform Cleaner_transform extract_label
     LabelCleaner_transform extract_column).
Local Abbreviation unify :=
  (unify_features LabelCleaner_problem_type_transform FeatureGenerator_is_fit
     FeatureGenerator_transform fit_transform_features).
Local Abbreviation gdp :=
  (general_data_processing augment_rare_classes Cleaner_construct
     Cleaner_fit_transform Cleaner_transform extract_label
     LabelCleaner_construct LabelCleaner_transform LabelCleaner_num_classes
     LabelCleaner_problem_type_transform extract_column
     FeatureGenerator_is_fit FeatureGenerator_transform fit_transform_features).

Ltac inv_bind H a s Hm := apply bind_Ok_inv in H as (a & s & Hm & H).

(** The threshold a call returned is returned again when it is the one
    requested, holdout fraction and fold count being requested as before. *)
Lemma _adjust_threshold_idem_threshold (self : learner) y threshold holdout_frac
    nbf t hf folds :
  _adjust_threshold_if_necessary self y threshold holdout_frac nbf
    = Ok (Some t, hf, folds) →
  _adjust_threshold_if_necessary self y t holdout_frac nbf = Ok (Some t, hf, folds).
Proof.
  intros H.
  destruct (_adjust_threshold_holdout _ _ _ _ _ _ _ _ H) as (Hne & Hhf & Hfolds).
  fold (clamped_folds y nbf) in Hfolds.
  destruct (decide (problem_type self ∈ [REGRESSION; QUANTILE])) as [Hreg|Hcls].
  - rewrite _adjust_threshold_regression in H by done. injection H as Ht _ _.
    rewrite _adjust_threshold_regression by done.
    by rewrite <-Ht, safe_threshold_idem_folds, Ht, Hhf, Hfolds.
  - destruct (adjust_threshold_classification self y threshold holdout_frac nbf
                Hne Hcls) as (hf1 & E1 & _).
    rewrite E1 in H. injection H as Ht _ _.
    destruct (adjust_threshold_classification self y t holdout_frac nbf Hne Hcls)
      as (hf2 & -> & ->).
    rewrite Hhf, Hfolds. f_equal. f_equal. f_equal.
    destruct (minimums_met _ _ (rows_retained y (safe_threshold y threshold nbf)) _)
      eqn:Hmet.
    + injection Ht as <-. rewrite safe_threshold_idem_folds. by rewrite Hmet.
    + destruct (safe_threshold_ge y t nbf) as [Hge _].
      destruct (minimums_met _ _ (rows_retained y (safe_threshold y t nbf)) _)
        eqn:Hmet2; [|exact Ht].
      apply minimums_met_enough_kept in Hmet2.
      destruct (accumulate_outcome y t Ht) as [[_ Hmax]|[Hnone _]].
      * apply Hmax in Hmet2. f_equal. lia.
      * by apply Hnone in Hmet2.
Qed.

Lemma bundle_weights_fields (s s2 : learner) X w name is_train :
  sample_weight s2 = sample_weight s → weight_evaluation s2 = weight_evaluation s →
  bundle_weights s2 X w name is_train = bundle_weights s X w name is_train.
Proof. intros H1 H2. unfold bundle_weights. by rewrite H1, H2. Qed.

(** A second learner that agrees with the first on what the step reads
    gets the same result from it. *)
Lemma apply_cleaner_transform_replay (s s' s2 : learner) X y_uncleaned
    holdout_frac holdout_frac_og name is_test r :
  apply_cleaner X y_uncleaned holdout_frac holdout_frac_og name is_test s = (Ok r, s') →
  settled s →
  label s2 = label s → problem_type s2 = problem_type s →
  sample_weight s2 = sample_weight s → class_weights s2 = class_weights s →
  cleaner s2 = cleaner s → label_cleaner s2 = label_cleaner s →
  ∃ s2', apply_cleaner X y_uncleaned holdout_frac holdout_frac_og name is_test s2
         = (Ok r, s2').
Proof.
  intros Hrun Hsettled Hl Hp Hsw Hcw Hc Hlc. revert Hrun.
  unfold _apply_cleaner_transform, self_cleaner_transform,
    self_label_cleaner_transform. run_method.
  rewrite ?Hl, ?Hp, ?Hsw.
  destruct X as [X0|]; [|intros [= <- <-]; by eexists].
  destruct (df_get (label s) X0) as [y_og|]; [|intros [= <- <-]; by eexists].
  rewrite ?Hc.
  destruct (cleaner s) as [c|]; [|done]. simpl.
  destruct (Cleaner_transform c X0) as [Xc|e]; [|done]. simpl.
  destruct (is_test && bool_decide _); [done|].
  destruct (decide (df_len Xc = 0%nat)) as [Hz|Hnz].
  - destruct (bool_decide (problem_type s ∈ [BINARY; MULTICLASS])).
    + destruct (py_sorted (unique (s_values y_uncleaned))); [|done].
      destruct (py_sorted (unique (s_values y_og))); [|done]. simpl.
      intros [= <- <-]. by eexists.
    + simpl. intros [= <- <-]. by eexists.
  - destruct (extract_label (label s) Xc) as [[X1 y1]|]; [|done]. simpl.
    rewrite ?Hlc.
    destruct (label_cleaner s) as [lc|]; [|done]. simpl.
    destruct (LabelCleaner_transform lc y1) as [y1'|]; [|done]. simpl.
    destruct (set_predefined_weights X1 y1' s) as [[X1'|] s1] eqn:Hspw; [|done].
    assert (s1 = s) as ->.
    { pose proof (set_predefined_weights_settled s X1 y1' Hsettled) as Hs.
      by rewrite Hspw in Hs. }
    rewrite (set_predefined_weights_replay s s s2 X1 y1' X1' Hspw Hsw Hp Hcw).
    destruct (extract_column X1' (sample_weight s)) as [[X1'' w1]|]; [|done]. simpl.
    intros [= <- <-]. by eexists.
Qed.

#[local] Opaque concat_frames concat_series resplit.

Lemma unify_features_replay (s s' s2 : learner) X y X_val y_val X_test y_test
    X_unlabeled r :
  FeatureGenerator_is_fit (feature_generator s) = true →
  feature_generator s2 = feature_generator s →
  unify X y X_val y_val X_test y_test X_unlabeled s = (Ok r, s') →
  ∃ s2', unify X y X_val y_val X_test y_test X_unlabeled s2 = (Ok r, s2').
Proof.
  intros Hfit Hg. unfold unify_features, feature_generator_transform. cbv zeta.
  run_method. rewrite ?Hg, Hfit.
  destruct (concat_frames _) as [X_super|]; [|done]. simpl. rewrite ?Hg.
  destruct (FeatureGenerator_transform (feature_generator s) X_super) as [T|]; [|done].
  simpl. rewrite ?Hg. destruct X_test as [Xt|]; simpl; rewrite ?Hg.
  - destruct (FeatureGenerator_transform (feature_generator s) Xt) as [Xt'|]; [|done].
    simpl. destruct (resplit T _ 0) as [ds|]; [|done]. simpl.
    destruct ds as [|[d0|] [|d1 [|d2 [|d3 [|]]]]]; try done.
    intros [= <- <-]. by eexists.
  - destruct (resplit T _ 0) as [ds|]; [|done]. simpl.
    destruct ds as [|[d0|] [|d1 [|d2 [|d3 [|]]]]]; try done.
    intros [= <- <-]. by eexists.
Qed.

#[local] Transparent concat_frames concat_series resplit.

Lemma lift_Ok_bind {A B} (a : A) (k : A → M B) (s : learner) :
  (lift (Ok a) ≫= k) s = k a s.
Proof. reflexivity. Qed.

Lemma modify_bind {B} (f : learner → learner) (k : unit → M B) (s : learner) :
  (modify f ≫= k) s = k tt (f s).
Proof. reflexivity. Qed.

Lemma logger_log_bind {B} level msg (k : unit → M B) (s : learner) :
  (logger_log level msg ≫= k) s = k tt (with_logged [(level, msg)] s).
Proof. reflexivity. Qed.

Lemma get_bind {B} (k : learner → M B) (s : learner) : (get ≫= k) s = k s s.
Proof. reflexivity. Qed.

Lemma self_label_cleaner_transform_run (s : learner) lc (y y' : Series) :
  label_cleaner s = Some lc → LabelCleaner_transform lc y = Ok y' →
  self_label_cleaner_transform LabelCleaner_transform y s = (Ok y', s).
Proof.
  intros Hlc Ht. unfold self_label_cleaner_transform. run_method.
  by rewrite Hlc, Ht.
Qed.

(** The check of an optional split reads the learner's label only. *)
Lemma checked_replay (s s' s2 : learner) X name is_train X' :
  checked X name is_train s = (Ok X', s') → label s2 = label s →
  s' = s ∧ checked X name is_train s2 = (Ok X', s2).
Proof.
  intros Hrun Hl. destruct (checked_label s s2 X name is_train Hl) as [H1 H2].
  pose proof (checked_inv _ _ _ _ _ _ Hrun) as (-> & _).
  split; [done|]. rewrite Hrun in H1. simpl in H1.
  destruct (checked X name is_train s2) as [r2 s2']. simpl in *. by subst.
Qed.

(** The second call replayed step by step against the first: the
    threshold the first call stored is adjusted to itself, the class
    weights it stored are used again, the cleaners are built anew from the
    same data, and the generator, which is not refit, transforms as
    before. *)
Lemma general_data_processing_second_call (self self1 : learner) (X : DataFrame)
    (X_val X_test X_unlabeled : option DataFrame) (holdout_frac : Qc)
    (num_bag_folds : Z) (out : processed) :
  FeatureGenerator_is_fit (feature_generator self) = true →
  gdp X X_val X_test X_unlabeled holdout_frac num_bag_folds self = (Ok out, self1) →
  ∃ self2,
    gdp X X_val X_test X_unlabeled holdout_frac num_bag_folds self1 = (Ok out, self2).
Proof.
  intros Hfit Hrun.
  set (InvC := λ s : learner,
        label s = label self ∧ problem_type s = problem_type self
        ∧ eval_metric s = eval_metric self ∧ groups s = groups self
        ∧ sample_weight s = sample_weight self
        ∧ weight_evaluation s = weight_evaluation self
        ∧ _positive_class s = _positive_class self
        ∧ feature_generator s = feature_generator self).
  assert (InvC self) as HCself by done.
  assert (∀ X0 y0, keeps InvC (set_predefined_weights X0 y0)) as ICspw
    by (intros; by apply keeps_set_predefined_weights).
  assert (∀ X0 y0 problem metric s, InvC s →
            FeatureGenerator_is_fit (feature_generator s) = false →
            InvC (self_fit_transform_features fit_transform_features X0 y0 problem
                    metric s).2) as ICfit.
  { intros X0 y0 problem metric s HC Hnot.
    destruct HC as (_ & _ & _ & _ & _ & _ & _ & Hg). rewrite Hg in Hnot. congruence. }
  assert (InvC self1) as HCself1.
  { eapply (keeps_run InvC); [|exact Hrun|exact HCself].
    by apply keeps_general_data_processing. }
  destruct HCself1 as (E1l & E1p & E1m & E1g & E1s & E1w & E1c & E1f).
  assert (InvC self1) as HCself1 by done.
  unfold general_data_processing in Hrun.
  (* first call: the three checks *)
  inv_bind Hrun X1 s1 H1.
  destruct (checked_replay _ _ self1 _ _ _ _ H1 E1l) as [-> R1]. clear H1.
  inv_bind Hrun Xv1 s2 H2.
  assert (s2 = self
          ∧ (match X_val with
             | Some X_val => X_val ← checked X_val "val" false; ret (Some X_val)
             | None => ret None
             end) self1 = (Ok Xv1, self1)) as [-> R2].
  { destruct X_val as [V|].
    - inv_bind H2 V1 s2' H2a.
      destruct (checked_replay _ _ self1 _ _ _ _ H2a E1l) as [-> R].
      apply ret_inv in H2 as [-> ->]. split; [done|].
      by rewrite (bind_Ok_run _ _ _ _ _ R).
    - by apply ret_inv in H2 as [-> ->]. }
  clear H2.
  inv_bind Hrun Xt1 s3 H3.
  assert (s3 = self
          ∧ (match X_test with
             | Some X_test => X_test ← checked X_test "test" false; ret (Some X_test)
             | None => ret None
             end) self1 = (Ok Xt1, self1)) as [-> R3].
  { destruct X_test as [T|].
    - inv_bind H3 T1 s3' H3a.
      destruct (checked_replay _ _ self1 _ _ _ _ H3a E1l) as [-> R].
      apply ret_inv in H3 as [-> ->]. split; [done|].
      by rewrite (bind_Ok_run _ _ _ _ _ R).
    - by apply ret_inv in H3 as [-> ->]. }
  clear H3.
  inv_bind Hrun self0 s4 H4. apply get_inv in H4 as [-> ->].
  cbv zeta in Hrun.
  (* first call: the metric step *)
  inv_bind Hrun X2 sA HA.
  assert (∃ sA2,
            (match eval_metric self1 with
             | Some metric =>
                 if needs_proba metric && bool_decide (problem_type self1 = MULTICLASS)
                 then
                   if decide (num_bag_folds > 0) then
                     modify (with_threshold 2);;
                     match groups self1 with
                     | None => lift (augment_rare_classes X1 (label self1) 2)
                     | Some _ => ret X1
                     end
                   else modify (with_threshold 1);; ret X1
                 else ret X1
             | None => ret X1
             end) self1 = (Ok X2, sA2)
            ∧ InvC sA ∧ InvC sA2
            ∧ class_weights sA2 = class_weights self1
            ∧ (threshold sA2 = threshold sA
               ∨ (threshold sA = threshold self ∧ threshold sA2 = threshold self1)))
    as (sA2 & RA & HCA & HCA2 & HcwA2 & HthrA).
  { rewrite E1m, E1p, E1g, E1l. revert HA.
    destruct (eval_metric self) as [metric|].
    2:{ intros [= <- <-]. exists self1. split_and!; try done. by right. }
    destruct (needs_proba metric && bool_decide (problem_type self = MULTICLASS)).
    2:{ intros [= <- <-]. exists self1. split_and!; try done. by right. }
    destruct (decide (num_bag_folds > 0)).
    - run_method. destruct (groups self).
      + intros [= <- <-]. eexists. split; [reflexivity|]. split_and!; try done.
        by left.
      + destruct (augment_rare_classes X1 (label self) 2) as [Xa|]; [|done].
        intros [= <- <-]. eexists. split; [reflexivity|]. split_and!; try done.
        by left.
    - run_method. intros [= <- <-]. eexists. split; [reflexivity|].
      split_and!; try done. by left. }
  clear HA.
  destruct HCA as (EAl & EAp & EAm & EAg & EAs & EAw & EAc & EAf).
  inv_bind Hrun self0 s5 H5. apply get_inv in H5 as [-> ->].
  inv_bind Hrun y_train s6 H6.
  assert (df_get (label self) X2 = Some y_train ∧ s6 = sA) as [Hy ->].
  { revert H6. rewrite EAl. destruct (df_get (label self) X2); [|done].
    by intros [= -> ->]. }
  clear H6.
  (* first call: the threshold *)
  inv_bind Hrun r sB Hadj. destruct r as [[t hf2] nbf2].
  apply adjust_threshold_inv in Hadj as [Hinner ->].
  inv_bind Hrun u sC Hm. apply modify_inv in Hm as ->.
  inv_bind Hrun self0 s7 H7. apply get_inv in H7 as [-> ->].
  cbn [label problem_type threshold _positive_class sample_weight groups
       with_threshold with_logged] in Hrun.
  rewrite ?EAl, ?EAp, ?EAs, ?EAg, ?EAc in Hrun.
  (* first call: the cleaners *)
  inv_bind Hrun c0 s8 H8. apply lift_inv in H8 as [Hc0 ->].
  inv_bind Hrun u1 s9 H9. apply modify_inv in H9 as ->.
  inv_bind Hrun p s10 H10. destruct p as [c1 X3]. apply lift_inv in H10 as [Hc1 ->].
  inv_bind Hrun u2 s11 H11. apply modify_inv in H11 as ->.
  inv_bind Hrun p s12 H12. destruct p as [X4 y]. apply lift_inv in H12 as [Hxl ->].
  inv_bind Hrun lc s13 H13. apply lift_inv in H13 as [Hlc ->].
  inv_bind Hrun u3 s14 H14. apply modify_inv in H14 as ->.
  inv_bind Hrun y' s15 H15.
  apply self_label_cleaner_transform_inv in H15 as [-> (lc' & Elc & Hlct)].
  cbn in Elc. injection Elc as <-.
  (* first call: the weights of the training split *)
  inv_bind Hrun X5 sD Hspw.
  set (Inv1 := λ s : learner,
        InvC s ∧ threshold s = t ∧ cleaner s = Some c1 ∧ label_cleaner s = Some lc).
  assert (Inv1 sD) as H1D.
  { eapply (keeps_run Inv1); [|exact Hspw|].
    - by apply keeps_set_predefined_weights.
    - unfold Inv1, InvC. cbn. by split_and!. }
  pose proof (set_predefined_weights_settles _ _ _ _ _ Hspw) as HsetD.
  set (InvD := λ s : learner,
        Inv1 s ∧ class_weights s = class_weights sD ∧ settled s).
  assert (InvD sD) as HDD by done.
  assert (∀ w s, InvD s → InvD (with_logged w s)) as IDlog by done.
  assert (∀ X0 y0, keeps InvD (set_predefined_weights X0 y0)) as IDspw.
  { intros X0 y0 s Hs. rewrite set_predefined_weights_settled; [done|apply Hs]. }
  assert (∀ X0 y0 problem metric s, InvD s →
            FeatureGenerator_is_fit (feature_generator s) = false →
            InvD (self_fit_transform_features fit_transform_features X0 y0 problem
                    metric s).2) as IDfit.
  { intros X0 y0 problem metric s HD Hnot.
    destruct HD as [[HC _] _].
    destruct HC as (_ & _ & _ & _ & _ & _ & _ & Hg). rewrite Hg in Hnot. congruence. }
  assert (∀ Xo yu h ho name is_test, keeps InvD (apply_cleaner Xo yu h ho name is_test))
    as IDact by (intros; by apply keeps_apply_cleaner_transform).
  assert (∀ X0 y0 Xv yv Xt yt Xu, keeps InvD (unify X0 y0 Xv yv Xt yt Xu)) as IDuni
    by (intros; by apply keeps_unify_features).
  inv_bind Hrun p s16 H16. destruct p as [X6 w]. apply lift_inv in H16 as [Hxw ->].
  inv_bind Hrun p s17 H17. destruct p as [X7 groups_]. apply lift_inv in H17 as [Hxg ->].
  inv_bind Hrun u4 sE Hlog.
  assert (∀ s2 : learner, InvD s2 →
            ∃ s2E, (match LabelCleaner_num_classes lc with
                    | Some num_classes =>
                        if decide (problem_type self ≠ BINARY)
                        then logger_log 20 (MsgTrainClassCount num_classes)
                        else ret tt
                    | None => ret tt
                    end) s2 = (Ok tt, s2E) ∧ InvD s2E) as Rlog.
  { intros s2 Hs2. destruct (LabelCleaner_num_classes lc); [|by eexists].
    destruct (decide _); by eexists. }
  assert (InvD sE) as HDE.
  { destruct (Rlog sD HDD) as (sE' & HE & HDE). rewrite HE in Hlog.
    by injection Hlog as _ <-. }
  clear Hlog.
  (* first call: the other splits *)
  inv_bind Hrun r sF Hval. destruct r as [[[Xv2 yv2] wv2] hf3].
  assert (InvD sF) as HDF by (by eapply (keeps_run InvD _ _ _ _ (IDact _ _ _ _ _ _) Hval)).
  inv_bind Hrun r sG Htest. destruct r as [[[Xt2 yt2] wt2] hf4].
  assert (InvD sG) as HDG by (by eapply (keeps_run InvD _ _ _ _ (IDact _ _ _ _ _ _) Htest)).
  inv_bind Hrun u5 s18 H18. apply modify_inv in H18 as ->.
  inv_bind Hrun u6 s19 H19. apply modify_inv in H19 as ->.
  inv_bind Hrun u7 s20 H20.
  assert (∀ s2 : learner, InvD s2 →
            ∃ s2', (match Xt2 with
                    | Some _ => logger_log 15 MsgMergedPreprocessing
                    | None => ret tt
                    end) s2 = (Ok tt, s2') ∧ InvD s2') as Rmerged.
  { intros s2 Hs2. destruct Xt2; by eexists. }
  assert (InvD s20) as HD20.
  { edestruct Rmerged as (s' & Hs' & HD'); [|rewrite Hs' in H20].
    2:{ injection H20 as _ <-. exact HD'. }
    done. }
  clear H20.
  (* first call: the feature generator and the weights *)
  inv_bind Hrun r sH Huni. destruct r as [[[X8 Xv8] Xt8] Xu8].
  assert (InvD sH) as HDH by (by eapply (keeps_run InvD _ _ _ _ (IDuni _ _ _ _ _ _ _) Huni)).
  inv_bind Hrun self0 s21 H21. apply get_inv in H21 as [-> ->].
  inv_bind Hrun X9 s22 H22. apply lift_inv in H22 as [Hb1 ->].
  inv_bind Hrun Xv9 s23 H23. apply lift_inv in H23 as [Hb2 ->].
  inv_bind Hrun Xt9 s24 H24. apply lift_inv in H24 as [Hb3 ->].
  destruct X9 as [X9|]; [|done]. apply ret_inv in Hrun as [-> <-].
  (* second call *)
  destruct HDH as [[_ [HtH _]] [HcwH HsetH]].
  destruct HCA2 as (E2l & E2p & E2m & E2g & E2s & E2w & E2c & E2f).
  unfold general_data_processing.
  rewrite (bind_Ok_run _ _ _ _ _ R1), (bind_Ok_run _ _ _ _ _ R2),
    (bind_Ok_run _ _ _ _ _ R3), get_bind.
  cbv zeta. rewrite (bind_Ok_run _ _ _ _ _ RA), get_bind.
  erewrite bind_Ok_run; [|rewrite E2l, Hy; reflexivity].
  rewrite E1l.
  assert (_adjust_threshold_if_necessary sA2 y_train (threshold sA2)
            (match Xv1 with
             | Some X_val0 => if df_has_column (label self) X_val0 then 1%Qc else holdout_frac
             | None => holdout_frac
             end) num_bag_folds = Ok (Some t, hf2, nbf2)) as Hinner2.
  { rewrite (_adjust_threshold_problem_type sA sA2) by congruence.
    destruct HthrA as [->|[_ ->]]; [exact Hinner|].
    rewrite HtH. by eapply _adjust_threshold_idem_threshold. }
  rewrite (bind_Ok_run _ _ _ _ _ (adjust_threshold_run _ _ _ _ _ _ _ _ Hinner2)).
  rewrite modify_bind, get_bind.
  cbn [label problem_type threshold _positive_class sample_weight groups
       with_threshold with_logged].
  rewrite ?E2l, ?E2p, ?E2s, ?E2g, ?E2c.
  rewrite Hc0, lift_Ok_bind, modify_bind, Hc1, lift_Ok_bind, modify_bind,
    Hxl, lift_Ok_bind, Hlc, lift_Ok_bind, modify_bind.
  erewrite bind_Ok_run; [|by apply (self_label_cleaner_transform_run _ lc)].
  match goal with
  | |- context [mbind _ (set_predefined_weights X4 y') ?s] => set (s2K := s)
  end.
  assert (InvD s2K) as HD2K.
  { unfold InvD, Inv1, InvC, settled in *. cbn.
    rewrite E2l, E2p, E2m, E2g, E2s, E2w, E2c, E2f, HcwA2, HcwH.
    rewrite E1s, E1p, HcwH in HsetH. by split_and!. }
  assert (∀ s s2 : learner, InvD s → InvD s2 →
            settled s ∧ label s2 = label s ∧ problem_type s2 = problem_type s
            ∧ sample_weight s2 = sample_weight s ∧ class_weights s2 = class_weights s
            ∧ cleaner s2 = cleaner s ∧ label_cleaner s2 = label_cleaner s
            ∧ feature_generator s2 = feature_generator s
            ∧ weight_evaluation s2 = weight_evaluation s
            ∧ FeatureGenerator_is_fit (feature_generator s) = true) as Hagree.
  { intros s s2 [[Hc (_ & Hcl & Hlcl)] [Hcw Hset]] [[Hc2 (_ & Hcl2 & Hlcl2)] [Hcw2 _]].
    destruct Hc as (-> & -> & _ & _ & -> & -> & _ & ->).
    destruct Hc2 as (-> & -> & _ & _ & -> & -> & _ & ->).
    rewrite Hcl, Hcl2, Hlcl, Hlcl2, Hcw, Hcw2. by split_and!. }
  erewrite bind_Ok_run;
    [|eapply (set_predefined_weights_replay _ _ _ _ _ _ Hspw); cbn; congruence].
  rewrite Hxw, lift_Ok_bind, Hxg, lift_Ok_bind.
  destruct (Rlog s2K HD2K) as (s2E & RE & HD2E).
  rewrite (bind_Ok_run _ _ _ _ _ RE).
  destruct (Hagree sE s2E HDE HD2E) as (Hset & A1 & A2 & A3 & A4 & A5 & A6 & _).
  destruct (apply_cleaner_transform_replay sE sF s2E _ _ _ _ _ _ _ Hval
              Hset A1 A2 A3 A4 A5 A6) as (s2F & RF).
  rewrite (bind_Ok_run _ _ _ _ _ RF).
  assert (InvD s2F) as HD2F by (by eapply (keeps_run InvD _ _ _ _ (IDact _ _ _ _ _ _) RF)).
  clear Hset A1 A2 A3 A4 A5 A6.
  destruct (Hagree sF s2F HDF HD2F) as (Hset & A1 & A2 & A3 & A4 & A5 & A6 & _).
  destruct (apply_cleaner_transform_replay sF sG s2F _ _ _ _ _ _ _ Htest
              Hset A1 A2 A3 A4 A5 A6) as (s2G & RG).
  rewrite (bind_Ok_run _ _ _ _ _ RG).
  assert (InvD s2G) as HD2G by (by eapply (keeps_run InvD _ _ _ _ (IDact _ _ _ _ _ _) RG)).
  clear Hset A1 A2 A3 A4 A5 A6.
  cbn beta iota. rewrite modify_bind, logger_log_bind.
  match goal with
  | |- context [mbind _ _ ?s] => set (s2_19 := s)
  end.
  assert (InvD s2_19) as HD2_19 by done.
  destruct (Rmerged s2_19 HD2_19) as (s2_20 & R20 & HD2_20).
  rewrite (bind_Ok_run _ _ _ _ _ R20).
  destruct (Hagree s20 s2_20 HD20 HD2_20) as (_ & _ & _ & _ & _ & _ & _ & Ag & _ & Af).
  destruct (unify_features_replay s20 self1 s2_20 _ _ _ _ _ _ _ _ Af Ag Huni)
    as (s2H & RH).
  rewrite (bind_Ok_run _ _ _ _ _ RH), get_bind. cbn beta iota.
  assert (InvD s2H) as HD2H
    by (by eapply (keeps_run InvD _ _ _ _ (IDuni _ _ _ _ _ _ _) RH)).
  destruct HD2H as [[(_ & _ & _ & _ & Hs2 & Hw2 & _) _] _].
  rewrite !(bundle_weights_fields self1 s2H) by congruence.
  rewrite Hb1, lift_Ok_bind, Hb2, lift_Ok_bind, Hb3, lift_Ok_bind.
  by eexists.
Qed.

(** X14: calling [general_data_processing] a second time with the same
    arguments, on the learner as the first call left it, gives the same ten
    results, provided the feature generator was fit before the first call:
    the threshold the first call stored is adjusted to itself, the class
    weights it stored are used again, the cleaners are built anew from the
    same data, and the generator, which is not refit, transforms as
    before. *)
Theorem general_data_processing_repeatable (self self1 : learner) (X : DataFrame)
    (X_val X_test X_unlabeled : option DataFrame) (holdout_frac : Qc)
    (num_bag_folds : Z) (out : processed) :
  FeatureGenerator_is_fit (feature_generator self) = true →
  gdp X X_val X_test X_unlabeled holdout_frac num_bag_folds self = (Ok out, self1) →
  ∃ self2,
    gdp X X_val X_test X_unlabeled holdout_frac num_bag_folds self1 = (Ok out, self2).
Proof.
  intros Hfit Hrun.
  destruct (general_data_processing_second_call self self1 X X_val X_test
              X_unlabeled holdout_frac num_bag_folds out Hfit Hrun) as [self2 H2].
  exists self2. exact H2.
Qed.

End SecondCall.

Lemma general_data_processing_repeatable_witness :
  let self := example_learner MULTICLASS BALANCE_WEIGHT false true in
  ∃ out self1 self2,
    example_general_data_processing frame_train_aabb (Some frame_val_ab) None None
      (Q2Qc (1 # 10)) 3 self = (Ok out, self1)
    ∧ example_general_data_processing frame_train_aabb (Some frame_val_ab) None None
        (Q2Qc (1 # 10)) 3 self1 = (Ok out, self2).
Proof.
  intros self.
  destruct (example_general_data_processing frame_train_aabb (Some frame_val_ab)
              None None (Q2Qc (1 # 10)) 3 self) as [[out|e] self1] eqn:Hrun.
  - exists out, self1.
    destruct (general_data_processing_repeatable (λ X _ _, Ok X)
                example_Cleaner_construct example_Cleaner_fit_transform
                example_Cleaner_transform example_extract_label
                (λ _ _ _ _, Ok tt) (λ _ y, Ok y) (λ _, None) (λ _, MULTICLASS)
                example_extract_column (λ g, g) (λ _ X, Ok X)
                example_fit_transform_features self self1 frame_train_aabb
                (Some frame_val_ab) None None (Q2Qc (1 # 10)) 3 out eq_refl Hrun)
      as (self2 & H2).
    exists self2. split; [reflexivity|exact H2].
  - vm_compute in Hrun. discriminate Hrun.
Defined.


(** * A fit feature generator over the life of a learner *)

Section FitOnce.
Context {Cleaner LabelCleaner FeatureGenerator : Type}.
Local Abbreviation learner := (learner Cleaner LabelCleaner FeatureGenerator).
Local Abbreviation M := (M Cleaner LabelCleaner FeatureGenerator).
Variable augment_rare_classes : DataFrame → colname → Z → result DataFrame.
Variable Cleaner_construct : problem_type_t → colname → Z → result Cleaner.
Variable Cleaner_fit_transform : Cleaner → DataFrame → result (Cleaner * DataFrame).
Variable Cleaner_transform : Cleaner → DataFrame → result DataFrame.
Variable extract_label : colname → DataFrame → result (DataFrame * Series).
Variable LabelCleaner_construct :
  problem_type_t → Series → Series → option value → result LabelCleaner.
Variable LabelCleaner_transform : LabelCleaner → Series → result Series.
Variable LabelCleaner_num_classes : LabelCleaner → option Z.
Variable LabelCleaner_problem_type_transform : LabelCleaner → problem_type_t.
Variable extract_column : DataFrame → colname → result (DataFrame * option Series).
Variable FeatureGenerator_is_fit : FeatureGenerator → bool.
Variable FeatureGenerator_transform : FeatureGenerator → DataFrame → result DataFrame.
Variable fit_transform_features :
  FeatureGenerator → DataFrame → Series → problem_type_t → option Scorer →
  FeatureGenerator * result DataFrame.

Local Abbreviation apply_cleaner :=
  (_apply_cleaner_transform Cleaner_transform extract_label
     LabelCleaner_transform extract_column).
Local Abbreviation unify :=
  (unify_features LabelCleaner_problem_type_transform FeatureGenerator_is_fit
     FeatureGenerator_transform fit_transform_features).
Local Abbreviation gdp :=
  (general_data_processing augment_rare_classes Cleaner_construct
     Cleaner_fit_transform Cleaner_transform extract_label
     LabelCleaner_construct LabelCleaner_transform LabelCleaner_num_classes
     LabelCleaner_problem_type_transform extract_column
     FeatureGenerator_is_fit FeatureGenerator_transform fit_transform_features).



End FitOnce.




(** * What the feature generator is given (lines 267-298) *)

Section GeneratorCalls.
Context {Cleaner LabelCleaner FeatureGenerator : Type}.
Local Abbreviation learner := (learner Cleaner LabelCleaner FeatureGenerator).
Local Abbreviation M := (M Cleaner LabelCleaner FeatureGenerator).
Variable augment_rare_classes : DataFrame → colname → Z → result DataFrame.
Variable Cleaner_construct : problem_type_t → colname → Z → result Cleaner.
Variable Cleaner_fit_transform : Cleaner → DataFrame → result (Cleaner * DataFrame).
Variable Cleaner_transform : Cleaner → DataFrame → result DataFrame.
Variable extract_label : colname → DataFrame → result (DataFrame * Series).
Variable LabelCleaner_construct :
  problem_type_t → Series → Series → option value → result LabelCleaner.
Variable LabelCleaner_transform : LabelCleaner → Series → result Series.
Variable LabelCleaner_num_classes : LabelCleaner → option Z.
Variable LabelCleaner_problem_type_transform : LabelCleaner → problem_type_t.
Variable extract_column : DataFrame → colname → result (DataFrame * option Series).
Variable FeatureGenerator_is_fit : FeatureGenerator → bool.
Variable FeatureGenerator_transform : FeatureGenerator → DataFrame → result DataFrame.
Variable fit_transform_features :
  FeatureGenerator → DataFrame → Series → problem_type_t → option Scorer →
  FeatureGenerator * result DataFrame.

Local Abbreviation apply_cleaner :=
  (_apply_cleaner_transform Cleaner_transform extract_label
     LabelCleaner_transform extract_column).
Local Abbreviation unify :=
  (unify_features LabelCleaner_problem_type_transform FeatureGenerator_is_fit
     FeatureGenerator_transform fit_transform_features).
Local Abbreviation gdp :=
  (general_data_processing augment_rare_classes Cleaner_construct
     Cleaner_fit_transform Cleaner_transform extract_label
     LabelCleaner_construct LabelCleaner_transform LabelCleaner_num_classes
     LabelCleaner_problem_type_transform extract_column
     FeatureGenerator_is_fit FeatureGenerator_transform fit_transform_features).

#[local] Opaque concat_frames concat_series resplit.

(** X15: what one pass over the splits asks of the feature generator.
    When the generator is not fit and the pass returns, the generator was
    fit once, on the training, validation and unlabeled rows stacked in
    this order and on nothing else: the test rows take no part in the fit,
    the labels handed over are those of the training and validation
    splits followed by NaN for every unlabeled row, and the problem type
    is the one the label cleaner reports; the learner then holds the
    fitted generator, and the test split, when there is one, was passed
    through [transform] of the fitted generator afterwards.  When the
    generator is fit already, the same stacked frame and then the test
    split are passed through [transform], and the metadata is printed. *)
Theorem unify_features_generator_calls (s s' : learner) (X : DataFrame) (y : Series)
    (X_val : option DataFrame) (y_val : option Series)
    (X_test : option DataFrame) (y_test : option Series)
    (X_unlabeled : option DataFrame) r :
  unify X y X_val y_val X_test y_test X_unlabeled s = (Ok r, s') →
  ∃ X_super,
    concat_frames [Some X; X_val; None; X_unlabeled] = Ok X_super
    ∧ df_len X_super = (df_len X + len_opt X_val + len_opt X_unlabeled)%nat
    ∧ let test_calls := from_option (λ Xt, [CallTransform Xt]) [] X_test in
      if FeatureGenerator_is_fit (feature_generator s) then
        feature_generator s' = feature_generator s
        ∧ fg_calls s'
          = fg_calls s ++ CallTransform X_super :: test_calls
              ++ [CallPrintFeatureMetadataInfo]
      else
        ∃ y_super lc T,
          concat_series [Some y; y_val; None;
                         (λ U, series_const VNaN (df_index U)) <$> X_unlabeled]
            = Ok y_super
          ∧ label_cleaner s = Some lc
          ∧ fit_transform_features (feature_generator s) X_super y_super
              (LabelCleaner_problem_type_transform lc) (eval_metric s)
            = (feature_generator s', Ok T)
          ∧ fg_calls s' = fg_calls s ++ CallFitTransform X_super true :: test_calls.
Proof.
  unfold unify_features, feature_generator_transform, self_fit_transform_features.
  cbv zeta. run_method.
  destruct (concat_frames [Some X; X_val; None; X_unlabeled]) as [X_super|] eqn:Hc;
    [|done].
  intros Hrun. exists X_super. split; [done|]. split.
  { rewrite (concat_frames_len _ _ Hc).
    cbn [fmap list_fmap sum_list_with id len_opt from_option].
    destruct X_val, X_unlabeled; simpl; unfold id; lia. }
  revert Hrun. simpl.
  destruct (FeatureGenerator_is_fit (feature_generator s)).
  - destruct (FeatureGenerator_transform (feature_generator s) X_super) as [T|]; [|done].
    simpl. destruct X_test as [Xt|]; simpl.
    + destruct (FeatureGenerator_transform (feature_generator s) Xt) as [Xt'|]; [|done].
      simpl. destruct (resplit T _ 0) as [ds|]; [|done]. simpl.
      destruct ds as [|[d0|] [|d1 [|d2 [|d3 [|]]]]]; try done.
      intros [= _ <-]. simpl. split; [done|]. by rewrite <-!app_assoc.
    + destruct (resplit T _ 0) as [ds|]; [|done]. simpl.
      destruct ds as [|[d0|] [|d1 [|d2 [|d3 [|]]]]]; try done.
      intros [= _ <-]. simpl. split; [done|]. by rewrite <-!app_assoc.
  - destruct (concat_series _) as [y_super|]; [|done]. simpl.
    destruct (label_cleaner s) as [lc|]; [|done]. simpl.
    destruct (fit_transform_features _ _ _ _ _) as [g' [T|]] eqn:Hf; [|done].
    simpl. destruct X_test as [Xt|]; simpl.
    + destruct (FeatureGenerator_transform g' Xt) as [Xt'|]; [|done].
      simpl. destruct (resplit T _ 0) as [ds|]; [|done]. simpl.
      destruct ds as [|[d0|] [|d1 [|d2 [|d3 [|]]]]]; try done.
      intros [= _ <-]. simpl. exists y_super, lc, T. split_and!; try done.
      by rewrite <-!app_assoc.
    + destruct (resplit T _ 0) as [ds|]; [|done]. simpl.
      destruct ds as [|[d0|] [|d1 [|d2 [|d3 [|]]]]]; try done.
      intros [= _ <-]. simpl. exists y_super, lc, T. by split_and!.
Qed.

#[local] Transparent concat_frames concat_series resplit.

End GeneratorCalls.

Lemma unify_features_generator_calls_witness :
  let s := with_label_cleaner (Some tt) (example_learner MULTICLASS None false false) in
  let y := series_of (VInt <$> [0; 1; 0]) in
  let y_val := Some (series_of (VInt <$> [1; 0])) in
  ∃ r s' X_super y_super T,
    example_unify_features split_train y (Some split_val) y_val (Some split_test) None
      (Some split_unlabeled) s = (Ok r, s')
    ∧ concat_frames [Some split_train; Some split_val; None; Some split_unlabeled]
      = Ok X_super
    ∧ df_len X_super = 7%nat
    ∧ concat_series [Some y; y_val; None;
                     Some (series_const VNaN (df_index split_unlabeled))] = Ok y_super
    ∧ example_fit_transform_features false X_super y_super MULTICLASS None
      = (feature_generator s', Ok T)
    ∧ fg_calls s' = [CallFitTransform X_super true; CallTransform split_test].
Proof.
  intros s y y_val.
  destruct (example_unify_features split_train y (Some split_val) y_val
              (Some split_test) None (Some split_unlabeled) s) as [[r|e] s'] eqn:Hrun.
  - destruct (unify_features_generator_calls (λ _, MULTICLASS) (λ g, g) (λ _ X, Ok X)
                example_fit_transform_features s s' split_train y (Some split_val)
                y_val (Some split_test) None (Some split_unlabeled) r Hrun)
      as (X_super & Hc & Hlen & y_super & lc & T & Hy & _ & Hf & Hcalls).
    exists r, s', X_super, y_super, T. split_and!; try done.
  - vm_compute in Hrun. discriminate Hrun.
Defined.


(** * The learner after [general_data_processing] has returned *)

Section LearnerAfter.
Context {Cleaner LabelCleaner FeatureGenerator : Type}.
Local Abbreviation learner := (learner Cleaner LabelCleaner FeatureGenerator).
Local Abbreviation M := (M Cleaner LabelCleaner FeatureGenerator).
Variable augment_rare_classes : DataFrame → colname → Z → result DataFrame.
Variable Cleaner_construct : problem_type_t → colname → Z → result Cleaner.
Variable Cleaner_fit_transform : Cleaner → DataFrame → result (Cleaner * DataFrame).
Variable Cleaner_transform : Cleaner → DataFrame → result DataFrame.
Variable extract_label : colname → DataFrame → result (DataFrame * Series).
Variable LabelCleaner_construct :
  problem_type_t → Series → Series → option value → result LabelCleaner.
Variable LabelCleaner_transform : LabelCleaner → Series → result Series.
Variable LabelCleaner_num_classes : LabelCleaner → option Z.
Variable LabelCleaner_problem_type_transform : LabelCleaner → problem_type_t.
Variable extract_column : DataFrame → colname → result (DataFrame * option Series).
Variable FeatureGenerator_is_fit : FeatureGenerator → bool.
Variable FeatureGenerator_transform : FeatureGenerator → DataFrame → result DataFrame.
Variable fit_transform_features :
  FeatureGenerator → DataFrame → Series → problem_type_t → option Scorer →
  FeatureGenerator * result DataFrame.

Local Abbreviation apply_cleaner :=
  (_apply_cleaner_transform Cleaner_transform extract_label
     LabelCleaner_transform extract_column).
Local Abbreviation unify :=
  (unify_features LabelCleaner_problem_type_transform FeatureGenerator_is_fit
     FeatureGenerator_transform fit_transform_features).
Local Abbreviation gdp :=
  (general_data_processing augment_rare_classes Cleaner_construct
     Cleaner_fit_transform Cleaner_transform extract_label
     LabelCleaner_construct LabelCleaner_transform LabelCleaner_num_classes
     LabelCleaner_problem_type_transform extract_column
     FeatureGenerator_is_fit FeatureGenerator_transform fit_transform_features).



End LearnerAfter.



(** * Weights written on a frame whose row keys are not those of the labels *)

Lemma series_map_lookup (cw : list (value * Qc)) (y : Series) (k : value) :
  assoc_lookup k (series_map cw y)
  = (λ c, from_option VNum VNaN (assoc_lookup c cw)) <$> assoc_lookup k y.
Proof.
  unfold series_map. induction y as [|[k' c] y IH]; simpl; [done|].
  by destruct (decide (k = k')).
Qed.

(** A series with other row keys than the frame is written by key. *)
Lemma df_setitem_by_key (c : colname) (w : Series) (X : DataFrame) :
  df_index X ≠ [] → s_index w ≠ df_index X →
  df_setitem c w X
  = if decide (NoDup (s_index w))
    then Ok (df_set c ((λ k, default VNaN (assoc_lookup k w)) <$> df_index X) X)
    else Raise ValueError_duplicate_axis.
Proof.
  intros Hrows Hidx. unfold df_setitem.
  destruct (decide (df_index X = [] ∧ w ≠ [])) as [[? _]|_]; [done|].
  cbv zeta. by rewrite decide_False.
Qed.

#[local] Opaque df_setitem.

Section AlignedWeights.
Context {Cleaner LabelCleaner FeatureGenerator : Type}.
Local Abbreviation learner := (learner Cleaner LabelCleaner FeatureGenerator).

(** X17: the weights are written by row key, not by position.  With class
    weights stored, on a frame that has rows and whose row keys are not
    those of the labels in the same order: when no key of the labels is
    repeated, the row of the frame with key [k] gets the stored weight of
    the label that has key [k], and NaN when no label has that key or its
    class has no stored weight, the learner and the row keys of the frame
    being as before; when a key of the labels is repeated, the call raises
    a [ValueError] and leaves the learner as it was. *)
Theorem set_predefined_weights_aligns_on_row_keys (self : learner)
    (X : DataFrame) (y : Series) (cw : list (value * Qc)) :
  sample_weight self = BALANCE_WEIGHT →
  problem_type self ∈ [BINARY; MULTICLASS] →
  class_weights self = Some cw →
  df_has_column BALANCE_WEIGHT X = false →
  df_index X ≠ [] →
  s_index y ≠ df_index X →
  (NoDup (s_index y) →
   ∃ X',
     set_predefined_weights X y self = (Ok X', self)
     ∧ df_index X' = df_index X
     ∧ df_colnames X' = df_colnames X ++ [BALANCE_WEIGHT]
     ∧ (∀ c, c ≠ BALANCE_WEIGHT → df_get c X' = df_get c X)
     ∧ ∀ i k, df_index X !! i = Some k →
         assoc_lookup BALANCE_WEIGHT (df_columns X') ≫= (.!! i)
         = Some (match assoc_lookup k y with
                 | Some c => from_option VNum VNaN (assoc_lookup c cw)
                 | None => VNaN
                 end))
  ∧ (¬ NoDup (s_index y) →
     set_predefined_weights X y self = (Raise ValueError_duplicate_axis, self)).
Proof.
  intros Hsw Hpt Hcw Hcol Hrows Hidx.
  assert (set_predefined_weights X y self
          = (df_setitem BALANCE_WEIGHT (series_map cw y) X, self)) as Hrun.
  { unfold set_predefined_weights. run_method. rewrite Hsw, Hcol.
    rewrite (bool_decide_eq_false_2 (BALANCE_WEIGHT ∉ _)).
    2:{ intros Hn. apply Hn. apply list_elem_of_further, list_elem_of_here. }
    rewrite (bool_decide_eq_false_2 (problem_type self ∉ _)) by (by intros Hn).
    simpl. rewrite Hcw. run_method. by rewrite Hcw. }
  rewrite Hrun. clear Hrun.
  rewrite df_setitem_by_key by (by rewrite ?series_map_index).
  rewrite series_map_index.
  split.
  - intros Hnd. rewrite decide_True by done. eexists. split; [reflexivity|].
    split; [done|]. split; [by rewrite df_colnames_set, Hcol|].
    split; [intros c Hc; by apply df_get_set_ne|].
    intros i k Hi. unfold df_set. cbn [df_columns].
    rewrite assoc_lookup_set_eq. cbn [mbind option_bind].
    rewrite list_lookup_fmap, Hi. cbn [fmap option_fmap option_map].
    rewrite series_map_lookup. by destruct (assoc_lookup k y).
  - intros Hnd. by rewrite decide_False.
Qed.

End AlignedWeights.

#[local] Transparent df_setitem.

Lemma set_predefined_weights_aligns_on_row_keys_witness :
  let cw := [(VStr "a", Q2Qc (3 # 4)); (VStr "b", Q2Qc (3 # 2))] in
  let self := with_class_weights (Some cw) (plain_learner MULTICLASS BALANCE_WEIGHT false) in
  let y := zip (VInt <$> [2; 1; 0]) [VStr "a"; VStr "a"; VStr "b"] in
  ∃ X',
    set_predefined_weights (frame_x 3) y self = (Ok X', self)
    ∧ assoc_lookup BALANCE_WEIGHT (df_columns X')
      = Some [VNum (Q2Qc (3 # 2)); VNum (Q2Qc (3 # 4)); VNum (Q2Qc (3 # 4))].
Proof.
  intros cw self y.
  destruct (set_predefined_weights_aligns_on_row_keys self (frame_x 3) y cw)
    as [Hok _].
  - reflexivity.
  - apply list_elem_of_further, list_elem_of_here.
  - reflexivity.
  - reflexivity.
  - discriminate.
  - vm_compute. discriminate.
  - destruct Hok as (X' & Hrun & _).
    + apply (bool_decide_unpack _). reflexivity.
    + exists X'. split; [exact Hrun|].
      revert Hrun. vm_compute. by intros [= <-].
Defined.
